(** * OpenSafeGuard data loaders: a shallow embedding and its properties

    The development follows the Python sources under [dataloader/]:
    [base.py] (the Record type [DataItem], the id generator and the generic
    per-row driver [BaseDataLoader.load]), [aegis.py], [beavertails.py],
    [bingoguard.py] and [harmbench.py].

    Python values met in raw rows are embedded in the type [pyval];
    exceptions are embedded in the error monad [result].  Strings are
    sequences of code points below 256 (Rocq's [ascii]); whitespace and
    letter case follow Python's [str] methods on that range. *)

From Stdlib Require Import ZArith NArith Lia Ascii String DecimalString DecimalN.
From stdpp Require Import base option list strings gmap.

Local Open Scope string_scope.
Local Open Scope Z_scope.

(** ** Exceptions *)

Inductive exn : Type :=
| TypeError
| AttributeError
| KeyError
| IndexError
| ValueError
| FetchError (msg : string).

Inductive result (A : Type) : Type :=
| Ok (a : A)
| Raise (e : exn).
Arguments Ok {A} a.
Arguments Raise {A} e.

(** Sequencing: the first exception raised aborts what follows.  The
    notation [x ← m; k] of stdpp is used for it. *)
#[global] Instance result_ret : MRet result := fun _ a => Ok a.
#[global] Instance result_bind : MBind result := fun _ _ k m =>
  match m with
  | Ok a => k a
  | Raise e => Raise e
  end.

(** ** Python values *)

#[warnings="-register-all"]
Inductive pyval : Type :=
| PNone
| PBool (b : bool)
| PInt (z : Z)
| PStr (s : string)
| PList (l : list pyval)
| PDict (d : list (string * pyval)).

(** A [dict] with string keys, in insertion order. *)
Definition pydict : Type := list (string * pyval).

Fixpoint dict_lookup {V : Type} (k : string) (d : list (string * V)) : option V :=
  match d with
  | [] => None
  | (k', v) :: d' => if String.eqb k' k then Some v else dict_lookup k d'
  end.

(** [d.get(k, dflt)]; [d.get(k)] is [dict_get_or d k PNone]. *)
Definition dict_get_or (d : pydict) (k : string) (dflt : pyval) : pyval :=
  default dflt (dict_lookup k d).

Definition dict_get (d : pydict) (k : string) : pyval := dict_get_or d k PNone.

(** [k in d] *)
Definition dict_mem {V : Type} (k : string) (d : list (string * V)) : bool :=
  bool_decide (is_Some (dict_lookup k d)).

(** [d[k] = v]: an existing key keeps its place, a new key goes last. *)
Fixpoint dict_set (k : string) (v : pyval) (d : pydict) : pydict :=
  match d with
  | [] => [(k, v)]
  | (k', v') :: d' =>
      if String.eqb k' k then (k', v) :: d' else (k', v') :: dict_set k v d'
  end.

(** Truth value of an object ([bool(v)]). *)
Definition truthy (v : pyval) : bool :=
  match v with
  | PNone => false
  | PBool b => b
  | PInt z => negb (z =? 0)
  | PStr s => negb (String.eqb s "")
  | PList l => negb (bool_decide (l = []))
  | PDict d => negb (bool_decide (d = []))
  end.

Definition int_of_bool (b : bool) : Z := if b then 1 else 0.

(** [a == b].  [bool] is a subclass of [int]; dictionaries compare by
    content, whatever the insertion order. *)
Fixpoint py_eq (a b : pyval) {struct a} : bool :=
  match a, b with
  | PNone, PNone => true
  | PBool x, PBool y => Bool.eqb x y
  | PBool x, PInt y => int_of_bool x =? y
  | PInt x, PBool y => x =? int_of_bool y
  | PInt x, PInt y => x =? y
  | PStr x, PStr y => String.eqb x y
  | PList x, PList y =>
      (fix go (x y : list pyval) {struct x} : bool :=
         match x, y with
         | [], [] => true
         | u :: x', v :: y' => py_eq u v && go x' y'
         | _, _ => false
         end) x y
  | PDict x, PDict y =>
      (length x =? length y)%nat &&
      (fix go (x : list (string * pyval)) {struct x} : bool :=
         match x with
         | [] => true
         | (k, u) :: x' =>
             match dict_lookup k y with
             | Some v => py_eq u v
             | None => false
             end && go x'
         end) x
  | _, _ => false
  end.

Definition py_ne (a b : pyval) : bool := negb (py_eq a b).

(** Lists and dicts are unhashable. *)
Definition hashable (v : pyval) : bool :=
  match v with
  | PList _ | PDict _ => false
  | _ => true
  end.

(** [row.get] needs a mapping: any other object has no attribute [get]. *)
Definition as_dict (row : pyval) : result pydict :=
  match row with
  | PDict d => Ok d
  | _ => Raise AttributeError
  end.

(** ** Strings *)

Module Str.

Fixpoint starts_with (p s : string) : bool :=
  match p, s with
  | EmptyString, _ => true
  | String a p', String b s' => Ascii.eqb a b && starts_with p' s'
  | String _ _, EmptyString => false
  end.

(** [sub in s] *)
Fixpoint contains (sub s : string) : bool :=
  starts_with sub s ||
  match s with
  | EmptyString => false
  | String _ s' => contains sub s'
  end.

(** [str.isspace] on code points below 256. *)
Definition isspace (c : ascii) : bool :=
  let n := N_of_ascii c in
  ((9 <=? n) && (n <=? 13) || (28 <=? n) && (n <=? 32)
   || (n =? 133) || (n =? 160))%N.

Fixpoint lstrip (s : string) : string :=
  match s with
  | EmptyString => EmptyString
  | String c s' => if isspace c then lstrip s' else s
  end.

(** [rstrip] keeps a character when it, or anything after it, is not
    whitespace. *)
Fixpoint rstrip (s : string) : string :=
  match s with
  | EmptyString => EmptyString
  | String c s' =>
      match rstrip s' with
      | EmptyString => if isspace c then EmptyString else String c EmptyString
      | r => String c r
      end
  end.

Definition strip (s : string) : string := rstrip (lstrip s).

(** [str.lower] on code points below 256: A-Z and the Latin-1 capitals. *)
Definition lower_char (c : ascii) : ascii :=
  let n := N_of_ascii c in
  if ((65 <=? n) && (n <=? 90)
      || (192 <=? n) && (n <=? 222) && negb (n =? 215))%N
  then ascii_of_N (n + 32) else c.

Fixpoint lower (s : string) : string :=
  match s with
  | EmptyString => EmptyString
  | String c s' => String (lower_char c) (lower s')
  end.

(** [s.split(sep)] for a one-character separator: the pieces in order,
    never an empty list. *)
Fixpoint split (sep : ascii) (s : string) : list string :=
  match s with
  | EmptyString => [EmptyString]
  | String c s' =>
      if Ascii.eqb c sep then EmptyString :: split sep s'
      else match split sep s' with
           | p :: ps => String c p :: ps
           | [] => [String c EmptyString]
           end
  end.

(** [sep.join(parts)] *)
Fixpoint join (sep : string) (parts : list string) : string :=
  match parts with
  | [] => EmptyString
  | [p] => p
  | p :: ps => p +:+ sep +:+ join sep ps
  end.

Fixpoint zeros (k : nat) : string :=
  match k with
  | O => EmptyString
  | S k' => String "0" (zeros k')
  end.

(** Decimal digits of a natural number, as [str(n)] prints them. *)
Definition dec (n : N) : string := NilEmpty.string_of_uint (N.to_uint n).

(** Left padding with zeros up to width [w]; longer texts are kept whole. *)
Definition pad0 (w : nat) (s : string) : string :=
  zeros (w - String.length s) +:+ s.

(** [format(z, "06d")]: the sign counts in the width. *)
Definition format_06d (z : Z) : string :=
  if z <? 0 then "-" +:+ pad0 5 (dec (Z.abs_N z))
  else pad0 6 (dec (Z.to_N z)).

(** [str(z)] for an integer. *)
Definition of_Z (z : Z) : string :=
  if z <? 0 then "-" +:+ dec (Z.abs_N z) else dec (Z.to_N z).

(** Reading a run of decimal digits back ([int(s)] on digits). *)
Definition parse_dec (s : string) : option N :=
  N.of_uint <$> NilEmpty.uint_of_string s.

End Str.

(** [str(v)].  Inside containers, strings are quoted without escapes: the
    loaders only test such a text for blankness and for the word none, and
    a container's text starts with a bracket.  The integers of a raw row
    are those that Arrow, pandas or [json.load] deliver, all within the
    digits that [str] prints. *)
Fixpoint py_str_aux (quoted : bool) (v : pyval) {struct v} : string :=
  match v with
  | PNone => "None"
  | PBool true => "True"
  | PBool false => "False"
  | PInt z => Str.of_Z z
  | PStr s => if quoted then "'" +:+ s +:+ "'" else s
  | PList l =>
      "[" +:+ Str.join ", " (map (py_str_aux true) l) +:+ "]"
  | PDict d =>
      "{" +:+ Str.join ", "
                (map (fun kv => "'" +:+ fst kv +:+ "': " +:+ py_str_aux true (snd kv)) d)
          +:+ "}"
  end.

Definition py_str (v : pyval) : string := py_str_aux false v.

(** ** The Record ([DataItem], base.py) *)

Record DataItem : Type := mkDataItem {
  id : string;
  query : pyval;
  response : pyval;
  query_harmful_label : option bool;
  response_harmful_label : option bool;
  response_refusal_label : option bool;
  category : pyval;
  extra : pydict;
}.

(** [item.id = new_id] *)
Definition set_id (new_id : string) (item : DataItem) : DataItem :=
  mkDataItem new_id (query item) (response item) (query_harmful_label item)
    (response_harmful_label item) (response_refusal_label item)
    (category item) (extra item).

(** [enumerate(l, start)] *)
Fixpoint enumerate {A : Type} (start : Z) (l : list A) : list (Z * A) :=
  match l with
  | [] => []
  | x :: l' => (start, x) :: enumerate (start + 1) l'
  end.

(** ** The base loader (base.py) *)

(** What a concrete loader class provides.  [mapping] receives the text that
    [DataItem]'s default factory draws for [id] ([str(uuid.uuid4())]) and
    the raw row; it may raise, and it may return [None] where a Record is
    expected. *)
Record LoaderClass : Type := {
  REGISTER_NAME : string;
  mapping : string → pyval → result (option DataItem);
}.

(** The instance attributes set by [__init__]. *)
Record Loader : Type := {
  path : string;
  init_kwargs : pydict;
}.

(** What [load_dataset] hands back: a single split, or a [DatasetDict]
    (the only one of the two with a [keys] attribute). *)
Inductive fetched : Type :=
| Dataset (rows : list pyval)
| DatasetDict (splits : list (string * list pyval)).

(** [{**d, **more}] *)
Definition dict_update (d more : pydict) : pydict :=
  fold_left (fun acc kv => dict_set (fst kv) (snd kv) acc) more d.

Module BaseDataLoader.
Section WithClass.

Variable cls : LoaderClass.

(** The external fetch collaborator. *)
Variable load_dataset : string → pydict → result fetched.

(** The identifier drawn by the default factory for the Record built at
    counter [i]. *)
Variable uuid4 : Z → string.

Definition generate_id (idx : Z) : string :=
  REGISTER_NAME cls +:+ "-" +:+ Str.format_06d idx.

(** Steps 1 to 3 of [load]: merge the keyword arguments, fetch, pick the
    split.  Iterating a [DatasetDict] that lacks the split yields its
    keys. *)
Definition fetch_rows (self : Loader) (split : pyval) (load_kwargs : pydict)
  : result (list pyval) :=
  let final_kwargs :=
    dict_update (dict_set "split" split (init_kwargs self)) load_kwargs in
  let current_split := dict_get_or final_kwargs "split" (PStr "train") in
  dataset ← load_dataset (path self) final_kwargs;
  match dataset with
  | Dataset rows => Ok rows
  | DatasetDict splits =>
      if hashable current_split then
        match current_split with
        | PStr s =>
            match dict_lookup s splits with
            | Some rows => Ok rows
            | None => Ok (PStr <$> splits.*1)
            end
        | _ => Ok (PStr <$> splits.*1)
        end
      else Raise TypeError
  end.

(** Step 4, the loop over [enumerate(dataset, 1)].  Assigning [id] on
    [None] raises [AttributeError]. *)
Fixpoint map_rows (numbered : list (Z * pyval)) : result (list DataItem) :=
  match numbered with
  | [] => Ok []
  | (i, row) :: rest =>
      item ← mapping cls (uuid4 i) row;
      match item with
      | None => Raise AttributeError
      | Some it =>
          results ← map_rows rest;
          Ok (set_id (generate_id i) it :: results)
      end
  end.

Definition load (self : Loader) (split : pyval) (load_kwargs : pydict)
  : result (list DataItem) :=
  dataset ← fetch_rows self split load_kwargs;
  map_rows (enumerate 1 dataset).

End WithClass.
End BaseDataLoader.

(** [x in v] for a text [x]: substring of a text, key of a dict, element of
    a list; other objects are not iterable. *)
Definition py_in (x : string) (v : pyval) : result bool :=
  match v with
  | PStr s => Ok (Str.contains x s)
  | PDict d => Ok (dict_mem x d)
  | PList l => Ok (existsb (fun e => py_eq e (PStr x)) l)
  | _ => Raise TypeError
  end.

(** [a or b] *)
Definition py_or (a b : pyval) : pyval := if truthy a then a else b.

(** ** aegis.py *)

Module AegisV1.

Definition label_keys : list string :=
  ["labels_0"; "labels_1"; "labels_2"; "labels_3"; "labels_4"].

(** [collections.Counter]: one entry per distinct key, in order of first
    occurrence. *)
Fixpoint counter_add (k : pyval) (c : list (pyval * nat)) : list (pyval * nat) :=
  match c with
  | [] => [(k, 1%nat)]
  | (k', n) :: c' =>
      if py_eq k' k then (k', S n) :: c' else (k', n) :: counter_add k c'
  end.

Definition Counter (l : list pyval) : result (list (pyval * nat)) :=
  if forallb hashable l
  then Ok (fold_left (fun c k => counter_add k c) l [])
  else Raise TypeError.

(** [max(items, key=count)]: the first entry with the largest count. *)
Fixpoint first_max (best : pyval * nat) (c : list (pyval * nat)) : pyval * nat :=
  match c with
  | [] => best
  | kv :: c' => first_max (if (snd best <? snd kv)%nat then kv else best) c'
  end.

(** [counts.most_common(1)[0]] *)
Definition most_common_1 (c : list (pyval * nat)) : result (pyval * nat) :=
  match c with
  | [] => Raise IndexError
  | kv :: c' => Ok (first_max kv c')
  end.

Definition is_valid_label (v : pyval) : bool :=
  truthy v && py_ne v (PStr "None").

Definition valid_labels (row : pydict) : list pyval :=
  List.filter is_valid_label (dict_get row <$> label_keys).

Definition _get_majority_label (row : pydict) : result pyval :=
  let valid := valid_labels row in
  if bool_decide (valid = []) then Ok (PStr "None")
  else
    counts ← Counter valid;
    top ← most_common_1 counts;
    Ok (fst top).

Definition is_not_None (v : pyval) : bool :=
  match v with
  | PNone => false
  | _ => true
  end.

Definition mapping (uid : string) (raw : pyval) : result (option DataItem) :=
  row ← as_dict raw;
  majority_label ← _get_majority_label row;
  let labels := List.filter is_not_None (dict_get row <$> label_keys) in
  let is_harmful := forallb (fun label => py_ne label (PStr "Safe")) labels in
  Ok (Some {|
    id := uid;
    query := dict_get row "text";
    response := PNone;
    query_harmful_label := Some is_harmful;
    response_harmful_label := None;
    response_refusal_label := None;
    category := majority_label;
    extra := [("text_type", dict_get row "text_type");
              ("labels", PList (dict_get row <$> label_keys))];
  |}).

Definition cls : LoaderClass :=
  Build_LoaderClass "aegis-v1" mapping.

End AegisV1.

Module AegisV2.

Definition mapping (uid : string) (raw : pyval) : result (option DataItem) :=
  row ← as_dict raw;
  let q_harmful := py_eq (dict_get row "prompt_label") (PStr "unsafe") in
  let r_harmful := py_eq (dict_get row "response_label") (PStr "unsafe") in
  let is_refusal :=
    py_eq (dict_get row "response_label_source")
          (PStr "refusal_data_augmentation") in
  Ok (Some {|
    id := uid;
    query := dict_get row "prompt";
    response := dict_get row "response";
    query_harmful_label := Some q_harmful;
    response_harmful_label := Some r_harmful;
    response_refusal_label := Some is_refusal;
    category := dict_get_or row "violated_categories" (PStr "");
    extra := [("reconstruction_id", dict_get row "reconstruction_id_if_redacted");
              ("prompt_label_source", dict_get row "prompt_label_source");
              ("response_label_source", dict_get row "response_label_source")];
  |}).

Definition cls : LoaderClass :=
  Build_LoaderClass "aegis-v2" mapping.

End AegisV2.

(** ** beavertails.py *)

Module BeaverTails.

(** The names of the flags whose value is true, in dictionary order. *)
Definition violated (flags : pydict) : list string :=
  (List.filter (fun kv => truthy (snd kv)) flags).*1.

Definition _extract_categories (category_dict : pyval) : result string :=
  if negb (truthy category_dict) then Ok ""
  else match category_dict with
       | PDict flags => Ok (Str.join ";" (violated flags))
       | _ => Raise AttributeError
       end.

Definition mapping (uid : string) (raw : pyval) : result (option DataItem) :=
  row ← as_dict raw;
  let is_safe := dict_get_or row "is_safe" (PBool true) in
  let overall_harmful := negb (truthy is_safe) in
  let category_dict := dict_get_or row "category" (PDict []) in
  violated_str ← _extract_categories category_dict;
  Ok (Some {|
    id := uid;
    query := dict_get row "prompt";
    response := dict_get row "response";
    query_harmful_label := Some overall_harmful;
    response_harmful_label := Some overall_harmful;
    response_refusal_label := None;
    category := if (String.length violated_str =? 0)%nat then PNone
                else PStr violated_str;
    extra := [("raw_category_map", category_dict)];
  |}).

Definition cls : LoaderClass :=
  Build_LoaderClass "beavertails" mapping.

End BeaverTails.

(** ** bingoguard.py *)

Module BingoGuard.

Definition isdigit (c : ascii) : bool :=
  let n := N_of_ascii c in ((48 <=? n) && (n <=? 57))%N.

(** The longest run of digits at the head of a text. *)
Fixpoint digits_prefix (s : string) : string :=
  match s with
  | EmptyString => EmptyString
  | String c s' => if isdigit c then String c (digits_prefix s') else EmptyString
  end.

Fixpoint drop_prefix (p s : string) : string :=
  match p, s with
  | String _ p', String _ s' => drop_prefix p' s'
  | _, _ => s
  end.

(** The pattern [#level:\s*(\d+)] anchored at the head of [s]: the text of
    group 1 when it matches.  Whitespace and digits are disjoint, so the
    greedy [\s*] never has to give anything back. *)
Definition match_level_at (s : string) : option string :=
  if Str.starts_with "#level:" s then
    let ds := digits_prefix (Str.lstrip (drop_prefix "#level:" s)) in
    if String.eqb ds "" then None else Some ds
  else None.

(** [re.search]: the leftmost position at which the pattern matches. *)
Fixpoint re_search_level (s : string) : option string :=
  match match_level_at s with
  | Some ds => Some ds
  | None =>
      match s with
      | EmptyString => None
      | String _ s' => re_search_level s'
      end
  end.

(** The longest run of digits that [int] converts: CPython's default
    [sys.int_info.default_max_str_digits]. *)
Definition int_max_str_digits : N := 4300.

(** [int(ds)] on a run of digits: ValueError beyond the limit, leading
    zeros counted. *)
Definition int_of_digits (ds : string) : result pyval :=
  if (int_max_str_digits <? N.of_nat (String.length ds))%N then Raise ValueError
  else
    match Str.parse_dec ds with
    | Some n => Ok (PInt (Z.of_N n))
    | None => Raise ValueError
    end.

Definition _extract_severity (label_str : pyval) : result pyval :=
  if truthy label_str then
    found ← py_in "#level:" label_str;
    if (found : bool) then
      match label_str with
      | PStr s =>
          match re_search_level s with
          | Some ds => int_of_digits ds
          | None => Ok PNone
          end
      | _ => Raise TypeError
      end
    else Ok PNone
  else Ok PNone.

Definition _parse_safety (prompt_label : pyval) : result (bool * string) :=
  if negb (truthy prompt_label) then Ok (false, "safe")
  else
    is_harmful ← py_in "unsafe" prompt_label;
    has_colon ← py_in ":" prompt_label;
    if (has_colon : bool) then
      match prompt_label with
      | PStr s => Ok (is_harmful, Str.strip (List.last (Str.split ":" s) ""))
      | _ => Raise AttributeError
      end
    else if (is_harmful : bool) then Ok (is_harmful, "unsafe")
    else Ok (is_harmful, "safe").

(** The test that blanks the response label. *)
Definition no_response (response_text : pyval) : bool :=
  negb (AegisV1.is_not_None response_text)
  || String.eqb (Str.strip (py_str response_text)) ""
  || String.eqb (Str.lower (py_str response_text)) "none".

Definition mapping (uid : string) (raw : pyval) : result (option DataItem) :=
  row ← as_dict raw;
  let p_label_raw := dict_get_or row "prompt_label" (PStr "") in
  let r_label_raw := dict_get_or row "label" (PStr "") in
  let response_text := dict_get row "response" in
  '(is_harmful, category_name) ← _parse_safety p_label_raw;
  let final_r_harmful :=
    if no_response response_text then None else Some is_harmful in
  severity ← _extract_severity r_label_raw;
  Ok (Some {|
    id := uid;
    query := dict_get row "prompt";
    response := response_text;
    query_harmful_label := Some is_harmful;
    response_harmful_label := final_r_harmful;
    response_refusal_label := None;
    category := PStr category_name;
    extra := [("severity", severity);
              ("prompt_label", p_label_raw);
              ("label_field", r_label_raw)];
  |}).

Definition cls : LoaderClass := Build_LoaderClass "bingoguard" mapping.

End BingoGuard.

(** ** harmbench.py *)

(** A [pandas.DataFrame]: its column names and its rows, each row read by
    column name. *)
Record DataFrame : Type := {
  columns : list string;
  records : list pydict;
}.

(** [sum(values)], starting from the integer 0. *)
Fixpoint py_sum (values : list pyval) : result Z :=
  match values with
  | [] => Ok 0
  | PInt z :: rest => total ← py_sum rest; Ok (z + total)
  | PBool b :: rest => total ← py_sum rest; Ok (int_of_bool b + total)
  | _ :: _ => Raise TypeError
  end.

Fixpoint dict_remove (k : string) (d : pydict) : pydict :=
  match d with
  | [] => []
  | (k', v) :: d' =>
      if String.eqb k' k then dict_remove k d' else (k', v) :: dict_remove k d'
  end.

Module HarmBench.

(** [mapping] is a stub ([pass]): it returns [None]. *)
Definition mapping (uid : string) (raw : pyval) : result (option DataItem) :=
  Ok None.

Definition cls : LoaderClass := Build_LoaderClass "harmbench" mapping.

Definition allow_listed (row : pydict) : bool :=
  let v := dict_get row "FunctionalCategory" in
  py_eq v (PStr "standard") || py_eq v (PStr "copyright").

Section Files.

(** The file readers ([pd.read_csv], [open] with [json.load]) and the
    hub fetch are external collaborators. *)
Variable read_csv : pyval → result DataFrame.
Variable json_load : pyval → result (list (string * list pydict)).
Variable load_dataset : string → pydict → result fetched.
Variable uuid4 : Z → string.

Definition csv_item (numbered : Z * pydict) : DataItem :=
  let '(i, row) := numbered in
  set_id (BaseDataLoader.generate_id cls i) {|
    id := uuid4 i;
    query := dict_get row "Behavior";
    response := PNone;
    query_harmful_label := Some true;
    response_harmful_label := None;
    response_refusal_label := None;
    category := dict_get_or row "SemanticCategory" (PStr "");
    extra := [("behavior_id", dict_get row "BehaviorID");
              ("functional_category", dict_get row "FunctionalCategory");
              ("tags", dict_get row "Tags");
              ("context_string", dict_get row "ContextString");
              ("source_file", PStr "behavior_csv")];
  |}.

Definition _parse_query_csv (path : pyval) (start_idx : Z)
  : result (list DataItem) :=
  df ← read_csv path;
  if bool_decide ("FunctionalCategory" ∈ columns df) then
    Ok (csv_item <$> enumerate start_idx (List.filter allow_listed (records df)))
  else Raise KeyError.

(** The nested groups flattened, each case tagged with its group key. *)
Definition flatten (raw_data : list (string * list pydict)) : list pydict :=
  mjoin ((fun group =>
            dict_set "_behavior_id_key" (PStr (fst group)) <$> snd group)
         <$> raw_data).

Definition json_item (numbered : Z * pydict) : result DataItem :=
  let '(i, case) := numbered in
  let human_votes := [dict_get_or case "human_0" (PInt 0);
                      dict_get_or case "human_1" (PInt 0);
                      dict_get_or case "human_2" (PInt 0)] in
  votes ← py_sum human_votes;
  let is_harmful_r := 1 <? votes in
  let is_adversarial := py_ne (dict_get case "experiment") (PStr "default") in
  Ok (set_id (BaseDataLoader.generate_id cls i) {|
    id := uuid4 i;
    query := dict_get case "test_case";
    response := dict_get case "generation";
    query_harmful_label := Some true;
    response_harmful_label := Some is_harmful_r;
    response_refusal_label := None;
    category := PStr "harmful";
    extra := [("behavior_id", dict_get case "_behavior_id_key");
              ("method", dict_get case "method");
              ("model", dict_get case "model");
              ("prompt_type",
               PStr (if is_adversarial then "adversarial" else "vanilla"));
              ("human_votes", PList human_votes);
              ("source_file", PStr "response_json")];
  |}).

Fixpoint json_items (numbered : list (Z * pydict)) : result (list DataItem) :=
  match numbered with
  | [] => Ok []
  | nc :: rest =>
      item ← json_item nc;
      items ← json_items rest;
      Ok (item :: items)
  end.

Definition _parse_response_json (path : pyval) (start_idx : Z)
  : result (list DataItem) :=
  raw_data ← json_load path;
  json_items (enumerate start_idx (flatten raw_data)).

Definition load (self : Loader) (query_task_path response_task_path : pyval)
  (load_kwargs : pydict) : result (list DataItem) :=
  let q_path := py_or query_task_path (dict_get (init_kwargs self) "query_task_path") in
  let r_path := py_or response_task_path (dict_get (init_kwargs self) "response_task_path") in
  from_csv ← (if truthy q_path then _parse_query_csv q_path 1 else Ok []);
  from_json ← (if truthy r_path
               then _parse_response_json r_path (Z.of_nat (length from_csv) + 1)
               else Ok []);
  let combined_data : list DataItem := (from_csv ++ from_json)%list in
  if bool_decide (combined_data = []) then
    BaseDataLoader.load cls load_dataset uuid4 self
      (dict_get_or load_kwargs "split" (PStr "train"))
      (dict_remove "split" load_kwargs)
  else Ok combined_data.

End Files.

End HarmBench.

(** ** The registry and the constructors (base.py, harmbench.py) *)

(** The table of canonical source identifiers. *)
Definition CONST_HF_DATASET_IDS : list (string * string) :=
  [("toxicchat", "lmsys/toxic-chat");
   ("openai-moderation", "mmathys/openai-moderation-api-evaluation");
   ("aegis-v1", "nvidia/Aegis-AI-Content-Safety-Dataset-1.0");
   ("aegis-v2", "nvidia/Aegis-AI-Content-Safety-Dataset-2.0");
   ("simple-safety-tests", "Bertievidgen/SimpleSafetyTests");
   ("harmbench", "walledai/HarmBench");
   ("wildguard", "allenai/wildguardmix");
   ("s-eval", "IS2Lab/S-Eval");
   ("saferlhf", "PKU-Alignment/PKU-SafeRLHF");
   ("beavertails", "PKU-Alignment/BeaverTails");
   ("xstest", "walledai/XSTest");
   ("xstest-response", "allenai/xstest-response");
   ("bingoguard", "fanyin3639/final_safety_bingo_w_severity_v3_decontamination");
   ("or-bench", "bench-llms/or-bench");
   ("sorrybench", "sorry-bench/sorry-bench-202503");
   ("sorrybench-human-judgement", "sorry-bench/sorry-bench-human-judgment-202503");
   ("think", "Qwen/Qwen3GuardTest");
   ("jailbreakbench", "JailbreakBench/JBB-Behaviors");
   ("wildjailbreak", "allenai/wildjailbreak");
   ("strongreject", "walledai/StrongREJECT")].

(** [a or b] on optional texts: [None] and the empty text are false. *)
Definition str_or (a b : option string) : option string :=
  match a with
  | Some s => if String.eqb s "" then b else Some s
  | None => b
  end.

(** [BaseDataLoader.__init__], given the class attribute [DEFAULT_HF_PATH].
    The arguments [path] and [split] are bound by name, so [kwargs]
    holds neither. *)
Definition BaseDataLoader_init (DEFAULT_HF_PATH : option string)
    (path_arg : option string) (split : pyval) (kwargs : pydict) : result Loader :=
  match str_or path_arg DEFAULT_HF_PATH with
  | Some p =>
      if String.eqb p "" then Raise ValueError
      else Ok {| path := p; init_kwargs := dict_update [("split", split)] kwargs |}
  | None => Raise ValueError
  end.

(** [HarmBenchLoader.__init__]: the two file paths are taken out of the
    keyword arguments, the rest goes to the base constructor, and both
    paths are then stored ([None] when not given). *)
Definition HarmBench_init (DEFAULT_HF_PATH : option string)
    (path_arg : option string) (split : pyval) (kwargs : pydict) : result Loader :=
  self ← BaseDataLoader_init DEFAULT_HF_PATH path_arg split
            (dict_remove "response_task_path" (dict_remove "query_task_path" kwargs));
  Ok {| path := path self;
        init_kwargs :=
          dict_set "response_task_path" (dict_get kwargs "response_task_path")
            (dict_set "query_task_path" (dict_get kwargs "query_task_path")
               (init_kwargs self)) |}.

(** The keyword arguments that [BaseDataLoader.load] hands to the fetch
    collaborator. *)
Definition final_kwargs (self : Loader) (split : pyval) (load_kwargs : pydict)
  : pydict :=
  dict_update (dict_set "split" split (init_kwargs self)) load_kwargs.

(** A loader class as an object: the two attributes that [register]
    writes, its constructor and its [mapping]. *)
Record ClassObj : Type := {
  cls_REGISTER_NAME : string;
  cls_DEFAULT_HF_PATH : option string;
  cls_init : option string → option string → pyval → pydict → result Loader;
  cls_mapping : string → pyval → result (option DataItem);
}.

(** What [generate_id] and the driver read from the class of an instance. *)
Definition loader_class (c : ClassObj) : LoaderClass :=
  Build_LoaderClass (cls_REGISTER_NAME c) (cls_mapping c).

Module DataLoaderRegistry.

(** The class objects defined so far, and the table [_registry] from names
    to them (a class is referred to by its position). *)
Record state : Type := {
  classes : list ClassObj;
  _registry : gmap string nat;
}.

Definition empty : state := {| classes := []; _registry := ∅ |}.

(** A [class] statement: a new object with the inherited attributes. *)
Definition define_class
    (init : option string → option string → pyval → pydict → result Loader)
    (mapping : string → pyval → result (option DataItem)) (st : state)
  : nat * state :=
  (length (classes st),
   {| classes := classes st ++ [{| cls_REGISTER_NAME := "default";
                                   cls_DEFAULT_HF_PATH := None;
                                   cls_init := init;
                                   cls_mapping := mapping |}];
      _registry := _registry st |}).

(** The attributes written on the class by [register(name)]. *)
Definition registered_as (name : string) (c : ClassObj) : ClassObj :=
  {| cls_REGISTER_NAME := name;
     cls_DEFAULT_HF_PATH :=
       match dict_lookup name CONST_HF_DATASET_IDS with
       | Some p => Some p
       | None => cls_DEFAULT_HF_PATH c
       end;
     cls_init := cls_init c;
     cls_mapping := cls_mapping c |}.

(** [register(name)(wrapped_class)] *)
Definition register (name : string) (wrapped_class : nat) (st : state) : state :=
  {| classes := alter (registered_as name) wrapped_class (classes st);
     _registry := <[name := wrapped_class]> (_registry st) |}.

(** [get_loader]: the new instance, with the class it belongs to.  An
    entry of [_registry] always refers to a defined class (see
    [well_formed]); the [KeyError] branch stands for a dangling entry. *)
Definition get_loader (name : string) (path_arg : option string) (split : pyval)
    (kwargs : pydict) (st : state) : result (nat * Loader) :=
  match _registry st !! name with
  | None => Raise ValueError
  | Some cid =>
      match classes st !! cid with
      | Some c =>
          self ← cls_init c (cls_DEFAULT_HF_PATH c) path_arg split kwargs;
          Ok (cid, self)
      | None => Raise KeyError
      end
  end.

(** Every entry refers to a defined class. *)
Definition well_formed (st : state) : Prop :=
  ∀ name cid, _registry st !! name = Some cid → is_Some (classes st !! cid).

(** A decorated class statement: [@register(name) class ...]. *)
Definition register_new (name : string)
    (init : option string → option string → pyval → pydict → result Loader)
    (mapping : string → pyval → result (option DataItem)) (st : state) : state :=
  let '(cid, st') := define_class init mapping st in register name cid st'.

(** The registry of [dataloader.base] once the package [dataloader] is
    imported: [aegis.py], [beavertails.py] and [bingoguard.py] take
    [DataLoaderRegistry] from [dataloader.base], and are imported in that
    order. *)
Definition imported : state :=
  register_new "bingoguard" BaseDataLoader_init BingoGuard.mapping
    (register_new "beavertails" BaseDataLoader_init BeaverTails.mapping
       (register_new "aegis-v2" BaseDataLoader_init AegisV2.mapping
          (register_new "aegis-v1" BaseDataLoader_init AegisV1.mapping empty))).

(** [harmbench.py] takes [DataLoaderRegistry] from [base], a top-level
    module and not [dataloader.base]: a second execution of [base.py],
    whose class [DataLoaderRegistry] has a table [_registry] of its own,
    with the same table of source identifiers. *)
Definition imported_base : state :=
  register_new "harmbench" HarmBench_init HarmBench.mapping empty.

End DataLoaderRegistry.

(** ** Vocabulary of the statements *)

(** A field that holds a text, or nothing ([Optional[str]]). *)
Definition is_str_or_None (v : pyval) : bool :=
  match v with
  | PNone | PStr _ => true
  | _ => false
  end.

(** An annotator's abstention: the field is absent or null (both read as
    [None] by [row.get]), empty, or the literal token [None]. *)
Definition is_abstention (v : pyval) : bool :=
  match v with
  | PNone => true
  | PStr s => String.eqb s "" || String.eqb s "None"
  | _ => false
  end.

(** The five annotator fields of an aegis-v1 row. *)
Definition annotations (row : pydict) : list pyval :=
  dict_get row <$> AegisV1.label_keys.

(** The source fields from which the four row-mapped families derive
    their labels. *)
Definition label_fields : list string :=
  ["prompt_label"; "response_label"; "response_label_source"; "is_safe";
   "category"; "label"] ++ AegisV1.label_keys.

(** A row is silent when it has none of the label fields. *)
Definition silent (row : pydict) : bool :=
  forallb (λ k, negb (dict_mem k row)) label_fields.

(** A response text that is missing: absent or null, blank once trimmed,
    or the word none in any letter case. *)
Definition response_missing (v : pyval) : bool :=
  match v with
  | PNone => true
  | PStr s => String.eqb (Str.strip s) "" || String.eqb (Str.lower s) "none"
  | _ => false
  end.

(** The harmfulness that a prompt label states: it contains the marker
    unsafe. *)
Definition prompt_unsafe (v : pyval) : bool :=
  match v with
  | PStr s => Str.contains "unsafe" s
  | _ => false
  end.

(** *** Digits, blanks and level numbers, as the statements read them *)

(** The ten decimal digits. *)
Definition decimal_digits : list ascii := list_ascii_of_string "0123456789".

Definition is_decimal_digit (c : ascii) : bool :=
  existsb (Ascii.eqb c) decimal_digits.

(** A text made of decimal digits only. *)
Definition all_digits (s : string) : bool :=
  forallb is_decimal_digit (list_ascii_of_string s).

(** The number that a run of decimal digits denotes, read from the left;
    the digit 0 has code 48. *)
Definition digit_value (c : ascii) : N := (N_of_ascii c - 48)%N.

Definition decimal_value (ds : string) : N :=
  fold_left (λ acc c, (10 * acc + digit_value c)%N) (list_ascii_of_string ds) 0%N.

(** Whether a text starts with a decimal digit. *)
Definition head_is_digit (s : string) : bool :=
  match s with
  | String c _ => is_decimal_digit c
  | EmptyString => false
  end.

(** The whitespace characters below 256, by code: tab to carriage return,
    the four separators, the space, next line and the no-break space. *)
Definition whitespace_codes : list N :=
  [9; 10; 11; 12; 13; 28; 29; 30; 31; 32; 133; 160]%N.

Definition is_whitespace (c : ascii) : bool :=
  existsb (N.eqb (N_of_ascii c)) whitespace_codes.

(** A text made of whitespace only; the empty text is blank. *)
Definition is_blank (s : string) : bool :=
  forallb is_whitespace (list_ascii_of_string s).

(** Whether a text starts, or ends, with a whitespace character. *)
Definition head_is_blank (t : string) : bool :=
  match t with
  | String c _ => is_whitespace c
  | EmptyString => false
  end.

Definition last_is_blank (t : string) : bool :=
  match last (list_ascii_of_string t) with
  | Some c => is_whitespace c
  | None => false
  end.

(** [t] is [s] without the whitespace at its two ends. *)
Definition trimmed_of (s t : string) : Prop :=
  ∃ ws1 ws2, s = ws1 +:+ t +:+ ws2 ∧ is_blank ws1 = true ∧ is_blank ws2 = true ∧
    head_is_blank t = false ∧ last_is_blank t = false.

(** The text [sub] occurs in [s]. *)
Definition occurs_in (sub s : string) : Prop := ∃ a b, s = a +:+ sub +:+ b.

(** The word none in any letter case. *)
Definition is_none_word (s : string) : bool :=
  match list_ascii_of_string s with
  | [c1; c2; c3; c4] =>
      (Ascii.eqb c1 "n" || Ascii.eqb c1 "N") && (Ascii.eqb c2 "o" || Ascii.eqb c2 "O")
      && (Ascii.eqb c3 "n" || Ascii.eqb c3 "N") && (Ascii.eqb c4 "e" || Ascii.eqb c4 "E")
  | _ => false
  end.

(** A response that is no answer, character by character: absent or null,
    whitespace only, or the word none in any letter case. *)
Definition no_response_text (v : pyval) : bool :=
  match v with
  | PNone => true
  | PStr s => is_blank s || is_none_word s
  | _ => false
  end.

(** The text [l] holds a level number after [lead]: the marker, blanks
    [ws], then the whole run of digits [ds]. *)
Definition level_number_at (l lead ws ds rest : string) : Prop :=
  l = lead +:+ "#level:" +:+ ws +:+ ds +:+ rest ∧
  is_blank ws = true ∧ ds ≠ "" ∧ all_digits ds = true ∧ head_is_digit rest = false.

(** The leftmost level number of [l]. *)
Definition first_level_number (l lead ws ds rest : string) : Prop :=
  level_number_at l lead ws ds rest ∧
  ∀ lead' ws' ds' rest', level_number_at l lead' ws' ds' rest' →
    (String.length lead ≤ String.length lead')%nat.

Definition no_level_number (l : string) : Prop :=
  ∀ lead ws ds rest, ¬ level_number_at l lead ws ds rest.

(** A label field whose leftmost level number has more digits than [int]
    converts. *)
Definition severity_overflow (v : pyval) : Prop :=
  ∃ l lead ws ds rest, v = PStr l ∧ first_level_number l lead ws ds rest ∧
    (BingoGuard.int_max_str_digits < N.of_nat (String.length ds))%N.

(** A vote that [sum] accepts: an integer (or a boolean). *)
Definition is_number (v : pyval) : bool :=
  match v with
  | PInt _ | PBool _ => true
  | _ => false
  end.

(** The three annotator votes of a nested case are numbers, a missing vote
    counting as 0. *)
Definition votes_numeric (case : pydict) : bool :=
  forallb is_number [dict_get_or case "human_0" (PInt 0);
                     dict_get_or case "human_1" (PInt 0);
                     dict_get_or case "human_2" (PInt 0)].

(** ** Sample inputs *)

(** Two aegis-v2 rows. *)
Definition two_rows : list pyval :=
  [PDict [("prompt", PStr "hello"); ("prompt_label", PStr "unsafe")];
   PDict [("prompt", PStr "bye")]].

(** A row that says nothing about labels. *)
Definition silent_row : pydict := [("prompt", PStr "hello")].

(** An aegis-v1 row on which every annotator abstained, in each of the
    four ways. *)
Definition all_abstained_row : pydict :=
  [("text", PStr "hi"); ("labels_0", PStr "None"); ("labels_1", PStr "");
   ("labels_2", PNone)].

(** An aegis-v1 row with the three valid labels Safe, X, X. *)
Definition safe_x_x_row : pydict :=
  [("text", PStr "hi"); ("labels_0", PStr "Safe"); ("labels_1", PStr "X");
   ("labels_2", PStr "X"); ("labels_3", PStr "None"); ("labels_4", PNone)].

(** The flags of the beavertails example. *)
Definition abc_flags : pydict :=
  [("a", PBool true); ("b", PBool false); ("c", PBool true)].

(** A bingoguard row whose response is blank and whose prompt label is
    unsafe. *)
Definition blank_response_row : pydict :=
  [("prompt", PStr "how to"); ("response", PStr "  ");
   ("prompt_label", PStr "unsafe:violence"); ("label", PStr "#level: 3")].

(** Two more bingoguard rows with an unsafe prompt label: one whose
    response is the word none in mixed case, one with an answer. *)
Definition none_response_row : pydict :=
  [("prompt", PStr "how to"); ("response", PStr "NoNe");
   ("prompt_label", PStr "unsafe:violence"); ("label", PStr "#level: 3")].

Definition answered_row : pydict :=
  [("prompt", PStr "how to"); ("response", PStr "like this");
   ("prompt_label", PStr "unsafe:violence"); ("label", PStr "#level: 3")].

(** A bingoguard row whose label has the marker but no number after it. *)
Definition level_word_row : pydict :=
  [("prompt", PStr "how to"); ("response", PStr "like this");
   ("prompt_label", PStr "unsafe:violence"); ("label", PStr "#level: high")].

(** A bingoguard row whose level number has 4301 digits. *)
Definition long_level_row : pydict :=
  [("prompt", PStr "how to"); ("response", PStr "like this");
   ("prompt_label", PStr "unsafe:violence");
   ("label", PStr ("#level:1" +:+ Str.zeros 4300))].

(** A bingoguard row whose category is written with blanks around it. *)
Definition padded_category_row : pydict :=
  [("prompt", PStr "how to"); ("response", PStr "like this");
   ("prompt_label", PStr "unsafe:  violent crime ")].

(** A bingoguard row carrying the compound label in both label fields. *)
Definition compound_label_row : pydict :=
  [("prompt", PStr "how to"); ("response", PStr "like this");
   ("prompt_label", PStr "unsafe:violence #level: 3");
   ("label", PStr "unsafe:violence #level: 3")].

(** A harmbench loader built without file paths, and a hub dataset of one
    row. *)
Definition harmbench_self : Loader :=
  {| path := "walledai/HarmBench";
     init_kwargs := [("split", PStr "train"); ("query_task_path", PNone);
                     ("response_task_path", PNone)] |}.

Definition hub_one_row : fetched :=
  Dataset [PDict [("prompt", PStr "hello"); ("category", PStr "chemical")]].

(** A harmbench CSV whose only row is outside the allow-list. *)
Definition contextual_only_csv : DataFrame :=
  {| columns := ["Behavior"; "FunctionalCategory"; "SemanticCategory";
                 "Tags"; "ContextString"; "BehaviorID"];
     records := [[("Behavior", PStr "describe the passage");
                  ("FunctionalCategory", PStr "contextual");
                  ("SemanticCategory", PStr "misinformation");
                  ("BehaviorID", PStr "b1")]] |}.

(** A CSV with three allow-listed rows among four, and a nested file with
    two groups of two and three cases. *)
Definition three_row_csv : DataFrame :=
  {| columns := ["Behavior"; "FunctionalCategory"];
     records := [[("Behavior", PStr "b1"); ("FunctionalCategory", PStr "standard")];
                 [("Behavior", PStr "b2"); ("FunctionalCategory", PStr "contextual")];
                 [("Behavior", PStr "b3"); ("FunctionalCategory", PStr "copyright")];
                 [("Behavior", PStr "b4"); ("FunctionalCategory", PStr "standard")]] |}.

Definition two_group_json : list (string * list pydict) :=
  [("k1", [[("test_case", PStr "t1"); ("human_0", PInt 1); ("human_1", PInt 1)];
           [("test_case", PStr "t2")]]);
   ("k2", [[("test_case", PStr "t3"); ("human_0", PInt 1)];
           [("test_case", PStr "t4")];
           [("test_case", PStr "t5"); ("human_2", PInt 0)]])].

(** A [mapping] whose outcome depends on the drawn identifier through the
    [id] field only. *)
Definition id_blind (cls : LoaderClass) : Prop :=
  ∀ (uid1 uid2 : string) (row : pyval),
    match mapping cls uid1 row, mapping cls uid2 row with
    | Ok (Some a), Ok (Some b) => ∀ new_id, set_id new_id a = set_id new_id b
    | Ok None, Ok None => True
    | Raise e1, Raise e2 => e1 = e2
    | _, _ => False
    end.

(** A loader bound to a local path, as the constructor builds it. *)
Definition sample_self : Loader :=
  {| path := "datasets/aegis-v2"; init_kwargs := [("split", PStr "train")] |}.

(** A fetched source whose second row is a text, not a mapping. *)
Definition broken_rows : list pyval :=
  [PDict [("prompt", PStr "hello")]; PStr "oops"; PDict [("prompt", PStr "bye")]].

(** The names registered in [dataloader.base] by the package. *)
Definition registered_names : list string :=
  ["aegis-v1"; "aegis-v2"; "beavertails"; "bingoguard"].

(** How many times a label occurs in a list of labels. *)
Definition occurrences (s : string) (labels : list string) : nat :=
  length (List.filter (String.eqb s) labels).

(** The distinct labels of a list, in order of first occurrence. *)
Definition first_seen (labels : list string) : list string :=
  fold_left (λ (seen : list string) x,
               if decide (x ∈ seen) then seen else (seen ++ [x])%list)
            labels [].

(** An aegis-v1 row whose valid labels B, A, A, B tie two against two. *)
Definition tie_row : pydict :=
  [("text", PStr "hi"); ("labels_0", PStr "B"); ("labels_1", PStr "A");
   ("labels_2", PStr "A"); ("labels_3", PStr "B"); ("labels_4", PStr "None")].

(** A value that is neither a text nor null, and counts as true. *)
Definition is_truthy_number (v : pyval) : bool :=
  match v with
  | PInt z => negb (z =? 0)
  | PBool b => b
  | _ => false
  end.

(** A beavertails row with two true flags. *)
Definition two_flags_row : pydict :=
  [("prompt", PStr "q"); ("response", PStr "r"); ("is_safe", PBool false);
   ("category", PDict [("violence", PBool true); ("privacy", PBool false);
                       ("hate", PBool true)])].

(** A nested file in which one case has a null vote. *)
Definition null_vote_json : list (string * list pydict) :=
  [("k1", [[("test_case", PStr "t1"); ("human_0", PInt 1)];
           [("test_case", PStr "t2"); ("human_1", PNone)]])].

(** A fetched dictionary of two splits. *)
Definition sample_splits : list (string * list pyval) :=
  [("train", two_rows); ("test", broken_rows)].
(** * Properties *)

(** ** Decimal texts and the id format *)

Section Decimal.

Import Decimal.

Lemma parse_dec_dec (n : N) : Str.parse_dec (Str.dec n) = Some n.
Proof.
  unfold Str.parse_dec, Str.dec.
  rewrite NilEmpty.usu. cbn [fmap option_fmap option_map].
  by rewrite DecimalN.Unsigned.of_to.
Qed.

Lemma parse_dec_zeros (k : nat) (s : string) :
  Str.parse_dec (Str.zeros k +:+ s) = Str.parse_dec s.
Proof.
  unfold Str.parse_dec. induction k as [|k IH]; [done|].
  rewrite <- IH. change (Str.zeros (S k) +:+ s) with (String "0" (Str.zeros k +:+ s)).
  cbn [NilEmpty.uint_of_string].
  destruct (NilEmpty.uint_of_string (Str.zeros k +:+ s)); reflexivity.
Qed.

Lemma parse_dec_pad0 (w : nat) (n : N) :
  Str.parse_dec (Str.pad0 w (Str.dec n)) = Some n.
Proof. unfold Str.pad0. by rewrite parse_dec_zeros, parse_dec_dec. Qed.

Lemma length_zeros (k : nat) : String.length (Str.zeros k) = k.
Proof. induction k as [|k IH]; [done|]. simpl. by rewrite IH. Qed.

Lemma string_length_app (s t : string) :
  String.length (s +:+ t) = (String.length s + String.length t)%nat.
Proof. induction s as [|c s IH]; [done|]. simpl. by rewrite IH. Qed.

Lemma length_pad0 (w : nat) (s : string) :
  String.length (Str.pad0 w s) = Nat.max w (String.length s).
Proof. unfold Str.pad0. rewrite string_length_app, length_zeros. lia. Qed.

Lemma pad0_long (w : nat) (s : string) :
  (w ≤ String.length s)%nat → Str.pad0 w s = s.
Proof.
  intros Hw. unfold Str.pad0.
  by replace (w - String.length s)%nat with 0%nat by lia.
Qed.

Lemma length_string_of_uint (d : uint) :
  String.length (NilEmpty.string_of_uint d) = nb_digits d.
Proof. induction d as [|d IH|d IH|d IH|d IH|d IH|d IH|d IH|d IH|d IH|d IH]; simpl; by rewrite ?IH. Qed.

Lemma of_lu_bound (d : uint) :
  (DecimalPos.Unsigned.of_lu d < 10 ^ N.of_nat (nb_digits d))%N.
Proof.
  induction d; cbn [nb_digits]; rewrite ?Nat2N.inj_succ, ?N.pow_succ_r';
    cbn [DecimalPos.Unsigned.of_lu]; simpl N.of_nat; lia.
Qed.

Lemma nb_digits_rev (d : uint) : nb_digits (rev d) = nb_digits d.
Proof.
  rewrite !DecimalFacts.nb_digits_spec, DecimalFacts.rev_spec.
  apply length_rev.
Qed.

(** A number with at most [k] digits is below [10 ^ k]. *)
Lemma dec_bound (n : N) : (n < 10 ^ N.of_nat (String.length (Str.dec n)))%N.
Proof.
  unfold Str.dec. rewrite length_string_of_uint.
  rewrite <- (DecimalN.Unsigned.of_to n) at 1.
  unfold N.of_uint. rewrite DecimalPos.Unsigned.of_uint_alt.
  rewrite <- nb_digits_rev. apply of_lu_bound.
Qed.

Lemma format_06d_nonneg (z : Z) :
  0 ≤ z → Str.format_06d z = Str.pad0 6 (Str.dec (Z.to_N z)).
Proof. intros Hz. unfold Str.format_06d. by rewrite (proj2 (Z.ltb_ge z 0) Hz). Qed.

(** Beyond 999999 nothing is padded and nothing is cut. *)
Lemma format_06d_wide (z : Z) :
  999999 < z → Str.format_06d z = Str.dec (Z.to_N z).
Proof.
  intros Hz. rewrite format_06d_nonneg by lia. apply pad0_long.
  pose proof (dec_bound (Z.to_N z)) as Hb.
  destruct (decide (6 ≤ String.length (Str.dec (Z.to_N z)))%nat) as [|Hlt]; [done|].
  exfalso.
  assert (10 ^ N.of_nat (String.length (Str.dec (Z.to_N z))) ≤ 10 ^ 5)%N.
  { apply N.pow_le_mono_r; lia. }
  change (10 ^ 5)%N with 100000%N in *. lia.
Qed.

Lemma format_06d_inj (a b : Z) :
  0 ≤ a → 0 ≤ b → Str.format_06d a = Str.format_06d b → a = b.
Proof.
  intros Ha Hb Heq. rewrite !format_06d_nonneg in Heq by done.
  apply (f_equal Str.parse_dec) in Heq. rewrite !parse_dec_pad0 in Heq.
  injection Heq as Heq. lia.
Qed.

End Decimal.

(** ** Decimal texts, as the statements read them *)

Lemma string_app_cons (c : ascii) (s t : string) :
  String c s +:+ t = String c (s +:+ t).
Proof. done. Qed.

Section DecimalValue.

Import Decimal.

Lemma is_decimal_digit_isdigit (c : ascii) :
  is_decimal_digit c = BingoGuard.isdigit c.
Proof. by destruct c as [[|] [|] [|] [|] [|] [|] [|] [|]]. Qed.

Lemma is_whitespace_isspace (c : ascii) : is_whitespace c = Str.isspace c.
Proof. by destruct c as [[|] [|] [|] [|] [|] [|] [|] [|]]. Qed.

Lemma all_digits_cons (c : ascii) (s : string) :
  all_digits (String c s) = is_decimal_digit c && all_digits s.
Proof. done. Qed.

Lemma all_digits_app (s t : string) :
  all_digits (s +:+ t) = all_digits s && all_digits t.
Proof.
  induction s as [|c s IH]; [done|].
  by rewrite string_app_cons, !all_digits_cons, IH, andb_assoc.
Qed.

(** Reading one more digit on the left of a decimal numeral. *)
Lemma uint_of_char_digit (c : ascii) (d' d : uint) :
  uint_of_char c (Some d') = Some d →
  is_decimal_digit c = true ∧
  DecimalPos.Unsigned.usize d = N.succ (DecimalPos.Unsigned.usize d') ∧
  (DecimalPos.Unsigned.of_lu (rev d)
   = DecimalPos.Unsigned.of_lu (rev d')
     + digit_value c * 10 ^ DecimalPos.Unsigned.usize d')%N.
Proof.
  destruct c as [[|] [|] [|] [|] [|] [|] [|] [|]]; cbn [uint_of_char];
    intros Hd; try discriminate Hd; injection Hd as <-;
    (split; [reflexivity|]); (split; [reflexivity|]);
    unfold rev at 1; cbn [revapp];
    rewrite DecimalPos.Unsigned.of_lu_revapp; reflexivity.
Qed.

Lemma uint_of_string_value (ds : string) (d : uint) (acc : N) :
  NilEmpty.uint_of_string ds = Some d →
  all_digits ds = true ∧
  DecimalPos.Unsigned.usize d = N.of_nat (String.length ds) ∧
  (fold_left (λ acc c, 10 * acc + digit_value c) (list_ascii_of_string ds) acc
   = acc * 10 ^ DecimalPos.Unsigned.usize d + DecimalPos.Unsigned.of_lu (rev d))%N.
Proof.
  revert d acc. induction ds as [|c ds IH]; intros d acc Hd.
  - injection Hd as <-. cbn. split_and!; [done..|lia].
  - cbn [NilEmpty.uint_of_string] in Hd.
    destruct (NilEmpty.uint_of_string ds) as [d'|] eqn:Hd'; [|by destruct c as [[|] [|] [|] [|] [|] [|] [|] [|]]].
    destruct (uint_of_char_digit c d' d Hd) as (Hc & Hsize & Hval).
    destruct (IH d' (10 * acc + digit_value c)%N eq_refl) as (Hall & Hsz & Hfold).
    split_and!.
    + by rewrite all_digits_cons, Hc, Hall.
    + rewrite Hsize, Hsz. cbn [String.length]. lia.
    + cbn [list_ascii_of_string fold_left]. rewrite Hfold, Hsize, Hval.
      rewrite N.pow_succ_r'. lia.
Qed.

(** On a run of digits, [int] reads the number the digits denote. *)
Lemma parse_dec_value (ds : string) (n : N) :
  Str.parse_dec ds = Some n → all_digits ds = true ∧ decimal_value ds = n.
Proof.
  unfold Str.parse_dec. destruct (NilEmpty.uint_of_string ds) as [d|] eqn:Hd; [|done].
  intros [= <-]. destruct (uint_of_string_value ds d 0 Hd) as (Hall & _ & Hfold).
  split; [done|]. unfold decimal_value. rewrite Hfold.
  unfold N.of_uint. rewrite DecimalPos.Unsigned.of_uint_alt. lia.
Qed.

Lemma digit_char_parses (c : ascii) (d : uint) :
  is_decimal_digit c = true → is_Some (uint_of_char c (Some d)).
Proof.
  destruct c as [[|] [|] [|] [|] [|] [|] [|] [|]]; cbn; intros H;
    try discriminate H; by eexists.
Qed.

Lemma all_digits_parse (ds : string) :
  all_digits ds = true → Str.parse_dec ds = Some (decimal_value ds).
Proof.
  intros Hall.
  assert (is_Some (NilEmpty.uint_of_string ds)) as [d Hd].
  { induction ds as [|c ds IH]; [by eexists|].
    rewrite all_digits_cons in Hall. apply andb_true_iff in Hall as [Hc Hall].
    destruct (IH Hall) as [d Hd]. cbn [NilEmpty.uint_of_string]. rewrite Hd.
    by apply digit_char_parses. }
  destruct (Str.parse_dec ds) as [n|] eqn:Hn.
  - by destruct (parse_dec_value ds n Hn) as [_ ->].
  - unfold Str.parse_dec in Hn. by rewrite Hd in Hn.
Qed.

(** A run of [k] digits denotes a number below [10 ^ k]. *)
Lemma decimal_value_bound (ds : string) :
  all_digits ds = true →
  (decimal_value ds < 10 ^ N.of_nat (String.length ds))%N.
Proof.
  intros Hall. pose proof (all_digits_parse ds Hall) as Hp.
  unfold Str.parse_dec in Hp.
  destruct (NilEmpty.uint_of_string ds) as [d|] eqn:Hd; [|done].
  destruct (uint_of_string_value ds d 0 Hd) as (_ & Hsz & Hfold).
  unfold decimal_value. rewrite Hfold, <- Hsz.
  pose proof (of_lu_bound (rev d)) as Hb. rewrite nb_digits_rev in Hb.
  assert (DecimalPos.Unsigned.usize d = N.of_nat (nb_digits d)) as ->; [|lia].
  clear. induction d; cbn [DecimalPos.Unsigned.usize nb_digits]; lia.
Qed.

(** A run of digits whose first digit is not 0 denotes at least the power
    of ten of its remaining length. *)
Lemma decimal_value_from_lower (cs : list ascii) (acc : N) :
  (acc * 10 ^ N.of_nat (length cs)
   ≤ fold_left (λ acc c, 10 * acc + digit_value c) cs acc)%N.
Proof.
  revert acc. induction cs as [|c cs IH]; intros acc; cbn [fold_left length].
  - rewrite N.pow_0_r. lia.
  - etrans; [|apply IH]. rewrite Nat2N.inj_succ, N.pow_succ_r'. nia.
Qed.

Lemma string_length_list (s : string) :
  length (list_ascii_of_string s) = String.length s.
Proof. induction s as [|c s IH]; [done|]. cbn. by rewrite IH. Qed.

Lemma decimal_value_head (c : ascii) (s : string) :
  is_decimal_digit c = true → c ≠ "0"%char →
  (10 ^ N.of_nat (String.length s) ≤ decimal_value (String c s))%N.
Proof.
  intros Hc Hz. unfold decimal_value. cbn [list_ascii_of_string fold_left].
  etrans; [|apply decimal_value_from_lower]. rewrite string_length_list.
  assert (1 ≤ digit_value c)%N; [|nia].
  destruct c as [[|] [|] [|] [|] [|] [|] [|] [|]]; try discriminate Hc;
    try done; cbn; lia.
Qed.

(** What [str] prints for a natural number: digits, denoting the number. *)
Lemma all_digits_uint (d : uint) : all_digits (NilEmpty.string_of_uint d) = true.
Proof. induction d; [done|..]; cbn [NilEmpty.string_of_uint]; by rewrite all_digits_cons, IHd. Qed.

Lemma all_digits_dec (n : N) : all_digits (Str.dec n) = true.
Proof. apply all_digits_uint. Qed.

Lemma decimal_value_dec (n : N) : decimal_value (Str.dec n) = n.
Proof. by destruct (parse_dec_value _ _ (parse_dec_dec n)). Qed.

(** It has no leading zero, unless the number is 0. *)
Lemma dec_no_leading_zero (n : N) :
  (0 < n)%N → Str.starts_with "0" (Str.dec n) = false.
Proof.
  intros Hn. unfold Str.dec.
  pose proof (DecimalN.Unsigned.to_of (N.to_uint n)) as Hnorm.
  rewrite DecimalN.Unsigned.of_to in Hnorm.
  destruct n as [|p]; [lia|]. cbn [N.to_uint] in *.
  pose proof (DecimalPos.Unsigned.to_uint_nonzero p) as Hnz.
  destruct (Pos.to_uint p) as [|d|d|d|d|d|d|d|d|d|d] eqn:Hd; try done.
  exfalso. unfold unorm in Hnorm.
  pose proof (DecimalFacts.nzhead_nonzero (D0 d)) as Hhead.
  destruct (nzhead (D0 d)) as [|e|e|e|e|e|e|e|e|e|e] eqn:He; try discriminate Hnorm.
  - injection Hnorm as ->. by apply Hnz.
  - by apply (Hhead e).
Qed.

Lemma length_dec_small (n : N) (k : nat) :
  (0 < n < 10 ^ N.of_nat k)%N → (String.length (Str.dec n) ≤ k)%nat.
Proof.
  intros [Hpos Hlt]. pose proof (dec_no_leading_zero n Hpos) as Hz.
  pose proof (all_digits_dec n) as Hall. pose proof (decimal_value_dec n) as Hv.
  destruct (Str.dec n) as [|c s]; [cbn; lia|].
  rewrite all_digits_cons in Hall. apply andb_true_iff in Hall as [Hc _].
  assert (c ≠ "0"%char) as Hc0.
  { intros ->. discriminate Hz. }
  pose proof (decimal_value_head c s Hc Hc0) as Hlow. rewrite Hv in Hlow.
  cbn [String.length].
  destruct (decide (String.length s < k)%nat) as [|Hge]; [lia|]. exfalso.
  assert (10 ^ N.of_nat k ≤ 10 ^ N.of_nat (String.length s))%N; [|lia].
  apply N.pow_le_mono_r; lia.
Qed.

Lemma all_digits_zeros (k : nat) : all_digits (Str.zeros k) = true.
Proof. induction k as [|k IH]; [done|]. cbn [Str.zeros]. by rewrite all_digits_cons, IH. Qed.

Lemma decimal_value_zeros (k : nat) (s : string) :
  decimal_value (Str.zeros k +:+ s) = decimal_value s.
Proof. induction k as [|k IH]; [done|]. by rewrite <- IH. Qed.

(** The counter of an id, as [format(i, "06d")] writes it: digits denoting
    the counter, six of them up to 999999 and no leading zero beyond. *)
Lemma format_06d_digits (n : N) :
  (0 < n)%N →
  all_digits (Str.format_06d (Z.of_N n)) = true ∧
  decimal_value (Str.format_06d (Z.of_N n)) = n ∧
  ((n ≤ 999999)%N → String.length (Str.format_06d (Z.of_N n)) = 6%nat) ∧
  ((999999 < n)%N → Str.starts_with "0" (Str.format_06d (Z.of_N n)) = false).
Proof.
  intros Hn. rewrite format_06d_nonneg by lia. rewrite N2Z.id.
  split_and!.
  - unfold Str.pad0. by rewrite all_digits_app, all_digits_zeros, all_digits_dec.
  - unfold Str.pad0. by rewrite decimal_value_zeros, decimal_value_dec.
  - intros Hle. rewrite length_pad0.
    pose proof (length_dec_small n 6) as Hlen.
    assert (String.length (Str.dec n) ≤ 6)%nat; [|lia].
    apply Hlen. change (10 ^ N.of_nat 6)%N with 1000000%N. lia.
  - intros Hgt. rewrite <- (N2Z.id n) at 1. rewrite <- format_06d_nonneg by lia.
    rewrite format_06d_wide by lia. rewrite N2Z.id.
    by apply dec_no_leading_zero.
Qed.

End DecimalValue.

(** ** The generic per-row driver *)

Section Driver.

Variable cls : LoaderClass.
Variable load_dataset : string → pydict → result fetched.
Variable uuid4 : Z → string.

Lemma enumerate_length {A : Type} (start : Z) (l : list A) :
  length (enumerate start l) = length l.
Proof. revert start. induction l as [|x l IH]; intros start; simpl; by rewrite ?IH. Qed.

Lemma generate_id_inj (a b : Z) :
  0 ≤ a → 0 ≤ b → BaseDataLoader.generate_id cls a = BaseDataLoader.generate_id cls b → a = b.
Proof.
  unfold BaseDataLoader.generate_id. intros Ha Hb Heq.
  apply (inj (String.app _)) in Heq. apply (inj (String.app _)) in Heq.
  by apply format_06d_inj.
Qed.

(** The loop succeeds as soon as [mapping] yields a Record on every row,
    and the Record at position [i] is the mapped one with the id of
    counter [start + i]. *)
Lemma map_rows_spec (rows : list pyval) (start : Z) :
  (∀ uid row, row ∈ rows → ∃ item, mapping cls uid row = Ok (Some item)) →
  ∃ items,
    BaseDataLoader.map_rows cls uuid4 (enumerate start rows) = Ok items ∧
    length items = length rows ∧
    ∀ (i : nat) row, rows !! i = Some row →
      ∃ item, mapping cls (uuid4 (start + Z.of_nat i)) row = Ok (Some item) ∧
              items !! i =
                Some (set_id (BaseDataLoader.generate_id cls (start + Z.of_nat i)) item).
Proof.
  revert start. induction rows as [|row rows IH]; intros start Hmap.
  - exists []. by split_and!.
  - destruct (Hmap (uuid4 start) row) as [item Hitem]; [by left|].
    destruct (IH (start + 1)) as (items & Hrun & Hlen & Hids).
    { intros uid r Hr. apply Hmap. by right. }
    exists (set_id (BaseDataLoader.generate_id cls start) item :: items).
    cbn [enumerate BaseDataLoader.map_rows]. rewrite Hitem. cbn. rewrite Hrun. cbn.
    split_and!; [done|by rewrite Hlen|].
    intros [|i] r Hr; simpl in Hr.
    + injection Hr as <-. exists item. by rewrite Z.add_0_r.
    + destruct (Hids i r Hr) as (it & Hit & Hlook). exists it.
      replace (start + Z.of_nat (S i)) with (start + 1 + Z.of_nat i) by lia.
      done.
Qed.

(** Conversely, a loop that returns has mapped every row to a Record. *)
Lemma map_rows_inv (rows : list pyval) (start : Z) (items : list DataItem) :
  BaseDataLoader.map_rows cls uuid4 (enumerate start rows) = Ok items →
  length items = length rows ∧
  ∀ (i : nat) item, items !! i = Some item →
    ∃ row mapped, rows !! i = Some row ∧
      mapping cls (uuid4 (start + Z.of_nat i)) row = Ok (Some mapped) ∧
      item = set_id (BaseDataLoader.generate_id cls (start + Z.of_nat i)) mapped.
Proof.
  revert start items. induction rows as [|row rows IH]; intros start items Hrun.
  - injection Hrun as <-. split; [done|]. intros i item Hi. by destruct i.
  - cbn [enumerate BaseDataLoader.map_rows] in Hrun.
    destruct (mapping cls (uuid4 start) row) as [[mapped|]|e] eqn:Hmapped;
      cbn [mbind result_bind] in Hrun; try discriminate Hrun.
    destruct (BaseDataLoader.map_rows cls uuid4 (enumerate (start + 1) rows))
      as [results|e] eqn:Hrest; cbn [mbind result_bind] in Hrun;
      try discriminate Hrun.
    injection Hrun as <-. destruct (IH _ _ Hrest) as [Hlen Hitems].
    split; [cbn [length]; by rewrite Hlen|].
    intros [|i] item Hi; cbn in Hi.
    + injection Hi as <-. exists row, mapped. by rewrite Z.add_0_r.
    + destruct (Hitems i item Hi) as (r & m & Hr & Hm & ->).
      exists r, m. replace (start + Z.of_nat (S i)) with (start + 1 + Z.of_nat i) by lia.
      done.
Qed.

End Driver.

(** C1.  [load] on a source of N rows returns as soon as [mapping] yields
    a Record on every row, and whatever it returns has N Records: at
    position [i] the mapped row [i] with the id REGISTER_NAME, a dash and
    the counter [i + 1] in decimal digits, which are six digits,
    zero-padded, up to 999999, and all its digits without a leading zero
    beyond.  The ids are pairwise distinct. *)
Theorem load_sequential_ids (cls : LoaderClass)
    (load_dataset : string → pydict → result fetched) (uuid4 : Z → string)
    (self : Loader) (split : pyval) (load_kwargs : pydict) (rows : list pyval) :
  BaseDataLoader.fetch_rows load_dataset self split load_kwargs = Ok rows →
  ((∀ uid row, row ∈ rows → ∃ item, mapping cls uid row = Ok (Some item)) →
   ∃ items,
     BaseDataLoader.load cls load_dataset uuid4 self split load_kwargs = Ok items) ∧
  (∀ items,
     BaseDataLoader.load cls load_dataset uuid4 self split load_kwargs = Ok items →
     length items = length rows ∧
     NoDup (id <$> items) ∧
     ∀ (i : nat) item, items !! i = Some item →
       (∃ row mapped, rows !! i = Some row ∧
          mapping cls (uuid4 (Z.of_nat (S i))) row = Ok (Some mapped) ∧
          item = set_id (id item) mapped) ∧
       ∃ num, id item = REGISTER_NAME cls +:+ "-" +:+ num ∧
         all_digits num = true ∧
         decimal_value num = N.of_nat (S i) ∧
         ((N.of_nat (S i) ≤ 999999)%N → String.length num = 6%nat) ∧
         ((999999 < N.of_nat (S i))%N → Str.starts_with "0" num = false)).
Proof.
  intros Hfetch. unfold BaseDataLoader.load. rewrite Hfetch.
  cbn [mbind result_bind]. split.
  - intros Hmap.
    destruct (map_rows_spec cls uuid4 rows 1 Hmap) as (items & Hrun & _).
    by exists items.
  - intros items Hrun.
    destruct (map_rows_inv cls uuid4 rows 1 items Hrun) as [Hlen Hitems].
    assert (Hid : ∀ (i : nat) it, items !! i = Some it →
              id it = BaseDataLoader.generate_id cls (Z.of_nat (S i))).
    { intros i it Hit. destruct (Hitems i it Hit) as (row & mapped & _ & _ & ->).
      cbn [set_id id]. f_equal. lia. }
    split_and!; [done| |].
    + apply NoDup_alt. intros i j s Hi Hj.
      rewrite list_lookup_fmap in Hi, Hj.
      destruct (items !! i) as [a|] eqn:Ha; [|done].
      destruct (items !! j) as [b|] eqn:Hb; [|done].
      simpl in Hi, Hj. rewrite (Hid _ _ Ha) in Hi. rewrite (Hid _ _ Hb) in Hj.
      assert (Z.of_nat (S i) = Z.of_nat (S j)); [|lia].
      apply (generate_id_inj cls); [lia..|congruence].
    + intros i item Hi. split.
      * destruct (Hitems i item Hi) as (row & mapped & Hrow & Hmapped & Hitem).
        exists row, mapped. replace (Z.of_nat (S i)) with (1 + Z.of_nat i) by lia.
        split_and!; [done..|]. rewrite Hitem at 1. by rewrite Hitem.
      * exists (Str.format_06d (Z.of_N (N.of_nat (S i)))).
        destruct (format_06d_digits (N.of_nat (S i))) as (Hall & Hval & Hsix & Hwide);
          [lia|].
        split_and!; [|done..]. rewrite (Hid _ _ Hi).
        by replace (Z.of_N (N.of_nat (S i))) with (Z.of_nat (S i)) by lia.
Qed.

Lemma load_sequential_ids_witness :
  ∃ items,
    BaseDataLoader.load AegisV2.cls (λ _ _, Ok (Dataset two_rows)) (λ _, "")
      {| path := "nvidia/Aegis-AI-Content-Safety-Dataset-2.0"; init_kwargs := [] |}
      (PStr "train") [] = Ok items ∧
    id <$> items = ["aegis-v2-000001"; "aegis-v2-000002"] ∧
    BaseDataLoader.generate_id AegisV2.cls 999999 = "aegis-v2-999999" ∧
    BaseDataLoader.generate_id AegisV2.cls 1000000 = "aegis-v2-1000000".
Proof.
  destruct (load_sequential_ids AegisV2.cls (λ _ _, Ok (Dataset two_rows)) (λ _, "")
      {| path := "nvidia/Aegis-AI-Content-Safety-Dataset-2.0"; init_kwargs := [] |}
      (PStr "train") [] two_rows) as [Hreturns _]; [reflexivity|].
  destruct Hreturns as [items Hload].
  - intros uid row Hrow. unfold two_rows in Hrow.
    apply elem_of_cons in Hrow as [->|Hrow]; [eexists; reflexivity|].
    apply elem_of_cons in Hrow as [->|Hrow]; [eexists; reflexivity|].
    by apply elem_of_nil in Hrow.
  - exists items. split; [exact Hload|].
    vm_compute in Hload. injection Hload as <-. by split_and!.
Defined.

(** ** Majority-vote family (aegis-v1) *)

Lemma py_eq_str (v : pyval) (s : string) : py_eq v (PStr s) = true ↔ v = PStr s.
Proof.
  destruct v; simpl; try (split; [discriminate|congruence]).
  rewrite String.eqb_eq. split; congruence.
Qed.

Lemma py_ne_str (v : pyval) (s : string) : py_ne v (PStr s) = true ↔ v ≠ PStr s.
Proof.
  unfold py_ne. rewrite negb_true_iff, <- not_true_iff_false. by rewrite py_eq_str.
Qed.

Lemma abstention_not_valid (v : pyval) :
  is_abstention v = true → AegisV1.is_valid_label v = false.
Proof.
  destruct v as [| | |s| |]; simpl; try done.
  unfold AegisV1.is_valid_label. simpl.
  destruct (String.eqb_spec s "") as [->|]; [done|]. simpl.
  destruct (String.eqb_spec s "None") as [->|]; [done|]. done.
Qed.

Lemma abstention_not_Safe (v : pyval) : is_abstention v = true → v ≠ PStr "Safe".
Proof. intros Ha ->. done. Qed.

Lemma counter_add_nonempty (k : pyval) (c : list (pyval * nat)) :
  AegisV1.counter_add k c ≠ [].
Proof. destruct c as [|[k' n] c]; simpl; [done|]. by destruct (py_eq k' k). Qed.

Lemma Counter_nonempty (l : list pyval) :
  l ≠ [] → forallb hashable l = true →
  ∃ kv c, AegisV1.Counter l = Ok (kv :: c).
Proof.
  intros Hl Hh. unfold AegisV1.Counter. rewrite Hh.
  destruct (fold_left (λ c k, AegisV1.counter_add k c) l []) as [|kv c] eqn:Hfold.
  - exfalso. destruct l as [|x l] using rev_ind; [done|].
    rewrite fold_left_app in Hfold. simpl in Hfold.
    by apply counter_add_nonempty in Hfold.
  - by exists kv, c.
Qed.

Lemma filter_typed_hashable (f : pyval → bool) (vs : list pyval) :
  forallb is_str_or_None vs = true → forallb hashable (List.filter f vs) = true.
Proof.
  induction vs as [|v vs IH]; simpl; [done|].
  intros [Hv Hvs]%andb_true_iff. destruct (f v); simpl; [|by apply IH].
  rewrite IH by done. by destruct v.
Qed.

(** The majority label is computed without error on text labels. *)
Lemma get_majority_label_total (row : pydict) :
  forallb is_str_or_None (annotations row) = true →
  ∃ label, AegisV1._get_majority_label row = Ok label.
Proof.
  intros Ht. unfold AegisV1._get_majority_label.
  case_bool_decide as Hv; [by eexists|].
  destruct (Counter_nonempty (AegisV1.valid_labels row)) as (kv & c & HC).
  - done.
  - by apply filter_typed_hashable.
  - rewrite HC. by eexists.
Qed.

(** The harm flag as a statement about the annotations: the [is not None]
    filter of [mapping] lets abstentions other than [None] through, but
    none of those is the text Safe. *)
Lemma harm_flag_spec (vs : list pyval) :
  forallb (λ label, py_ne label (PStr "Safe")) (List.filter AegisV1.is_not_None vs) = true
  ↔ ∀ v, v ∈ vs → is_abstention v = false → v ≠ PStr "Safe".
Proof.
  induction vs as [|v vs IH]; simpl.
  - split; [|done]. intros _ v Hv. by apply elem_of_nil in Hv.
  - destruct (AegisV1.is_not_None v) eqn:Hnn; simpl.
    + rewrite andb_true_iff, IH, py_ne_str. split.
      * intros [Hv Hvs] w [->|Hw]%elem_of_cons Ha; [done|by apply Hvs].
      * intros H. split.
        -- destruct (is_abstention v) eqn:Ha.
           ++ by apply abstention_not_Safe.
           ++ apply H; [by left|done].
        -- intros w Hw. apply H. by right.
    + rewrite IH. destruct v; try done. split.
      * intros Hvs w [->|Hw]%elem_of_cons Ha; [done|by apply Hvs].
      * intros H w Hw. apply H. by right.
Qed.

Lemma all_abstained_no_valid (vs : list pyval) :
  forallb is_abstention vs = true → List.filter AegisV1.is_valid_label vs = [].
Proof.
  induction vs as [|v vs IH]; simpl; [done|].
  intros [Hv Hvs]%andb_true_iff. by rewrite (abstention_not_valid v Hv), IH.
Qed.

Lemma get_majority_label_None (row : pydict) :
  forallb is_abstention (annotations row) = true →
  AegisV1._get_majority_label row = Ok (PStr "None").
Proof.
  intros Ha. unfold AegisV1._get_majority_label, AegisV1.valid_labels.
  fold (annotations row). by rewrite (all_abstained_no_valid _ Ha).
Qed.

(** With no valid label the majority is the sentinel and the all-raters
    rule has nothing to refute. *)
Lemma all_abstained_mapping (uid : string) (row : pydict) :
  forallb is_abstention (annotations row) = true →
  ∃ item, AegisV1.mapping uid (PDict row) = Ok (Some item) ∧
    category item = PStr "None" ∧
    query_harmful_label item = Some true ∧
    response_harmful_label item = None ∧
    response_refusal_label item = None.
Proof.
  intros Ha. unfold AegisV1.mapping. cbn [as_dict mbind result_bind].
  rewrite (get_majority_label_None row Ha).
  eexists. split; [reflexivity|].
  cbn [category query_harmful_label response_harmful_label response_refusal_label].
  split_and!; try done. f_equal.
  apply harm_flag_spec. intros v Hv Hfalse.
  rewrite forallb_forall in Ha. rewrite Ha in Hfalse; [done|].
  by apply list_elem_of_In.
Qed.

(** C3, as the code has it.  When all five annotator fields of an aegis-v1
    row are abstentions (absent, null, empty or the token None), the Record
    has the category None (the sentinel text) and its query_harmful_label
    is true: the all-raters rule ranges over no valid label. *)
Theorem all_abstained_record (uid : string) (row : pydict) :
  forallb is_abstention (annotations row) = true →
  ∃ item, AegisV1.mapping uid (PDict row) = Ok (Some item) ∧
    category item = PStr "None" ∧
    query_harmful_label item = Some true.
Proof.
  intros Ha.
  destruct (all_abstained_mapping uid row Ha) as (item & Hmap & Hcat & Hq & _).
  by exists item.
Qed.

Lemma all_abstained_record_witness :
  ∃ item, AegisV1.mapping "" (PDict all_abstained_row) = Ok (Some item) ∧
    category item = PStr "None" ∧
    query_harmful_label item = Some true.
Proof. apply (all_abstained_record "" all_abstained_row). reflexivity. Defined.

(** C3 as stated fails: on a row whose annotators all abstained, the
    query_harmful_label is the boolean true, not null. *)
Lemma all_abstained_flag_not_null :
  forallb is_abstention (annotations all_abstained_row) = true ∧
  ∃ item, AegisV1.mapping "" (PDict all_abstained_row) = Ok (Some item) ∧
    category item = PStr "None" ∧
    query_harmful_label item = Some true ∧
    query_harmful_label item ≠ None.
Proof. split; [reflexivity|]. eexists. by split_and!. Qed.

(** C4.  On an aegis-v1 row with text labels of which at least one is not
    an abstention, query_harmful_label is a boolean that is true exactly
    when every non-abstained label differs from Safe, whatever the majority
    label; the row with valid labels Safe, X, X has the category X and the
    flag false. *)
Theorem harm_flag_all_raters (uid : string) (row : pydict) :
  forallb is_str_or_None (annotations row) = true →
  existsb (λ v, negb (is_abstention v)) (annotations row) = true →
  (∃ item b, AegisV1.mapping uid (PDict row) = Ok (Some item) ∧
     query_harmful_label item = Some b ∧
     (b = true ↔
      ∀ v, v ∈ annotations row → is_abstention v = false → v ≠ PStr "Safe")) ∧
  (∃ item, AegisV1.mapping uid (PDict safe_x_x_row) = Ok (Some item) ∧
     category item = PStr "X" ∧ query_harmful_label item = Some false).
Proof.
  intros Ht _. split.
  - destruct (get_majority_label_total row Ht) as [label Hlabel].
    unfold AegisV1.mapping. cbn [as_dict mbind result_bind]. rewrite Hlabel.
    eexists _, _. split; [reflexivity|]. cbn [query_harmful_label].
    split; [reflexivity|]. apply harm_flag_spec.
  - eexists. by split_and!.
Qed.

Lemma harm_flag_all_raters_witness :
  ∃ item, AegisV1.mapping "" (PDict safe_x_x_row) = Ok (Some item) ∧
     category item = PStr "X" ∧ query_harmful_label item = Some false.
Proof.
  apply (harm_flag_all_raters "" safe_x_x_row); reflexivity.
Defined.

(** ** Direct categorical family (aegis-v2) *)

Lemma dict_get_absent (row : pydict) (k : string) :
  dict_lookup k row = None → dict_get row k = PNone.
Proof. unfold dict_get, dict_get_or. by intros ->. Qed.

Lemma dict_get_or_absent (row : pydict) (k : string) (dflt : pyval) :
  dict_lookup k row = None → dict_get_or row k dflt = dflt.
Proof. unfold dict_get_or. by intros ->. Qed.

Lemma dict_get_is_str (row : pydict) (k s : string) :
  dict_get row k = PStr s ↔ dict_lookup k row = Some (PStr s).
Proof.
  unfold dict_get, dict_get_or. destruct (dict_lookup k row); simpl; split; congruence.
Qed.

(** C10.  The aegis-v2 Record always carries a boolean
    response_refusal_label: true exactly when the field
    response_label_source holds the text refusal_data_augmentation, false
    for any other value and when the field is absent. *)
Theorem refusal_label_boolean (uid : string) (row : pydict) :
  ∃ item b, AegisV2.mapping uid (PDict row) = Ok (Some item) ∧
    response_refusal_label item = Some b ∧
    (b = true ↔
     dict_lookup "response_label_source" row = Some (PStr "refusal_data_augmentation")) ∧
    (dict_lookup "response_label_source" row = None → b = false).
Proof.
  eexists _, _. split; [reflexivity|]. cbn [response_refusal_label].
  split; [reflexivity|]. split.
  - by rewrite py_eq_str, dict_get_is_str.
  - intros Habs. by rewrite (dict_get_absent _ _ Habs).
Qed.

(** ** Boolean-dictionary family (beavertails) *)

Lemma string_length_0 (s : string) : (String.length s =? 0)%nat = String.eqb s "".
Proof. by destruct s. Qed.

Lemma violated_all_false (flags : pydict) :
  forallb (λ kv, negb (truthy (snd kv))) flags = true → BeaverTails.violated flags = [].
Proof.
  unfold BeaverTails.violated. induction flags as [|[k v] flags IH]; simpl; [done|].
  intros [Hv Hfl]%andb_true_iff. apply negb_true_iff in Hv. rewrite Hv. by apply IH.
Qed.

Lemma extract_categories_dict (flags : pydict) :
  BeaverTails._extract_categories (PDict flags)
  = Ok (Str.join ";" (BeaverTails.violated flags)).
Proof. by destruct flags. Qed.

(** C9.  For a beavertails row whose category field is a dictionary of
    flags (an absent field reads as the empty dictionary), the Record's
    category is the names of the true flags, in dictionary order, joined by
    semicolons, and null when that text is empty; all-false and empty
    dictionaries give null; the flags a: true, b: false, c: true give a;c;
    and query_harmful_label and response_harmful_label both hold the
    negation of is_safe, a missing is_safe reading as true. *)
Theorem beavertails_record (uid : string) (row flags : pydict) :
  dict_get_or row "category" (PDict []) = PDict flags →
  ∃ item, BeaverTails.mapping uid (PDict row) = Ok (Some item) ∧
    category item =
      (let joined := Str.join ";" (List.filter (λ kv, truthy (snd kv)) flags).*1 in
       if String.eqb joined "" then PNone else PStr joined) ∧
    (forallb (λ kv, negb (truthy (snd kv))) flags = true → category item = PNone) ∧
    (flags = abc_flags → category item = PStr "a;c") ∧
    query_harmful_label item
      = Some (negb (truthy (dict_get_or row "is_safe" (PBool true)))) ∧
    response_harmful_label item = query_harmful_label item.
Proof.
  intros Hcat. unfold BeaverTails.mapping. cbn [as_dict mbind result_bind].
  rewrite Hcat, extract_categories_dict. cbn [mbind result_bind].
  eexists. split; [reflexivity|].
  cbn [category query_harmful_label response_harmful_label].
  rewrite string_length_0. split_and!; try done.
  - intros Hall. by rewrite (violated_all_false _ Hall).
  - by intros ->.
Qed.

Lemma beavertails_record_witness :
  ∃ item,
    BeaverTails.mapping "" (PDict [("category", PDict abc_flags); ("is_safe", PBool false)])
      = Ok (Some item) ∧
    category item = PStr "a;c" ∧
    query_harmful_label item = Some true ∧
    response_harmful_label item = Some true.
Proof.
  destruct (beavertails_record ""
              [("category", PDict abc_flags); ("is_safe", PBool false)] abc_flags)
    as (item & Hmap & _ & _ & Habc & Hq & Hr); [reflexivity|].
  exists item. rewrite Hr, Hq. split_and!; [done|by apply Habc|done..].
Defined.

(** ** Delimited-label family (bingoguard) *)

Lemma digit_parses (c : ascii) (d : Decimal.uint) :
  BingoGuard.isdigit c = true → is_Some (uint_of_char c (Some d)).
Proof.
  destruct c as [[|] [|] [|] [|] [|] [|] [|] [|]]; cbn; intros H;
    try discriminate H; by eexists.
Qed.

Lemma digits_prefix_parses (s : string) :
  is_Some (Str.parse_dec (BingoGuard.digits_prefix s)).
Proof.
  unfold Str.parse_dec. apply fmap_is_Some.
  induction s as [|c s [d Hd]]; simpl; [by eexists|].
  destruct (BingoGuard.isdigit c) eqn:Hc; simpl; [|by eexists].
  rewrite Hd. by apply digit_parses.
Qed.

Lemma re_search_level_digits (s ds : string) :
  BingoGuard.re_search_level s = Some ds → is_Some (Str.parse_dec ds).
Proof.
  induction s as [|c s IH]; simpl.
  - unfold BingoGuard.match_level_at. simpl. discriminate.
  - destruct (BingoGuard.match_level_at (String c s)) as [ds'|] eqn:Hm; [|done].
    intros [= <-]. unfold BingoGuard.match_level_at in Hm.
    destruct (Str.starts_with "#level:" (String c s)); [|done].
    destruct (String.eqb _ ""); [done|]. injection Hm as <-.
    apply digits_prefix_parses.
Qed.

Lemma parse_safety_str (s : string) :
  BingoGuard._parse_safety (PStr s)
  = Ok (Str.contains "unsafe" s,
        if Str.contains ":" s then Str.strip (List.last (Str.split ":" s) "")
        else if Str.contains "unsafe" s then "unsafe" else "safe").
Proof.
  unfold BingoGuard._parse_safety. destruct s as [|c s]; [done|].
  cbn [truthy String.eqb negb py_in mbind result_bind].
  by destruct (Str.contains ":" (String c s)), (Str.contains "unsafe" (String c s)).
Qed.

Lemma parse_safety_typed (v : pyval) :
  is_str_or_None v = true →
  ∃ cat, BingoGuard._parse_safety v = Ok (prompt_unsafe v, cat).
Proof.
  destruct v as [| | |s| |]; try done; intros _.
  - by eexists.
  - rewrite parse_safety_str. by eexists.
Qed.

(** A text whose first character is neither whitespace nor an N is not
    blank and is not the word none. *)
Lemma visible_head (c : ascii) (s : string) :
  Str.isspace c = false → Str.lower_char c ≠ "n"%char →
  String.eqb (Str.strip (String c s)) "" || String.eqb (Str.lower (String c s)) "none"
  = false.
Proof.
  intros Hsp Hn. unfold Str.strip. cbn [Str.lstrip]. rewrite Hsp.
  cbn [Str.rstrip]. rewrite Hsp. apply orb_false_iff. split.
  - by destruct (Str.rstrip s).
  - cbn [Str.lower]. apply String.eqb_neq. congruence.
Qed.

Lemma to_uint_nonnil (n : N) : N.to_uint n ≠ Decimal.Nil.
Proof.
  destruct n as [|p]; [done|]. apply DecimalPos.Unsigned.to_uint_nonnil.
Qed.

Lemma dec_head (n : N) :
  ∃ c s, Str.dec n = String c s ∧ BingoGuard.isdigit c = true.
Proof.
  unfold Str.dec. pose proof (to_uint_nonnil n) as Hn.
  destruct (N.to_uint n) as [|d|d|d|d|d|d|d|d|d|d]; [done|..]; cbn;
    by eexists _, _.
Qed.

Lemma digit_visible (c : ascii) :
  BingoGuard.isdigit c = true →
  Str.isspace c = false ∧ Str.lower_char c ≠ "n"%char.
Proof.
  destruct c as [[|] [|] [|] [|] [|] [|] [|] [|]]; cbn; intros H;
    try discriminate H; by split.
Qed.

(** The test of [mapping] on any value: the text of a number, a boolean or
    a container is never blank and never the word none. *)
Lemma no_response_spec (v : pyval) :
  BingoGuard.no_response v = response_missing v.
Proof.
  destruct v as [|[|]|z|s|l|d]; try done.
  - unfold BingoGuard.no_response, py_str. cbn [AegisV1.is_not_None negb orb py_str_aux].
    cbn [response_missing]. unfold Str.of_Z.
    destruct (z <? 0); [by apply visible_head|].
    destruct (dec_head (Z.to_N z)) as (c & s & -> & Hc).
    destruct (digit_visible c Hc). by apply visible_head.
  - unfold BingoGuard.no_response, py_str. cbn [AegisV1.is_not_None negb orb py_str_aux].
    rewrite string_app_cons. by apply visible_head.
  - unfold BingoGuard.no_response, py_str. cbn [AegisV1.is_not_None negb orb py_str_aux].
    rewrite string_app_cons. by apply visible_head.
Qed.


(** *** Blank texts and the word none, character by character *)

Lemma lstrip_empty_blank (s : string) :
  String.eqb (Str.lstrip s) "" = is_blank s.
Proof.
  induction s as [|c s IH]; [done|]. cbn [Str.lstrip is_blank list_ascii_of_string forallb].
  rewrite is_whitespace_isspace. destruct (Str.isspace c); [exact IH|done].
Qed.

Lemma rstrip_visible_head (c : ascii) (s : string) :
  Str.isspace c = false → Str.rstrip (String c s) ≠ "".
Proof. intros Hc. cbn [Str.rstrip]. rewrite Hc. by destruct (Str.rstrip s). Qed.

Lemma lstrip_head (s : string) (c : ascii) (t : string) :
  Str.lstrip s = String c t → Str.isspace c = false.
Proof.
  induction s as [|a s IH]; [done|]. cbn [Str.lstrip].
  destruct (Str.isspace a) eqn:Ha; [exact IH|]. by intros [= <- _].
Qed.

Lemma strip_empty_blank (s : string) :
  String.eqb (Str.strip s) "" = is_blank s.
Proof.
  rewrite <- lstrip_empty_blank. unfold Str.strip.
  destruct (Str.lstrip s) as [|c t] eqn:Hs; [done|].
  apply String.eqb_neq, rstrip_visible_head. by eapply lstrip_head.
Qed.

Lemma lower_char_n (c : ascii) :
  Ascii.eqb (Str.lower_char c) "n" = Ascii.eqb c "n" || Ascii.eqb c "N".
Proof. by destruct c as [[|] [|] [|] [|] [|] [|] [|] [|]]. Qed.

Lemma lower_char_o (c : ascii) :
  Ascii.eqb (Str.lower_char c) "o" = Ascii.eqb c "o" || Ascii.eqb c "O".
Proof. by destruct c as [[|] [|] [|] [|] [|] [|] [|] [|]]. Qed.

Lemma lower_char_e (c : ascii) :
  Ascii.eqb (Str.lower_char c) "e" = Ascii.eqb c "e" || Ascii.eqb c "E".
Proof. by destruct c as [[|] [|] [|] [|] [|] [|] [|] [|]]. Qed.

Lemma lower_none_word (s : string) :
  String.eqb (Str.lower s) "none" = is_none_word s.
Proof.
  destruct s as [|c1 [|c2 [|c3 [|c4 [|c5 s]]]]];
    cbn [Str.lower String.eqb is_none_word list_ascii_of_string];
    rewrite ?lower_char_n, ?lower_char_o, ?lower_char_e, ?andb_false_r, ?andb_true_r;
    try reflexivity.
  all: repeat match goal with |- context [?a || ?b] => destruct (a || b) end;
    reflexivity.
Qed.

(** The test of [mapping] on a text is the character-wise one. *)
Lemma response_missing_text (v : pyval) : response_missing v = no_response_text v.
Proof.
  destruct v as [| | |s| |]; try done.
  cbn [response_missing no_response_text].
  by rewrite strip_empty_blank, lower_none_word.
Qed.

Lemma split_nonempty (sep : ascii) (s : string) : Str.split sep s ≠ [].
Proof.
  induction s as [|c s IH]; simpl; [done|].
  destruct (Ascii.eqb c sep); [done|]. by destruct (Str.split sep s).
Qed.

Lemma split_app_sep (sep : ascii) (pre post : string) :
  Str.split sep (pre +:+ String sep post)
  = (Str.split sep pre ++ Str.split sep post)%list.
Proof.
  induction pre as [|c pre IH]; simpl.
  - by rewrite Ascii.eqb_refl.
  - destruct (Ascii.eqb c sep); [by rewrite IH|]. rewrite IH.
    pose proof (split_nonempty sep pre). by destruct (Str.split sep pre).
Qed.

Lemma contains_char_cons (sep c : ascii) (s : string) :
  Str.contains (String sep "") (String c s)
  = Ascii.eqb sep c || Str.contains (String sep "") s.
Proof. simpl. by rewrite andb_true_r. Qed.

Lemma split_no_sep (sep : ascii) (s : string) :
  Str.contains (String sep "") s = false → Str.split sep s = [s].
Proof.
  induction s as [|c s IH]; [done|]. rewrite contains_char_cons.
  intros [Hc Hs]%orb_false_iff. cbn [Str.split].
  rewrite Ascii.eqb_sym, Hc. by rewrite IH.
Qed.

Lemma contains_cons (sub : string) (c : ascii) (s : string) :
  Str.contains sub (String c s)
  = Str.starts_with sub (String c s) || Str.contains sub s.
Proof. done. Qed.

Lemma contains_app (sub pre post : string) :
  Str.contains sub (pre +:+ sub +:+ post) = true.
Proof.
  induction pre as [|c pre IH].
  - assert (Str.starts_with sub (sub +:+ post) = true) as Hs.
    { induction sub as [|a sub IHs]; [done|]. simpl. by rewrite Ascii.eqb_refl. }
    simpl. destruct (sub +:+ post); simpl in *; by rewrite Hs.
  - change (String c pre +:+ sub +:+ post) with (String c (pre +:+ sub +:+ post)).
    by rewrite contains_cons, IH, orb_true_r.
Qed.

(** The piece after the last colon. *)
Lemma last_split_colon (pre post : string) :
  Str.contains ":" post = false →
  List.last (Str.split ":" (pre +:+ ":" +:+ post)) "" = post.
Proof.
  intros Hpost. change (":" +:+ post) with (String ":" post).
  rewrite split_app_sep, (split_no_sep _ _ Hpost). apply last_last.
Qed.

Lemma parse_safety_after_colon (pre post : string) :
  Str.contains ":" post = false →
  BingoGuard._parse_safety (PStr (pre +:+ ":" +:+ post))
  = Ok (Str.contains "unsafe" (pre +:+ ":" +:+ post), Str.strip post).
Proof.
  intros Hpost. rewrite parse_safety_str, contains_app.
  by rewrite last_split_colon.
Qed.

Lemma string_app_empty_r (s : string) : s +:+ "" = s.
Proof. induction s as [|c s IH]; [done|]. by rewrite string_app_cons, IH. Qed.


(** *** The search for a level number *)

Lemma string_app_assoc (s t u : string) : (s +:+ t) +:+ u = s +:+ t +:+ u.
Proof. induction s as [|c s IH]; [done|]. by rewrite !string_app_cons, IH. Qed.

Lemma string_app_inv (s s' t t' : string) :
  String.length s = String.length s' → s +:+ t = s' +:+ t' → s = s' ∧ t = t'.
Proof.
  revert s'. induction s as [|c s IH]; intros [|c' s'] Hlen Heq;
    try discriminate Hlen; [done|].
  rewrite !string_app_cons in Heq. injection Heq as -> Heq.
  injection Hlen as Hlen. by destruct (IH s' Hlen Heq) as [-> ->].
Qed.

Lemma is_blank_cons (c : ascii) (s : string) :
  is_blank (String c s) = is_whitespace c && is_blank s.
Proof. done. Qed.

Lemma digit_not_whitespace (c : ascii) :
  is_decimal_digit c = true → Str.isspace c = false.
Proof. by destruct c as [[|] [|] [|] [|] [|] [|] [|] [|]]. Qed.

(** [lstrip] removes a blank head and nothing else. *)
Lemma lstrip_split (t : string) :
  ∃ ws, t = ws +:+ Str.lstrip t ∧ is_blank ws = true.
Proof.
  induction t as [|c t (ws & Ht & Hws)]; [by exists ""|].
  cbn [Str.lstrip]. destruct (Str.isspace c) eqn:Hc; [|by exists ""].
  exists (String c ws). rewrite string_app_cons, <- Ht.
  by rewrite is_blank_cons, is_whitespace_isspace, Hc, Hws.
Qed.

Lemma lstrip_blank_app (ws s : string) :
  is_blank ws = true → Str.lstrip (ws +:+ s) = Str.lstrip s.
Proof.
  induction ws as [|c ws IH]; [done|]. rewrite is_blank_cons, is_whitespace_isspace.
  intros [Hc Hws]%andb_true_iff. rewrite string_app_cons. cbn [Str.lstrip].
  rewrite Hc. by apply IH.
Qed.

(** [digits_prefix] takes the whole run of digits at the head. *)
Lemma digits_prefix_split (u : string) :
  ∃ rest, u = BingoGuard.digits_prefix u +:+ rest ∧
    all_digits (BingoGuard.digits_prefix u) = true ∧ head_is_digit rest = false.
Proof.
  induction u as [|c u (rest & Hu & Hall & Hrest)]; [by exists ""|].
  cbn [BingoGuard.digits_prefix]. destruct (BingoGuard.isdigit c) eqn:Hc.
  - exists rest. rewrite string_app_cons, <- Hu.
    by rewrite all_digits_cons, is_decimal_digit_isdigit, Hc, Hall.
  - exists (String c u). cbn [head_is_digit]. by rewrite is_decimal_digit_isdigit, Hc.
Qed.

Lemma digits_prefix_app (ds rest : string) :
  all_digits ds = true → head_is_digit rest = false →
  BingoGuard.digits_prefix (ds +:+ rest) = ds.
Proof.
  intros Hall Hrest. induction ds as [|c ds IH].
  - destruct rest as [|c rest]; [done|]. cbn [head_is_digit] in Hrest.
    rewrite is_decimal_digit_isdigit in Hrest.
    change ("" +:+ String c rest) with (String c rest).
    cbn [BingoGuard.digits_prefix]. by rewrite Hrest.
  - rewrite all_digits_cons in Hall. apply andb_true_iff in Hall as [Hc Hall].
    rewrite is_decimal_digit_isdigit in Hc.
    rewrite string_app_cons. cbn [BingoGuard.digits_prefix].
    by rewrite Hc, IH.
Qed.

Lemma starts_with_split (p s : string) :
  Str.starts_with p s = true → s = p +:+ BingoGuard.drop_prefix p s.
Proof.
  revert s. induction p as [|a p IH]; intros [|b s]; cbn [Str.starts_with];
    try done.
  intros [Hab Hp]%andb_true_iff. apply Ascii.eqb_eq in Hab as ->.
  rewrite string_app_cons. cbn [BingoGuard.drop_prefix]. f_equal. by apply IH.
Qed.

(** [sub in s] holds exactly when [sub] occurs in [s]. *)
Lemma contains_spec (sub s : string) :
  Str.contains sub s = true ↔ occurs_in sub s.
Proof.
  split.
  - induction s as [|c s IH].
    + cbn [Str.contains]. rewrite orb_false_r. intros Hs%starts_with_split.
      by exists "", (BingoGuard.drop_prefix sub "").
    + rewrite contains_cons. intros [Hs%starts_with_split|Hs]%orb_true_iff.
      * by exists "", (BingoGuard.drop_prefix sub (String c s)).
      * destruct (IH Hs) as (a & b & ->). by exists (String c a), b.
  - intros (a & b & ->). apply contains_app.
Qed.

Lemma contains_none (sub s : string) :
  ¬ occurs_in sub s → Str.contains sub s = false.
Proof.
  intros Hno. destruct (Str.contains sub s) eqn:Hs; [|done].
  by apply contains_spec in Hs.
Qed.

(** [strip] removes the whitespace at the two ends and nothing else. *)
Lemma rstrip_split (s : string) :
  ∃ ws, s = Str.rstrip s +:+ ws ∧ is_blank ws = true ∧
    last_is_blank (Str.rstrip s) = false.
Proof.
  induction s as [|c s (ws & Hs & Hws & Hlast)]; [by exists ""|].
  cbn [Str.rstrip]. destruct (Str.rstrip s) as [|c' r] eqn:Hr.
  - destruct (Str.isspace c) eqn:Hc.
    + exists (String c s). split_and!; [done| |done].
      rewrite is_blank_cons, is_whitespace_isspace, Hc.
      change ("" +:+ ws) with ws in Hs. by rewrite Hs.
    + exists ws. split_and!; [by rewrite string_app_cons, <- Hs|done|].
      unfold last_is_blank. cbn [list_ascii_of_string last].
      by rewrite is_whitespace_isspace.
  - exists ws. split_and!; [by rewrite string_app_cons, <- Hs|done|exact Hlast].
Qed.

Lemma rstrip_head (c : ascii) (s : string) :
  Str.isspace c = false → head_is_blank (Str.rstrip (String c s)) = false.
Proof.
  intros Hc. cbn [Str.rstrip]. destruct (Str.rstrip s); rewrite ?Hc;
    cbn [head_is_blank]; by rewrite is_whitespace_isspace.
Qed.

Lemma strip_trimmed (s : string) : trimmed_of s (Str.strip s).
Proof.
  unfold Str.strip. destruct (lstrip_split s) as (ws1 & Hs & Hws1).
  destruct (rstrip_split (Str.lstrip s)) as (ws2 & Ht & Hws2 & Hlast).
  exists ws1, ws2. split_and!; [|done..| |done].
  - by rewrite <- Ht.
  - destruct (Str.lstrip s) as [|c t] eqn:Hl; [done|].
    apply rstrip_head. by eapply lstrip_head.
Qed.

(** What the pattern reads after the marker: the blanks, then the whole
    run of digits. *)
Lemma level_digits (ws ds rest : string) :
  is_blank ws = true → ds ≠ "" → all_digits ds = true → head_is_digit rest = false →
  BingoGuard.digits_prefix (Str.lstrip (ws +:+ ds +:+ rest)) = ds.
Proof.
  intros Hws Hne Hall Hrest. rewrite (lstrip_blank_app _ _ Hws).
  destruct ds as [|c ds]; [done|]. clear Hne.
  pose proof Hall as Hall'. rewrite all_digits_cons in Hall'.
  apply andb_true_iff in Hall' as [Hc _].
  rewrite string_app_cons. cbn [Str.lstrip]. rewrite (digit_not_whitespace c Hc).
  rewrite <- string_app_cons. by apply digits_prefix_app.
Qed.

Lemma match_level_at_found (ws ds rest : string) :
  is_blank ws = true → ds ≠ "" → all_digits ds = true → head_is_digit rest = false →
  BingoGuard.match_level_at ("#level:" +:+ ws +:+ ds +:+ rest) = Some ds.
Proof.
  intros Hws Hne Hall Hrest. unfold BingoGuard.match_level_at.
  change ("#level:" +:+ ws +:+ ds +:+ rest) with
    (String "#" (String "l" (String "e" (String "v" (String "e" (String "l"
      (String ":" (ws +:+ ds +:+ rest)))))))).
  cbn [Str.starts_with Ascii.eqb Bool.eqb andb BingoGuard.drop_prefix].
  rewrite (level_digits ws ds rest Hws Hne Hall Hrest).
  by destruct (String.eqb_spec ds "").
Qed.

Lemma match_level_at_inv (s ds : string) :
  BingoGuard.match_level_at s = Some ds →
  ∃ ws rest, level_number_at s "" ws ds rest.
Proof.
  unfold BingoGuard.match_level_at.
  destruct (Str.starts_with "#level:" s) eqn:Hs; [|done].
  apply starts_with_split in Hs.
  set (t := BingoGuard.drop_prefix "#level:" s) in *.
  destruct (lstrip_split t) as (ws & Hws & Hblank).
  destruct (digits_prefix_split (Str.lstrip t)) as (rest & Hrest & Hall & Hhead).
  destruct (String.eqb_spec (BingoGuard.digits_prefix (Str.lstrip t)) "")
    as [|Hne]; [done|].
  intros [= <-]. exists ws, rest. unfold level_number_at.
  split; [|by split_and!].
  change ("" +:+ "#level:" +:+ ?x) with ("#level:" +:+ x).
  rewrite <- Hrest, <- Hws. exact Hs.
Qed.

Lemma level_number_at_cons (c : ascii) (l lead ws ds rest : string) :
  level_number_at (String c l) (String c lead) ws ds rest
  ↔ level_number_at l lead ws ds rest.
Proof.
  unfold level_number_at. rewrite string_app_cons. split.
  - intros ([= ->] & ?). done.
  - intros (-> & ?). done.
Qed.

Lemma level_number_at_head (l ws ds rest : string) :
  level_number_at l "" ws ds rest → BingoGuard.match_level_at l = Some ds.
Proof. intros (-> & Hws & Hne & Hall & Hrest). by apply match_level_at_found. Qed.

Lemma level_number_at_lead (c : ascii) (l lead ws ds rest : string) :
  level_number_at (String c l) lead ws ds rest →
  BingoGuard.match_level_at (String c l) = None →
  ∃ lead', lead = String c lead' ∧ level_number_at l lead' ws ds rest.
Proof.
  intros Hat Hnone. destruct lead as [|c' lead'].
  - apply level_number_at_head in Hat. congruence.
  - pose proof Hat as (Heq & _). rewrite string_app_cons in Heq.
    injection Heq as <- _. exists lead'. split; [done|].
    exact (proj1 (level_number_at_cons c l lead' ws ds rest) Hat).
Qed.

(** [re.search] answers with the digits of the leftmost level number, and
    with nothing exactly when the text holds no level number. *)
Lemma re_search_level_inv (l : string) :
  match BingoGuard.re_search_level l with
  | Some ds => ∃ lead ws rest, first_level_number l lead ws ds rest
  | None => no_level_number l
  end.
Proof.
  induction l as [|c l IH].
  - cbn. intros lead ws ds rest (Heq & _). by destruct lead.
  - cbn [BingoGuard.re_search_level].
    destruct (BingoGuard.match_level_at (String c l)) as [ds|] eqn:Hm.
    + destruct (match_level_at_inv _ _ Hm) as (ws & rest & Hat).
      exists "", ws, rest. split; [done|]. intros; cbn; lia.
    + destruct (BingoGuard.re_search_level l) as [ds|].
      * destruct IH as (lead & ws & rest & Hat & Hfirst).
        exists (String c lead), ws, rest.
        split; [exact (proj2 (level_number_at_cons c l lead ws ds rest) Hat)|].
        intros lead' ws' ds' rest' Hat'.
        destruct (level_number_at_lead _ _ _ _ _ _ Hat' Hm) as (lead'' & -> & Hat'').
        cbn [String.length]. pose proof (Hfirst _ _ _ _ Hat''). lia.
      * intros lead ws ds rest Hat.
        destruct (level_number_at_lead _ _ _ _ _ _ Hat Hm) as (lead' & -> & Hat').
        by apply (IH lead' ws ds rest).
Qed.

Lemma level_number_unique (l lead ws ds rest lead' ws' ds' rest' : string) :
  level_number_at l lead ws ds rest → level_number_at l lead' ws' ds' rest' →
  String.length lead = String.length lead' → ds = ds'.
Proof.
  intros (Hl & Hws & Hne & Hall & Hrest) (Hl' & Hws' & Hne' & Hall' & Hrest') Hlen.
  rewrite Hl in Hl'. destruct (string_app_inv _ _ _ _ Hlen Hl') as [_ Htail].
  apply (inj (String.app "#level:")) in Htail.
  rewrite <- (level_digits ws ds rest), <- (level_digits ws' ds' rest') by done.
  by rewrite Htail.
Qed.

Lemma first_level_number_unique (l lead ws ds rest lead' ws' ds' rest' : string) :
  first_level_number l lead ws ds rest → first_level_number l lead' ws' ds' rest' →
  ds = ds'.
Proof.
  intros [Hat Hfirst] [Hat' Hfirst'].
  apply (level_number_unique l lead ws ds rest lead' ws' ds' rest'); [done..|].
  pose proof (Hfirst _ _ _ _ Hat'). pose proof (Hfirst' _ _ _ _ Hat). lia.
Qed.

Lemma re_search_level_first (l lead ws ds rest : string) :
  first_level_number l lead ws ds rest → BingoGuard.re_search_level l = Some ds.
Proof.
  intros Hfirst. pose proof (re_search_level_inv l) as Hinv.
  destruct (BingoGuard.re_search_level l) as [ds'|].
  - destruct Hinv as (lead' & ws' & rest' & Hfirst'). f_equal.
    by eapply first_level_number_unique.
  - destruct Hfirst as [Hat _]. by destruct (Hinv lead ws ds rest).
Qed.

Lemma re_search_level_none (l : string) :
  no_level_number l → BingoGuard.re_search_level l = None.
Proof.
  intros Hno. pose proof (re_search_level_inv l) as Hinv.
  destruct (BingoGuard.re_search_level l) as [ds|]; [|done].
  destruct Hinv as (lead & ws & rest & Hat & _). by destruct (Hno lead ws ds rest).
Qed.

Lemma no_level_number_search (l : string) :
  BingoGuard.re_search_level l = None → no_level_number l.
Proof. intros Hs. pose proof (re_search_level_inv l) as Hinv. by rewrite Hs in Hinv. Qed.

Lemma first_level_number_search (l ds : string) :
  BingoGuard.re_search_level l = Some ds →
  ∃ lead ws rest, first_level_number l lead ws ds rest.
Proof. intros Hs. pose proof (re_search_level_inv l) as Hinv. by rewrite Hs in Hinv. Qed.

Lemma level_number_contains (l lead ws ds rest : string) :
  level_number_at l lead ws ds rest →
  truthy (PStr l) = true ∧ Str.contains "#level:" l = true.
Proof.
  intros (-> & _). split; [by destruct lead|]. apply contains_app.
Qed.

(** [int] on a run of digits. *)
Lemma int_of_digits_spec (ds : string) :
  all_digits ds = true →
  BingoGuard.int_of_digits ds
  = if (BingoGuard.int_max_str_digits <? N.of_nat (String.length ds))%N
    then Raise ValueError else Ok (PInt (Z.of_N (decimal_value ds))).
Proof.
  intros Hall. unfold BingoGuard.int_of_digits. by rewrite (all_digits_parse ds Hall).
Qed.

(** The severity of a text: null without a level number, and otherwise
    what [int] makes of the digits of the leftmost one. *)
Lemma extract_severity_none (l : string) :
  no_level_number l → BingoGuard._extract_severity (PStr l) = Ok PNone.
Proof.
  intros Hno. unfold BingoGuard._extract_severity.
  destruct (truthy (PStr l)); [|done]. cbn [py_in mbind result_bind].
  destruct (Str.contains "#level:" l); [|done].
  by rewrite (re_search_level_none l Hno).
Qed.

Lemma extract_severity_first (l lead ws ds rest : string) :
  first_level_number l lead ws ds rest →
  BingoGuard._extract_severity (PStr l)
  = if (BingoGuard.int_max_str_digits <? N.of_nat (String.length ds))%N
    then Raise ValueError else Ok (PInt (Z.of_N (decimal_value ds))).
Proof.
  intros Hfirst. pose proof Hfirst as [Hat _].
  destruct (level_number_contains _ _ _ _ _ Hat) as [Ht Hc].
  unfold BingoGuard._extract_severity. rewrite Ht. cbn [py_in mbind result_bind].
  rewrite Hc, (re_search_level_first _ _ _ _ _ Hfirst).
  apply int_of_digits_spec. by destruct Hat as (_ & _ & _ & ? & _).
Qed.

Lemma severity_overflow_raises (v : pyval) :
  severity_overflow v → BingoGuard._extract_severity v = Raise ValueError.
Proof.
  intros (l & lead & ws & ds & rest & -> & Hfirst & Hlong).
  rewrite (extract_severity_first _ _ _ _ _ Hfirst).
  by rewrite (proj2 (N.ltb_lt _ _) Hlong).
Qed.

(** The outcomes of the severity on a text or a missing field. *)
Lemma extract_severity_cases (v : pyval) :
  is_str_or_None v = true →
  (severity_overflow v ∧ BingoGuard._extract_severity v = Raise ValueError) ∨
  (¬ severity_overflow v ∧
   ∃ sev, BingoGuard._extract_severity v = Ok sev ∧
     (sev = PNone ∨
      ∃ n : N, sev = PInt (Z.of_N n) ∧
        (n < 10 ^ BingoGuard.int_max_str_digits)%N) ∧
     (truthy v = false → sev = PNone)).
Proof.
  destruct v as [| | |l| |]; try done; intros _.
  - right. split; [by intros (? & ? & ? & ? & ? & ? & _)|].
    exists PNone. by split_and!; [|left|].
  - pose proof (re_search_level_inv l) as Hinv.
    destruct (BingoGuard.re_search_level l) as [ds|] eqn:Hsearch.
    + destruct Hinv as (lead & ws & rest & Hfirst).
      pose proof (extract_severity_first _ _ _ _ _ Hfirst) as Hsev.
      destruct (N.ltb_spec BingoGuard.int_max_str_digits (N.of_nat (String.length ds)))
        as [Hlong|Hshort].
      * left. split; [by exists l, lead, ws, ds, rest|done].
      * right. split.
        { intros (l' & lead' & ws' & ds' & rest' & [= <-] & Hfirst' & Hlong).
          rewrite (first_level_number_unique _ _ _ _ _ _ _ _ _ Hfirst Hfirst') in Hshort.
          lia. }
        exists (PInt (Z.of_N (decimal_value ds))). split_and!; [done| |].
        -- right. exists (decimal_value ds). split; [done|].
           destruct Hfirst as [(_ & _ & _ & Hall & _) _].
           pose proof (decimal_value_bound ds Hall).
           assert (10 ^ N.of_nat (String.length ds) ≤ 10 ^ BingoGuard.int_max_str_digits)%N;
             [|lia].
           apply N.pow_le_mono_r; [lia|done].
        -- intros Hf. destruct Hfirst as [Hat _].
           destruct (level_number_contains _ _ _ _ _ Hat) as [Ht _]. congruence.
    + right. split.
      { intros (l' & lead' & ws' & ds' & rest' & [= <-] & [Hat _] & _).
        by apply (Hinv lead' ws' ds' rest'). }
      exists PNone. rewrite (extract_severity_none l Hinv). by split_and!; [|left|].
Qed.

(** C7.  For a bingoguard row whose prompt label, label and response are
    texts or missing, the mapping yields a Record unless the label's level
    number is too long for [int] (then it raises ValueError).  Its
    response_harmful_label is null when the response is absent, made of
    whitespace only, or the word none in any letter case, whatever the
    prompt label says, and otherwise it is the harmfulness stated by the
    prompt label, which query_harmful_label always carries. *)
Theorem response_label_blank (uid : string) (row : pydict) :
  is_str_or_None (dict_get_or row "prompt_label" (PStr "")) = true →
  is_str_or_None (dict_get_or row "label" (PStr "")) = true →
  is_str_or_None (dict_get row "response") = true →
  (∃ item, BingoGuard.mapping uid (PDict row) = Ok (Some item) ∧
     query_harmful_label item
       = Some (prompt_unsafe (dict_get_or row "prompt_label" (PStr ""))) ∧
     (query_harmful_label item = Some true
      ↔ ∃ p, dict_get_or row "prompt_label" (PStr "") = PStr p ∧
             occurs_in "unsafe" p) ∧
     response_harmful_label item
       = if no_response_text (dict_get row "response") then None
         else Some (prompt_unsafe (dict_get_or row "prompt_label" (PStr "")))) ∨
  (BingoGuard.mapping uid (PDict row) = Raise ValueError ∧
   severity_overflow (dict_get_or row "label" (PStr ""))).
Proof.
  intros Hp Hl Hr. unfold BingoGuard.mapping. cbn [as_dict mbind result_bind].
  destruct (parse_safety_typed _ Hp) as [cat ->]. cbn [mbind result_bind].
  destruct (extract_severity_cases _ Hl) as [[Hover ->]|(_ & sev & -> & _)].
  - by right.
  - left. cbn [mbind result_bind]. eexists. split; [reflexivity|].
    cbn [query_harmful_label response_harmful_label].
    rewrite no_response_spec, response_missing_text. split_and!; [done| |done].
    destruct (dict_get_or row "prompt_label" (PStr "")) as [| | |p| |];
      try done; cbn [prompt_unsafe].
    + split; [done|]. by intros (p & ? & _).
    + split.
      * intros [= Hu]. exists p. split; [done|]. by apply contains_spec.
      * intros (p' & [= <-] & Hu). f_equal. by apply contains_spec.
Qed.

Lemma response_label_blank_witness :
  (∃ item, BingoGuard.mapping "" (PDict blank_response_row) = Ok (Some item) ∧
     query_harmful_label item = Some true ∧ response_harmful_label item = None) ∧
  (∃ item, BingoGuard.mapping "" (PDict none_response_row) = Ok (Some item) ∧
     query_harmful_label item = Some true ∧ response_harmful_label item = None) ∧
  (∃ item, BingoGuard.mapping "" (PDict answered_row) = Ok (Some item) ∧
     query_harmful_label item = Some true ∧
     response_harmful_label item = Some true).
Proof.
  split_and!.
  - destruct (response_label_blank "" blank_response_row)
      as [(item & Hmap & Hq & _ & Hr)|[H _]]; [reflexivity..| |discriminate H].
    exists item. split_and!; [exact Hmap|exact Hq|exact Hr].
  - destruct (response_label_blank "" none_response_row)
      as [(item & Hmap & Hq & _ & Hr)|[H _]]; [reflexivity..| |discriminate H].
    exists item. split_and!; [exact Hmap|exact Hq|exact Hr].
  - destruct (response_label_blank "" answered_row)
      as [(item & Hmap & Hq & _ & Hr)|[H _]]; [reflexivity..| |discriminate H].
    exists item. split_and!; [exact Hmap|exact Hq|exact Hr].
Defined.

Lemma bingoguard_mapping_fields (uid : string) (row : pydict)
    (harmful : bool) (cat : string) (sev : pyval) :
  BingoGuard._parse_safety (dict_get_or row "prompt_label" (PStr "")) = Ok (harmful, cat) →
  BingoGuard._extract_severity (dict_get_or row "label" (PStr "")) = Ok sev →
  ∃ item, BingoGuard.mapping uid (PDict row) = Ok (Some item) ∧
    category item = PStr cat ∧
    dict_lookup "severity" (extra item) = Some sev ∧
    query_harmful_label item = Some harmful ∧
    response_harmful_label item
      = (if BingoGuard.no_response (dict_get row "response") then None else Some harmful) ∧
    response_refusal_label item = None.
Proof.
  intros Hp Hs. unfold BingoGuard.mapping. cbn [as_dict mbind result_bind].
  rewrite Hp, Hs. cbn [mbind result_bind]. eexists. by split_and!.
Qed.

(** C8, as the code has it.  On a bingoguard row whose prompt label [p] and
    label [l] are texts: the category is the piece of [p] after its last
    colon without the whitespace at its two ends, and the text unsafe when
    [p] has no colon but contains unsafe; the severity is null when [l]
    holds no level number (no [#level:] followed by optional whitespace
    and at least one digit), and otherwise the number that the digits of
    the leftmost level number denote, unless there are more than 4300 of
    them, when the mapping raises ValueError.  So the prompt label
    unsafe:violence gives the category violence, while the compound text
    unsafe:violence #level: 3 gives the category 3 as a prompt label and
    the severity 3 as a label. *)
Theorem compound_label_parsing (uid : string) (row : pydict) (p l : string) :
  dict_get_or row "prompt_label" (PStr "") = PStr p →
  dict_get_or row "label" (PStr "") = PStr l →
  ∃ cat,
    (∀ pre post, p = pre +:+ ":" +:+ post → ¬ occurs_in ":" post →
       cat = Str.strip post ∧ trimmed_of post cat) ∧
    (¬ occurs_in ":" p → occurs_in "unsafe" p → cat = "unsafe") ∧
    (p = "unsafe:violence" → cat = "violence") ∧
    (p = "unsafe:violence #level: 3" → cat = "3") ∧
    (no_level_number l →
       ∃ item, BingoGuard.mapping uid (PDict row) = Ok (Some item) ∧
         category item = PStr cat ∧
         dict_lookup "severity" (extra item) = Some PNone) ∧
    (∀ lead ws ds rest, first_level_number l lead ws ds rest →
       ((N.of_nat (String.length ds) ≤ 4300)%N →
        ∃ item, BingoGuard.mapping uid (PDict row) = Ok (Some item) ∧
          category item = PStr cat ∧
          dict_lookup "severity" (extra item)
            = Some (PInt (Z.of_N (decimal_value ds)))) ∧
       ((4300 < N.of_nat (String.length ds))%N →
        BingoGuard.mapping uid (PDict row) = Raise ValueError)) ∧
    (l = "unsafe:violence #level: 3" →
       ∃ item, BingoGuard.mapping uid (PDict row) = Ok (Some item) ∧
         category item = PStr cat ∧
         dict_lookup "severity" (extra item) = Some (PInt 3)).
Proof.
  intros Hp Hl.
  pose proof (eq_trans (f_equal _ Hp) (parse_safety_str p)) as Hsafety.
  exists (if Str.contains ":" p then Str.strip (List.last (Str.split ":" p) "")
          else if Str.contains "unsafe" p then "unsafe" else "safe").
  split_and!.
  - intros pre post -> Hpost%contains_none. rewrite contains_app.
    rewrite last_split_colon by done. split; [done|apply strip_trimmed].
  - intros Hnc%contains_none Hu%contains_spec. by rewrite Hnc, Hu.
  - by intros ->.
  - by intros ->.
  - intros Hno.
    destruct (bingoguard_mapping_fields uid row _ _ PNone Hsafety)
      as (item & Hmap & Hcat & Hsv & _).
    { rewrite Hl. by apply extract_severity_none. }
    by exists item.
  - intros lead ws ds rest Hfirst.
    pose proof (extract_severity_first _ _ _ _ _ Hfirst) as Hsev.
    unfold BingoGuard.int_max_str_digits in Hsev. split.
    + intros Hshort. rewrite (proj2 (N.ltb_ge _ _) Hshort) in Hsev.
      destruct (bingoguard_mapping_fields uid row _ _
                  (PInt (Z.of_N (decimal_value ds))) Hsafety)
        as (item & Hmap & Hcat & Hsv & _); [by rewrite Hl|].
      by exists item.
    + intros Hlong. rewrite (proj2 (N.ltb_lt _ _) Hlong) in Hsev.
      unfold BingoGuard.mapping. cbn [as_dict mbind result_bind].
      rewrite Hsafety. cbn [mbind result_bind]. by rewrite Hl, Hsev.
  - intros ->.
    destruct (bingoguard_mapping_fields uid row _ _ (PInt 3) Hsafety)
      as (item & Hmap & Hcat & Hsv & _); [by rewrite Hl|].
    by exists item.
Qed.

Lemma compound_label_parsing_witness :
  (∃ item, BingoGuard.mapping "" (PDict compound_label_row) = Ok (Some item) ∧
     category item = PStr "3" ∧
     dict_lookup "severity" (extra item) = Some (PInt 3)) ∧
  (∃ item, BingoGuard.mapping "" (PDict level_word_row) = Ok (Some item) ∧
     category item = PStr "violence" ∧
     dict_lookup "severity" (extra item) = Some PNone) ∧
  BingoGuard.mapping "" (PDict long_level_row) = Raise ValueError ∧
  (∃ item, BingoGuard.mapping "" (PDict padded_category_row) = Ok (Some item) ∧
     category item = PStr "violent crime").
Proof.
  split_and!.
  - destruct (compound_label_parsing "" compound_label_row
                "unsafe:violence #level: 3" "unsafe:violence #level: 3")
      as (cat & _ & _ & _ & Hcat & _ & _ & Hthree); [reflexivity..|].
    destruct (Hthree eq_refl) as (item & Hmap & Hc & Hsev).
    exists item. by rewrite Hc, (Hcat eq_refl).
  - destruct (compound_label_parsing "" level_word_row
                "unsafe:violence" "#level: high")
      as (cat & _ & _ & Hcat & _ & Hnone & _); [reflexivity..|].
    destruct (Hnone (no_level_number_search "#level: high" eq_refl))
      as (item & Hmap & Hc & Hsev).
    exists item. by rewrite Hc, (Hcat eq_refl).
  - destruct (compound_label_parsing "" long_level_row
                "unsafe:violence" ("#level:1" +:+ Str.zeros 4300))
      as (cat & _ & _ & _ & _ & _ & Hfirst & _); [reflexivity..|].
    destruct (first_level_number_search ("#level:1" +:+ Str.zeros 4300)
                (String "1" (Str.zeros 4300))) as (lead & ws & rest & Hlevel).
    { vm_compute. reflexivity. }
    apply (Hfirst lead ws (String "1" (Str.zeros 4300)) rest Hlevel).
    vm_compute. reflexivity.
  - destruct (compound_label_parsing "" padded_category_row
                "unsafe:  violent crime " "")
      as (cat & Hcat & _ & _ & _ & Hnone & _); [reflexivity..|].
    destruct (Hnone (no_level_number_search "" eq_refl)) as (item & Hmap & Hc & _).
    exists item. split; [exact Hmap|]. rewrite Hc.
    destruct (Hcat "unsafe" "  violent crime " eq_refl) as [-> _]; [|reflexivity].
    intros H%contains_spec. discriminate H.
Defined.

(** C8 as stated fails: the compound label gives the category 3, not
    violence. *)
Lemma compound_label_category :
  ∃ item, BingoGuard.mapping "" (PDict compound_label_row) = Ok (Some item) ∧
    category item = PStr "3" ∧
    category item ≠ PStr "violence" ∧
    dict_lookup "severity" (extra item) = Some (PInt 3).
Proof. eexists. by split_and!. Qed.

(** ** Silent rows *)

Lemma silent_absent (row : pydict) (k : string) :
  silent row = true → k ∈ label_fields → dict_lookup k row = None.
Proof.
  unfold silent. rewrite forallb_forall. intros Hs Hk%list_elem_of_In.
  specialize (Hs k Hk). apply negb_true_iff in Hs.
  unfold dict_mem in Hs. apply bool_decide_eq_false in Hs.
  by apply eq_None_not_Some.
Qed.

Ltac absent_field Hs :=
  apply (silent_absent _ _ Hs); unfold label_fields, AegisV1.label_keys;
  cbn [app]; repeat first [by apply list_elem_of_here | apply list_elem_of_further].

(** C2, as the code has it.  On a row that has none of the label fields,
    aegis-v2 sets all three labels to false, beavertails sets both harm
    labels to false, bingoguard sets query_harmful_label to false (and
    response_harmful_label to false unless the response is missing), and
    aegis-v1 sets query_harmful_label to true; the labels that stay null
    are those the family never derives from a row. *)
Theorem silent_row_labels (uid : string) (row : pydict) :
  silent row = true →
  (∃ item, AegisV2.mapping uid (PDict row) = Ok (Some item) ∧
     query_harmful_label item = Some false ∧
     response_harmful_label item = Some false ∧
     response_refusal_label item = Some false) ∧
  (∃ item, BeaverTails.mapping uid (PDict row) = Ok (Some item) ∧
     query_harmful_label item = Some false ∧
     response_harmful_label item = Some false ∧
     response_refusal_label item = None) ∧
  (∃ item, BingoGuard.mapping uid (PDict row) = Ok (Some item) ∧
     query_harmful_label item = Some false ∧
     response_harmful_label item
       = (if response_missing (dict_get row "response") then None
          else Some false) ∧
     response_refusal_label item = None) ∧
  (∃ item, AegisV1.mapping uid (PDict row) = Ok (Some item) ∧
     query_harmful_label item = Some true ∧
     response_harmful_label item = None ∧
     response_refusal_label item = None).
Proof.
  intros Hs. split_and!.
  - eexists. split; [reflexivity|].
    cbn [query_harmful_label response_harmful_label response_refusal_label].
    rewrite !dict_get_absent by absent_field Hs. done.
  - unfold BeaverTails.mapping. cbn [as_dict mbind result_bind].
    rewrite !dict_get_or_absent by absent_field Hs.
    eexists. by split_and!.
  - destruct (bingoguard_mapping_fields uid row false "safe" PNone)
      as (item & Hmap & _ & _ & Hq & Hr & Hf).
    + rewrite dict_get_or_absent by absent_field Hs. done.
    + rewrite dict_get_or_absent by absent_field Hs. done.
    + rewrite no_response_spec in Hr. by exists item.
  - assert (annotations row = [PNone; PNone; PNone; PNone; PNone]) as Hann.
    { unfold annotations, AegisV1.label_keys. cbn [fmap list_fmap].
      rewrite !dict_get_absent by absent_field Hs. done. }
    destruct (all_abstained_mapping uid row) as (item & Hmap & _ & Hq & Hr & Hf).
    { by rewrite Hann. }
    by exists item.
Qed.

Lemma silent_row_labels_witness :
  ∃ item, AegisV2.mapping "" (PDict silent_row) = Ok (Some item) ∧
     query_harmful_label item = Some false ∧
     response_harmful_label item = Some false ∧
     response_refusal_label item = Some false.
Proof. apply (silent_row_labels "" silent_row). reflexivity. Defined.

(** C2 as stated fails: aegis-v2 reads a missing prompt label as false. *)
Lemma silent_row_guessed_false :
  dict_lookup "prompt_label" silent_row = None ∧
  ∃ item, AegisV2.mapping "" (PDict silent_row) = Ok (Some item) ∧
     query_harmful_label item = Some false ∧
     query_harmful_label item ≠ None.
Proof. split; [reflexivity|]. eexists. by split_and!. Qed.

(** ** Multi-file family (harmbench) *)

Lemma enumerate_fst {A : Type} (start : Z) (l : list A) :
  (enumerate start l).*1 = seqZ start (Z.of_nat (length l)).
Proof.
  revert start. induction l as [|x l IH]; intros start; [done|].
  cbn [enumerate fmap list_fmap fst length]. rewrite seqZ_cons by lia.
  rewrite IH. do 2 f_equal; lia.
Qed.

Lemma enumerate_snd {A : Type} (start : Z) (l : list A) :
  (enumerate start l).*2 = l.
Proof.
  revert start. induction l as [|x l IH]; intros start; [done|].
  cbn [enumerate fmap list_fmap snd]. by rewrite IH.
Qed.

Lemma py_sum_numeric (values : list pyval) :
  forallb is_number values = true → ∃ total, py_sum values = Ok total.
Proof.
  induction values as [|v values IH]; [by eexists|].
  cbn [forallb]. intros [Hv [total Ht]%IH]%andb_true_iff.
  destruct v; try done; cbn [py_sum]; rewrite Ht; by eexists.
Qed.

Section HarmBenchFiles.

Variable read_csv : pyval → result DataFrame.
Variable json_load : pyval → result (list (string * list pydict)).
Variable load_dataset : string → pydict → result fetched.
Variable uuid4 : Z → string.

Lemma csv_items_spec (start : Z) (rows : list pydict) :
  id <$> (HarmBench.csv_item uuid4 <$> enumerate start rows)
    = BaseDataLoader.generate_id HarmBench.cls <$> seqZ start (Z.of_nat (length rows)) ∧
  query <$> (HarmBench.csv_item uuid4 <$> enumerate start rows)
    = (λ row, dict_get row "Behavior") <$> rows.
Proof.
  split.
  - rewrite <- enumerate_fst, <- !list_fmap_compose.
    apply list_fmap_ext. by intros _ [i row] _.
  - rewrite <- (enumerate_snd start rows) at 2. rewrite <- !list_fmap_compose.
    apply list_fmap_ext. by intros _ [i row] _.
Qed.

Lemma json_item_spec (i : Z) (case : pydict) :
  votes_numeric case = true →
  ∃ item, HarmBench.json_item uuid4 (i, case) = Ok item ∧
    id item = BaseDataLoader.generate_id HarmBench.cls i ∧
    query item = dict_get case "test_case".
Proof.
  intros Hv. unfold HarmBench.json_item.
  destruct (py_sum_numeric _ Hv) as [total ->].
  cbn [mbind result_bind]. by eexists.
Qed.

Lemma json_items_spec (start : Z) (cases : list pydict) :
  forallb votes_numeric cases = true →
  ∃ items, HarmBench.json_items uuid4 (enumerate start cases) = Ok items ∧
    id <$> items
      = BaseDataLoader.generate_id HarmBench.cls <$> seqZ start (Z.of_nat (length cases)) ∧
    query <$> items = (λ case, dict_get case "test_case") <$> cases.
Proof.
  revert start. induction cases as [|case cases IH]; intros start.
  - intros _. by exists [].
  - cbn [forallb]. intros [Hc Hcs]%andb_true_iff.
    destruct (json_item_spec start case Hc) as (item & Hitem & Hid & Hq).
    destruct (IH (start + 1) Hcs) as (items & Hitems & Hids & Hqs).
    exists (item :: items). cbn [enumerate HarmBench.json_items].
    rewrite Hitem. cbn [mbind result_bind]. rewrite Hitems.
    cbn [mbind result_bind]. split; [done|].
    cbn [fmap list_fmap length]. rewrite seqZ_cons by lia.
    cbn [fmap list_fmap] in *. rewrite Hid, Hids, Hq, Hqs.
    split; [|done]. do 3 f_equal; lia.
Qed.

Lemma dict_lookup_set_ne (k k' : string) (v : pyval) (d : pydict) :
  k ≠ k' → dict_lookup k' (dict_set k v d) = dict_lookup k' d.
Proof.
  intros Hne. induction d as [|[k0 v0] d IH]; cbn [dict_set dict_lookup].
  - by destruct (String.eqb_spec k k').
  - destruct (String.eqb_spec k0 k) as [->|].
    + cbn [dict_lookup]. by destruct (String.eqb_spec k k').
    + cbn [dict_lookup]. by rewrite IH.
Qed.

Lemma flatten_cons (key : string) (group : list pydict)
    (raw_data : list (string * list pydict)) :
  HarmBench.flatten ((key, group) :: raw_data)
  = ((dict_set "_behavior_id_key" (PStr key) <$> group)
     ++ HarmBench.flatten raw_data)%list.
Proof. done. Qed.

Lemma cases_cons (key : string) (group : list pydict)
    (raw_data : list (string * list pydict)) :
  mjoin ((key, group) :: raw_data).*2 = (group ++ mjoin raw_data.*2)%list.
Proof. done. Qed.

Lemma tagged_votes (key : string) (case : pydict) :
  votes_numeric (dict_set "_behavior_id_key" (PStr key) case) = votes_numeric case.
Proof.
  unfold votes_numeric, dict_get_or. by rewrite !dict_lookup_set_ne.
Qed.

Lemma tagged_query (key : string) (case : pydict) :
  dict_get (dict_set "_behavior_id_key" (PStr key) case) "test_case"
  = dict_get case "test_case".
Proof. unfold dict_get, dict_get_or. by rewrite dict_lookup_set_ne. Qed.

Lemma flatten_votes (raw_data : list (string * list pydict)) :
  forallb votes_numeric (mjoin raw_data.*2) = true →
  forallb votes_numeric (HarmBench.flatten raw_data) = true.
Proof.
  induction raw_data as [|[key group] raw IH]; [done|].
  rewrite flatten_cons, cases_cons, !forallb_app.
  intros [Hg Hraw]%andb_true_iff. rewrite IH by done. rewrite andb_true_r.
  clear IH Hraw. induction group as [|case group IHg]; [done|].
  cbn [forallb fmap list_fmap] in *. apply andb_true_iff in Hg as [Hc Hg].
  by rewrite tagged_votes, Hc, IHg.
Qed.

Lemma flatten_queries (raw_data : list (string * list pydict)) :
  (λ case, dict_get case "test_case") <$> HarmBench.flatten raw_data
  = (λ case, dict_get case "test_case") <$> mjoin raw_data.*2.
Proof.
  induction raw_data as [|[key group] raw IH]; [done|].
  rewrite flatten_cons, cases_cons, !fmap_app. f_equal; [|done].
  rewrite <- list_fmap_compose. apply list_fmap_ext. intros _ case _.
  apply tagged_query.
Qed.

Lemma flatten_length (raw_data : list (string * list pydict)) :
  length (HarmBench.flatten raw_data) = length (mjoin raw_data.*2).
Proof.
  rewrite <- (length_fmap (λ case, dict_get case "test_case")), flatten_queries.
  apply length_fmap.
Qed.

End HarmBenchFiles.

(** The Records drawn from the files: those of the tabular file followed
    by those of the nested file, numbered by one counter that starts at 1
    and runs on across the two sub-sources.  [load] returns them, unless
    there is none: it then defers to the generic driver. *)
Lemma harmbench_load_files
    (read_csv : pyval → result DataFrame)
    (json_load : pyval → result (list (string * list pydict)))
    (load_dataset : string → pydict → result fetched) (uuid4 : Z → string)
    (self : Loader) (query_task_path response_task_path : pyval)
    (load_kwargs : pydict) (rows cases : list pydict) :
  (if truthy (py_or query_task_path (dict_get (init_kwargs self) "query_task_path"))
   then ∃ df,
     read_csv (py_or query_task_path (dict_get (init_kwargs self) "query_task_path"))
       = Ok df ∧
     "FunctionalCategory" ∈ columns df ∧
     rows = List.filter HarmBench.allow_listed (records df)
   else rows = []) →
  (if truthy (py_or response_task_path (dict_get (init_kwargs self) "response_task_path"))
   then ∃ raw_data,
     json_load (py_or response_task_path (dict_get (init_kwargs self) "response_task_path"))
       = Ok raw_data ∧
     cases = mjoin raw_data.*2
   else cases = []) →
  forallb votes_numeric cases = true →
  ∃ combined_data,
    id <$> combined_data
      = BaseDataLoader.generate_id HarmBench.cls
          <$> seqZ 1 (Z.of_nat (length rows + length cases)) ∧
    query <$> combined_data
      = (((λ row, dict_get row "Behavior") <$> rows)
         ++ ((λ case, dict_get case "test_case") <$> cases))%list ∧
    HarmBench.load read_csv json_load load_dataset uuid4 self
      query_task_path response_task_path load_kwargs
    = if bool_decide (combined_data = [])
      then BaseDataLoader.load HarmBench.cls load_dataset uuid4 self
             (dict_get_or load_kwargs "split" (PStr "train"))
             (dict_remove "split" load_kwargs)
      else Ok combined_data.
Proof.
  intros Hq Hr Hv. unfold HarmBench.load.
  set (q_path := py_or query_task_path _) in *.
  set (r_path := py_or response_task_path _) in *.
  assert (∃ from_csv,
    (if truthy q_path then HarmBench._parse_query_csv read_csv uuid4 q_path 1 else Ok [])
      = Ok from_csv ∧
    length from_csv = length rows ∧
    id <$> from_csv
      = BaseDataLoader.generate_id HarmBench.cls <$> seqZ 1 (Z.of_nat (length rows)) ∧
    query <$> from_csv = (λ row, dict_get row "Behavior") <$> rows)
    as (from_csv & -> & Hlen & Hids & Hqs).
  { destruct (truthy q_path).
    - destruct Hq as (df & Hdf & Hcol & ->).
      unfold HarmBench._parse_query_csv. rewrite Hdf. cbn [mbind result_bind].
      rewrite bool_decide_eq_true_2 by done.
      eexists. split; [reflexivity|].
      destruct (csv_items_spec uuid4 1 (List.filter HarmBench.allow_listed (records df)))
        as [-> ->].
      by rewrite length_fmap, enumerate_length.
    - subst rows. by exists []. }
  cbn [mbind result_bind]. rewrite Hlen.
  assert (∃ from_json,
    (if truthy r_path
     then HarmBench._parse_response_json json_load uuid4 r_path (Z.of_nat (length rows) + 1)
     else Ok []) = Ok from_json ∧
    id <$> from_json
      = BaseDataLoader.generate_id HarmBench.cls
          <$> seqZ (Z.of_nat (length rows) + 1) (Z.of_nat (length cases)) ∧
    query <$> from_json = (λ case, dict_get case "test_case") <$> cases)
    as (from_json & -> & Hjids & Hjqs).
  { destruct (truthy r_path).
    - destruct Hr as (raw_data & Hraw & ->).
      unfold HarmBench._parse_response_json. rewrite Hraw. cbn [mbind result_bind].
      destruct (json_items_spec uuid4 (Z.of_nat (length rows) + 1)
                  (HarmBench.flatten raw_data) (flatten_votes raw_data Hv))
        as (items & -> & Hi & Hqq).
      exists items. by rewrite Hi, Hqq, flatten_length, flatten_queries.
    - subst cases. by exists []. }
  cbn [mbind result_bind].
  exists (from_csv ++ from_json)%list.
  rewrite !fmap_app, Hids, Hjids, Hqs, Hjqs. split_and!; [|done..].
  rewrite Nat2Z.inj_add, seqZ_app, fmap_app by lia.
  do 3 f_equal. lia.
Qed.

Lemma ids_nonempty (items : list DataItem) (ids : list string) :
  id <$> items = ids → ids ≠ [] → bool_decide (items = []) = false.
Proof. intros <- Hne. apply bool_decide_eq_false_2. by intros ->. Qed.


(** A tabular file whose rows are all outside the allow-list, supplied
    alone, yields no Record; [load] then defers to the generic driver,
    where the stub [mapping] returns [None] and the first fetched row
    raises. *)
Lemma harmbench_empty_file_falls_back :
  HarmBench._parse_query_csv (λ _, Ok contextual_only_csv) (λ _, "")
    (PStr "behaviors.csv") 1 = Ok [] ∧
  HarmBench.load (λ _, Ok contextual_only_csv) (λ _, Ok [])
    (λ _ _, Ok hub_one_row) (λ _, "") harmbench_self
    (PStr "behaviors.csv") PNone [] = Raise AttributeError.
Proof. by split. Qed.

(** C6, as the code has it.  A tabular file with exactly three allow-listed
    rows and a nested file with two groups of two and three cases give
    eight Records: the ids harmbench-000001 to harmbench-000003 go to the
    tabular rows, and harmbench-000004 to harmbench-000008 to the five
    nested cases, flattened across the groups in encounter order. *)
Theorem harmbench_merge_eight
    (read_csv : pyval → result DataFrame)
    (json_load : pyval → result (list (string * list pydict)))
    (load_dataset : string → pydict → result fetched) (uuid4 : Z → string)
    (self : Loader) (query_task_path response_task_path : pyval)
    (load_kwargs : pydict) (df : DataFrame) (key1 key2 : string)
    (group1 group2 : list pydict) :
  truthy query_task_path = true →
  read_csv query_task_path = Ok df →
  "FunctionalCategory" ∈ columns df →
  length (List.filter HarmBench.allow_listed (records df)) = 3%nat →
  truthy response_task_path = true →
  json_load response_task_path = Ok [(key1, group1); (key2, group2)] →
  length group1 = 2%nat → length group2 = 3%nat →
  forallb votes_numeric (group1 ++ group2) = true →
  ∃ items,
    HarmBench.load read_csv json_load load_dataset uuid4 self
      query_task_path response_task_path load_kwargs = Ok items ∧
    length items = 8%nat ∧
    id <$> items
      = ["harmbench-000001"; "harmbench-000002"; "harmbench-000003";
         "harmbench-000004"; "harmbench-000005"; "harmbench-000006";
         "harmbench-000007"; "harmbench-000008"] ∧
    query <$> items
      = (((λ row, dict_get row "Behavior")
            <$> List.filter HarmBench.allow_listed (records df))
         ++ ((λ case, dict_get case "test_case") <$> (group1 ++ group2)))%list.
Proof.
  intros Hq Hdf Hcol Hrows Hr Hraw Hg1 Hg2 Hv.
  destruct (harmbench_load_files read_csv json_load load_dataset uuid4 self
              query_task_path response_task_path load_kwargs
              (List.filter HarmBench.allow_listed (records df)) (group1 ++ group2))
    as (items & Hids & Hqs & Hload).
  - unfold py_or. rewrite Hq, Hq. by exists df.
  - unfold py_or. rewrite Hr, Hr. exists [(key1, group1); (key2, group2)].
    split; [done|]. cbn. by rewrite app_nil_r.
  - done.
  - rewrite Hrows, length_app, Hg1, Hg2 in Hids.
    rewrite (ids_nonempty _ _ Hids) in Hload by done.
    exists items. split_and!; [done| |done|done].
    apply (f_equal length) in Hids. by rewrite !length_fmap in Hids.
Qed.

Lemma harmbench_merge_eight_witness :
  ∃ items,
    HarmBench.load (λ _, Ok three_row_csv) (λ _, Ok two_group_json)
      (λ _ _, Ok hub_one_row) (λ _, "") harmbench_self
      (PStr "behaviors.csv") (PStr "val_set.json") [] = Ok items ∧
    length items = 8%nat.
Proof.
  destruct (harmbench_merge_eight (λ _, Ok three_row_csv) (λ _, Ok two_group_json)
      (λ _ _, Ok hub_one_row) (λ _, "") harmbench_self
      (PStr "behaviors.csv") (PStr "val_set.json") [] three_row_csv "k1" "k2"
      [[("test_case", PStr "t1"); ("human_0", PInt 1); ("human_1", PInt 1)];
       [("test_case", PStr "t2")]]
      [[("test_case", PStr "t3"); ("human_0", PInt 1)];
       [("test_case", PStr "t4")];
       [("test_case", PStr "t5"); ("human_2", PInt 0)]])
    as (items & Hload & Hlen & _).
  - reflexivity.
  - reflexivity.
  - cbn. repeat first [by apply list_elem_of_here | apply list_elem_of_further].
  - reflexivity.
  - reflexivity.
  - reflexivity.
  - reflexivity.
  - reflexivity.
  - reflexivity.
  - exists items. by split.
Defined.

(** C6 as stated fails: three allow-listed rows and groups of two and three
    cases give eight Records, the last with id harmbench-000008, not five. *)
Lemma harmbench_merge_not_five :
  length (List.filter HarmBench.allow_listed (records three_row_csv)) = 3%nat ∧
  length <$> two_group_json.*2 = [2%nat; 3%nat] ∧
  ∃ items,
    HarmBench.load (λ _, Ok three_row_csv) (λ _, Ok two_group_json)
      (λ _ _, Ok hub_one_row) (λ _, "") harmbench_self
      (PStr "behaviors.csv") (PStr "val_set.json") [] = Ok items ∧
    length items = 8%nat ∧
    length items ≠ 5%nat ∧
    id <$> items !! 7%nat = Some "harmbench-000008".
Proof. split_and!; [done..|]. eexists. by split_and!. Qed.

(** * Further properties of the code *)

(** ** Dictionaries *)

Lemma dict_lookup_set_eq (k : string) (v : pyval) (d : pydict) :
  dict_lookup k (dict_set k v d) = Some v.
Proof.
  induction d as [|[k0 v0] d IH]; cbn [dict_set dict_lookup].
  - by rewrite String.eqb_refl.
  - destruct (String.eqb_spec k0 k) as [->|Hne]; cbn [dict_lookup].
    + by rewrite String.eqb_refl.
    + by destruct (String.eqb_spec k0 k).
Qed.

Lemma dict_lookup_set (k k' : string) (v : pyval) (d : pydict) :
  dict_lookup k' (dict_set k v d)
  = if String.eqb k k' then Some v else dict_lookup k' d.
Proof.
  destruct (String.eqb_spec k k') as [->|Hne].
  - apply dict_lookup_set_eq.
  - by apply dict_lookup_set_ne.
Qed.

Lemma dict_lookup_absent {V : Type} (k : string) (d : list (string * V)) :
  k ∉ d.*1 → dict_lookup k d = None.
Proof.
  induction d as [|[k0 v0] d IH]; [done|]. cbn [fmap list_fmap fst dict_lookup].
  intros Hk. apply not_elem_of_cons in Hk as [Hne Hk].
  destruct (String.eqb_spec k0 k); [congruence|by apply IH].
Qed.

Lemma dict_lookup_None_absent {V : Type} (k : string) (d : list (string * V)) :
  dict_lookup k d = None → k ∉ d.*1.
Proof.
  induction d as [|[k0 v0] d IH]; cbn [fmap list_fmap fst dict_lookup].
  - intros _. apply not_elem_of_nil.
  - destruct (String.eqb_spec k0 k) as [->|Hne]; [done|].
    intros Hk. apply not_elem_of_cons. split; [congruence|by apply IH].
Qed.

(** Merging keyword arguments: a key of [more] takes its value from [more],
    any other key keeps the value it has in [d]. *)
Lemma dict_lookup_update (k : string) (d more : pydict) :
  NoDup more.*1 →
  dict_lookup k (dict_update d more)
  = match dict_lookup k more with
    | Some v => Some v
    | None => dict_lookup k d
    end.
Proof.
  unfold dict_update. revert d.
  induction more as [|[k0 v0] more IH]; intros d Hnd; [done|].
  cbn [fmap list_fmap fst] in Hnd. apply NoDup_cons in Hnd as [Hk0 Hnd].
  cbn [fold_left fst snd dict_lookup]. rewrite (IH _ Hnd), dict_lookup_set.
  destruct (String.eqb_spec k0 k) as [->|Hne]; [|done].
  by rewrite (dict_lookup_absent k more Hk0).
Qed.

(** ** The generic driver: keyword arguments, errors, composition *)

Lemma final_kwargs_lookup (self : Loader) (split : pyval) (load_kwargs : pydict)
    (k : string) :
  NoDup load_kwargs.*1 →
  dict_lookup k (final_kwargs self split load_kwargs)
  = match dict_lookup k load_kwargs with
    | Some v => Some v
    | None => if String.eqb "split" k then Some split
              else dict_lookup k (init_kwargs self)
    end.
Proof.
  intros Hnd. unfold final_kwargs. by rewrite dict_lookup_update, dict_lookup_set.
Qed.

(** X1.  The fetch collaborator is called with the loader's path and the
    merged keyword arguments, in which a call-time option wins over the
    [split] argument, and the [split] argument over anything stored at
    construction; an error it raises is the result of [load]. *)
Theorem load_fetch_arguments (cls : LoaderClass)
    (load_dataset : string → pydict → result fetched) (uuid4 : Z → string)
    (self : Loader) (split : pyval) (load_kwargs : pydict) (k : string) :
  NoDup load_kwargs.*1 →
  dict_lookup k (final_kwargs self split load_kwargs)
  = match dict_lookup k load_kwargs with
    | Some v => Some v
    | None => if String.eqb "split" k then Some split
              else dict_lookup k (init_kwargs self)
    end ∧
  ∀ e, load_dataset (path self) (final_kwargs self split load_kwargs) = Raise e →
       BaseDataLoader.load cls load_dataset uuid4 self split load_kwargs = Raise e.
Proof.
  intros Hnd. split.
  - by apply final_kwargs_lookup.
  - intros e He. unfold BaseDataLoader.load, BaseDataLoader.fetch_rows.
    fold (final_kwargs self split load_kwargs). by rewrite He.
Qed.

Lemma load_fetch_arguments_witness :
  dict_lookup "revision" (final_kwargs sample_self (PStr "test") [("revision", PStr "main")])
  = Some (PStr "main").
Proof.
  destruct (load_fetch_arguments AegisV2.cls (λ _ _, Ok hub_one_row) (λ _, "")
              sample_self (PStr "test") [("revision", PStr "main")] "revision")
    as [Hlookup _].
  - apply NoDup_singleton.
  - exact Hlookup.
Defined.

Lemma map_rows_app (cls : LoaderClass) (uuid4 : Z → string)
    (start : Z) (rows1 rows2 : list pyval) :
  BaseDataLoader.map_rows cls uuid4 (enumerate start (rows1 ++ rows2))
  = (items1 ← BaseDataLoader.map_rows cls uuid4 (enumerate start rows1);
     items2 ← BaseDataLoader.map_rows cls uuid4
                (enumerate (start + Z.of_nat (length rows1)) rows2);
     Ok (items1 ++ items2)%list).
Proof.
  revert start. induction rows1 as [|row rows1 IH]; intros start.
  - cbn [app enumerate BaseDataLoader.map_rows length mbind result_bind].
    rewrite Z.add_0_r.
    by destruct (BaseDataLoader.map_rows cls uuid4 (enumerate start rows2)).
  - cbn [app enumerate BaseDataLoader.map_rows length].
    destruct (mapping cls (uuid4 start) row) as [[item|]|e]; cbn [mbind result_bind]; [|done..].
    rewrite IH.
    replace (start + 1 + Z.of_nat (length rows1))
      with (start + Z.of_nat (S (length rows1))) by lia.
    destruct (BaseDataLoader.map_rows cls uuid4 (enumerate (start + 1) rows1));
      cbn [mbind result_bind]; [|done].
    by destruct (BaseDataLoader.map_rows cls uuid4
                   (enumerate (start + Z.of_nat (S (length rows1))) rows2)).
Qed.

(** X2.  Loading the rows of two sources one after the other: when the
    first part loads, the whole is the first part's Records followed by
    those of the second part numbered from where the first stopped; when
    the first part raises, the whole raises the same error. *)
Theorem load_concatenation (cls : LoaderClass) (uuid4 : Z → string)
    (rows1 rows2 : list pyval) :
  (∀ items1,
     BaseDataLoader.map_rows cls uuid4 (enumerate 1 rows1) = Ok items1 →
     BaseDataLoader.map_rows cls uuid4 (enumerate 1 (rows1 ++ rows2))
     = (items2 ← BaseDataLoader.map_rows cls uuid4
                   (enumerate (Z.of_nat (length items1) + 1) rows2);
        Ok (items1 ++ items2)%list)) ∧
  (∀ e,
     BaseDataLoader.map_rows cls uuid4 (enumerate 1 rows1) = Raise e →
     BaseDataLoader.map_rows cls uuid4 (enumerate 1 (rows1 ++ rows2)) = Raise e).
Proof.
  split.
  - intros items1 H1. rewrite map_rows_app, H1. cbn [mbind result_bind].
    assert (length items1 = length rows1) as ->; [|by rewrite Z.add_comm].
    clear rows2. revert items1 H1. generalize 1. 
    induction rows1 as [|row rows1 IH]; intros start items1 H1.
    + by injection H1 as <-.
    + cbn [enumerate BaseDataLoader.map_rows] in H1.
      destruct (mapping cls (uuid4 start) row) as [[item|]|e];
        cbn [mbind result_bind] in H1; [|done..].
      destruct (BaseDataLoader.map_rows cls uuid4 (enumerate (start + 1) rows1))
        as [items|] eqn:Hrun; cbn [mbind result_bind] in H1; [|done].
      injection H1 as <-. cbn [length]. f_equal. by eapply IH.
  - intros e H1. by rewrite map_rows_app, H1.
Qed.

Lemma load_concatenation_witness :
  BaseDataLoader.map_rows AegisV2.cls (λ _, "") (enumerate 1 (two_rows ++ two_rows))
  = (items2 ← BaseDataLoader.map_rows AegisV2.cls (λ _, "") (enumerate 3 two_rows);
     Ok (default [] (match BaseDataLoader.map_rows AegisV2.cls (λ _, "")
                           (enumerate 1 two_rows) with
                     | Ok items => Some items | Raise _ => None end) ++ items2)%list).
Proof.
  destruct (load_concatenation AegisV2.cls (λ _, "") two_rows two_rows) as [Hok _].
  exact (Hok _ eq_refl).
Defined.

(** X3.  A row on which [mapping] raises, or returns [None], aborts the
    whole load: the error is the result (AttributeError for [None]), and
    the Records of the rows before it are not returned. *)
Theorem load_aborts_at_bad_row (cls : LoaderClass)
    (load_dataset : string → pydict → result fetched) (uuid4 : Z → string)
    (self : Loader) (split : pyval) (load_kwargs : pydict)
    (before after : list pyval) (row : pyval) (e : exn) :
  BaseDataLoader.fetch_rows load_dataset self split load_kwargs
    = Ok (before ++ row :: after)%list →
  (∀ uid r, r ∈ before → ∃ item, mapping cls uid r = Ok (Some item)) →
  mapping cls (uuid4 (Z.of_nat (S (length before)))) row = Raise e ∨
  (mapping cls (uuid4 (Z.of_nat (S (length before)))) row = Ok None ∧
   e = AttributeError) →
  BaseDataLoader.load cls load_dataset uuid4 self split load_kwargs = Raise e.
Proof.
  intros Hfetch Hbefore Hrow. unfold BaseDataLoader.load. rewrite Hfetch.
  cbn [mbind result_bind]. rewrite map_rows_app.
  destruct (map_rows_spec cls uuid4 before 1 Hbefore) as (items & -> & _).
  cbn [mbind result_bind enumerate BaseDataLoader.map_rows].
  replace (1 + Z.of_nat (length before)) with (Z.of_nat (S (length before))) by lia.
  by destruct Hrow as [->|[-> ->]].
Qed.

Lemma load_aborts_at_bad_row_witness :
  BaseDataLoader.load AegisV2.cls (λ _ _, Ok (Dataset broken_rows)) (λ _, "")
    sample_self (PStr "train") [] = Raise AttributeError.
Proof.
  apply (load_aborts_at_bad_row AegisV2.cls (λ _ _, Ok (Dataset broken_rows)) (λ _, "")
           sample_self (PStr "train") []
           [PDict [("prompt", PStr "hello")]] [PDict [("prompt", PStr "bye")]]
           (PStr "oops")).
  - reflexivity.
  - intros uid r Hr. apply list_elem_of_singleton in Hr as ->. by eexists.
  - by left.
Defined.

(** *** The identifier drawn at construction never shows *)

Lemma map_rows_id_blind (cls : LoaderClass) (uuid4 uuid4' : Z → string)
    (numbered : list (Z * pyval)) :
  id_blind cls →
  BaseDataLoader.map_rows cls uuid4 numbered
  = BaseDataLoader.map_rows cls uuid4' numbered.
Proof.
  intros Hblind. induction numbered as [|[i row] rest IH]; [done|].
  cbn [BaseDataLoader.map_rows]. specialize (Hblind (uuid4 i) (uuid4' i) row).
  destruct (mapping cls (uuid4 i) row) as [[a|]|e1],
           (mapping cls (uuid4' i) row) as [[b|]|e2];
    cbn [mbind result_bind]; try done; [|congruence].
  by rewrite IH, Hblind.
Qed.

Lemma aegis_v1_id_blind : id_blind AegisV1.cls.
Proof.
  intros uid1 uid2 [| | | | |row]; try done.
  cbn [mapping AegisV1.cls]. unfold AegisV1.mapping. cbn [as_dict mbind result_bind].
  by destruct (AegisV1._get_majority_label row).
Qed.

Lemma aegis_v2_id_blind : id_blind AegisV2.cls.
Proof. by intros uid1 uid2 [| | | | |row]. Qed.

Lemma beavertails_id_blind : id_blind BeaverTails.cls.
Proof.
  intros uid1 uid2 [| | | | |row]; try done.
  cbn [mapping BeaverTails.cls]. unfold BeaverTails.mapping.
  cbn [as_dict mbind result_bind].
  by destruct (BeaverTails._extract_categories _).
Qed.

Lemma bingoguard_id_blind : id_blind BingoGuard.cls.
Proof.
  intros uid1 uid2 [| | | | |row]; try done.
  cbn [mapping BingoGuard.cls]. unfold BingoGuard.mapping.
  cbn [as_dict mbind result_bind].
  destruct (BingoGuard._parse_safety _) as [[harmful cat]|]; [|done].
  cbn [mbind result_bind].
  by destruct (BingoGuard._extract_severity _).
Qed.

Lemma harmbench_id_blind : id_blind HarmBench.cls.
Proof. by intros uid1 uid2 row. Qed.

Lemma json_items_id_blind (uuid4 uuid4' : Z → string) (numbered : list (Z * pydict)) :
  HarmBench.json_items uuid4 numbered = HarmBench.json_items uuid4' numbered.
Proof.
  induction numbered as [|[i case] rest IH]; [done|].
  cbn [HarmBench.json_items]. rewrite IH. unfold HarmBench.json_item.
  by destruct (py_sum _).
Qed.

(** X4.  The random identifier that [DataItem] draws by default never
    reaches the result of [load]: for the five loader classes, and for
    harmbench's own [load] over its files, two runs that differ only in the
    identifiers drawn return the same Records or the same error. *)
Theorem load_ignores_drawn_ids (uuid4 uuid4' : Z → string)
    (load_dataset : string → pydict → result fetched)
    (read_csv : pyval → result DataFrame)
    (json_load : pyval → result (list (string * list pydict)))
    (self : Loader) (split : pyval) (load_kwargs : pydict)
    (query_task_path response_task_path : pyval) :
  (∀ cls, cls ∈ [AegisV1.cls; AegisV2.cls; BeaverTails.cls; BingoGuard.cls;
                 HarmBench.cls] →
     BaseDataLoader.load cls load_dataset uuid4 self split load_kwargs
     = BaseDataLoader.load cls load_dataset uuid4' self split load_kwargs) ∧
  HarmBench.load read_csv json_load load_dataset uuid4 self
    query_task_path response_task_path load_kwargs
  = HarmBench.load read_csv json_load load_dataset uuid4' self
      query_task_path response_task_path load_kwargs.
Proof.
  assert (∀ cls sp kw, id_blind cls →
            BaseDataLoader.load cls load_dataset uuid4 self sp kw
            = BaseDataLoader.load cls load_dataset uuid4' self sp kw) as Hload.
  { intros cls sp kw Hblind. unfold BaseDataLoader.load.
    destruct (BaseDataLoader.fetch_rows load_dataset self sp kw); [|done].
    cbn [mbind result_bind]. by apply map_rows_id_blind. }
  split.
  - intros cls Hcls. apply Hload.
    repeat (apply elem_of_cons in Hcls as [->|Hcls]);
      [apply aegis_v1_id_blind | apply aegis_v2_id_blind | apply beavertails_id_blind
      | apply bingoguard_id_blind | apply harmbench_id_blind
      | by apply elem_of_nil in Hcls].
  - unfold HarmBench.load.
    assert (∀ p start, HarmBench._parse_query_csv read_csv uuid4 p start
                       = HarmBench._parse_query_csv read_csv uuid4' p start) as Hcsv.
    { intros p start. unfold HarmBench._parse_query_csv.
      destruct (read_csv p) as [df|]; [|done]. cbn [mbind result_bind].
      case_bool_decide; [|done]. apply (f_equal Ok), list_fmap_ext.
      by intros _ [i row] _. }
    assert (∀ p start, HarmBench._parse_response_json json_load uuid4 p start
                       = HarmBench._parse_response_json json_load uuid4' p start) as Hjson.
    { intros p start. unfold HarmBench._parse_response_json.
      destruct (json_load p); [|done]. cbn [mbind result_bind].
      apply json_items_id_blind. }
    rewrite Hcsv. destruct (if truthy _ then _ else _) as [from_csv|]; [|done].
    cbn [mbind result_bind]. rewrite Hjson.
    destruct (if truthy _ then _ else _) as [from_json|]; [|done].
    cbn [mbind result_bind]. case_bool_decide; [|done].
    apply Hload, harmbench_id_blind.
Qed.

(** *** The split given to the constructor *)

Lemma dict_update_cons_split (s : pyval) (d more : pydict) :
  dict_lookup "split" more = None →
  dict_update (("split", s) :: d) more = ("split", s) :: dict_update d more.
Proof.
  unfold dict_update. revert d.
  induction more as [|[k v] more IH]; intros d; [done|].
  cbn [dict_lookup fold_left fst snd dict_set].
  rewrite (String.eqb_sym "split" k).
  destruct (String.eqb_spec k "split"); [done|]. apply IH.
Qed.

Lemma dict_lookup_remove_ne (k k' : string) (d : pydict) :
  dict_lookup k' d = None → dict_lookup k' (dict_remove k d) = None.
Proof.
  induction d as [|[k0 v0] d IH]; [done|]. cbn [dict_lookup dict_remove].
  destruct (String.eqb_spec k0 k'); [done|]. intros Hd.
  destruct (String.eqb k0 k); [by apply IH|].
  cbn [dict_lookup]. destruct (String.eqb_spec k0 k'); [done|by apply IH].
Qed.

(** Both constructors store the split first, and nothing else of what they
    store depends on it. *)
Lemma init_stores_split_first
    (init : option string → option string → pyval → pydict → result Loader)
    (DEFAULT_HF_PATH path_arg : option string) (s : pyval) (kwargs : pydict)
    (self : Loader) :
  init = BaseDataLoader_init ∨ init = HarmBench_init →
  dict_lookup "split" kwargs = None →
  init DEFAULT_HF_PATH path_arg s kwargs = Ok self →
  ∃ p rest,
    self = {| path := p; init_kwargs := ("split", s) :: rest |} ∧
    ∀ s', init DEFAULT_HF_PATH path_arg s' kwargs
          = Ok {| path := p; init_kwargs := ("split", s') :: rest |}.
Proof.
  intros [->| ->] Hsplit.
  - unfold BaseDataLoader_init. destruct (str_or path_arg DEFAULT_HF_PATH) as [p|]; [|done].
    destruct (String.eqb p ""); [done|]. intros [= <-].
    eexists p, _. rewrite dict_update_cons_split by done. split; [done|].
    intros s'. by rewrite dict_update_cons_split.
  - unfold HarmBench_init, BaseDataLoader_init.
    destruct (str_or path_arg DEFAULT_HF_PATH) as [p|]; [|done].
    destruct (String.eqb p ""); [done|]. cbn [mbind result_bind path init_kwargs].
    intros [= <-]. eexists p, _.
    rewrite dict_update_cons_split by (by do 2 apply dict_lookup_remove_ne).
    cbn [dict_set String.eqb Ascii.eqb Bool.eqb]. split; [done|].
    intros s'.
    rewrite dict_update_cons_split by (by do 2 apply dict_lookup_remove_ne).
    done.
Qed.

(** X5.  The split given to the constructor has no effect on what is
    loaded: [load] overwrites it with its own [split] argument (train by
    default) before fetching, and harmbench's [load] reads only the file
    paths from what the constructor stored. *)
Theorem constructor_split_unused
    (init : option string → option string → pyval → pydict → result Loader)
    (DEFAULT_HF_PATH path_arg : option string) (split1 split2 : pyval)
    (kwargs : pydict) (self1 self2 : Loader)
    (cls : LoaderClass) (load_dataset : string → pydict → result fetched)
    (read_csv : pyval → result DataFrame)
    (json_load : pyval → result (list (string * list pydict)))
    (uuid4 : Z → string) (split : pyval) (load_kwargs : pydict)
    (query_task_path response_task_path : pyval) :
  init = BaseDataLoader_init ∨ init = HarmBench_init →
  dict_lookup "split" kwargs = None →
  init DEFAULT_HF_PATH path_arg split1 kwargs = Ok self1 →
  init DEFAULT_HF_PATH path_arg split2 kwargs = Ok self2 →
  BaseDataLoader.load cls load_dataset uuid4 self1 split load_kwargs
  = BaseDataLoader.load cls load_dataset uuid4 self2 split load_kwargs ∧
  HarmBench.load read_csv json_load load_dataset uuid4 self1
    query_task_path response_task_path load_kwargs
  = HarmBench.load read_csv json_load load_dataset uuid4 self2
      query_task_path response_task_path load_kwargs.
Proof.
  intros Hinit Hsplit H1 H2.
  destruct (init_stores_split_first init _ _ _ _ _ Hinit Hsplit H1)
    as (p & rest & -> & Hany).
  rewrite Hany in H2. injection H2 as <-.
  assert (∀ sp kw,
            BaseDataLoader.load cls load_dataset uuid4
              {| path := p; init_kwargs := ("split", split1) :: rest |} sp kw
            = BaseDataLoader.load cls load_dataset uuid4
                {| path := p; init_kwargs := ("split", split2) :: rest |} sp kw) as Hbase.
  { done. }
  split; [apply Hbase|].
  unfold HarmBench.load. cbn [init_kwargs]. unfold dict_get, dict_get_or.
  cbn [dict_lookup String.eqb Ascii.eqb Bool.eqb].
  destruct (if truthy _ then _ else _) as [from_csv|]; [|done].
  cbn [mbind result_bind].
  destruct (if truthy _ then _ else _) as [from_json|]; [|done].
  cbn [mbind result_bind]. by case_bool_decide.
Qed.

Lemma constructor_split_unused_witness :
  BaseDataLoader.load AegisV2.cls (λ _ _, Ok (Dataset two_rows)) (λ _, "")
    {| path := "datasets/aegis-v2"; init_kwargs := [("split", PStr "test")] |}
    (PStr "train") []
  = BaseDataLoader.load AegisV2.cls (λ _ _, Ok (Dataset two_rows)) (λ _, "")
      sample_self (PStr "train") [].
Proof.
  apply (constructor_split_unused BaseDataLoader_init None (Some "datasets/aegis-v2")
           (PStr "test") (PStr "train") []
           {| path := "datasets/aegis-v2"; init_kwargs := [("split", PStr "test")] |}
           sample_self AegisV2.cls (λ _ _, Ok (Dataset two_rows))
           (λ _, Ok three_row_csv) (λ _, Ok two_group_json) (λ _, "")
           (PStr "train") [] PNone PNone); [by left|reflexivity..].
Defined.

(** X6.  When the fetch collaborator returns a dictionary of splits that
    holds the requested split, [load] maps that split's rows and no
    other, exactly as if the collaborator had returned them directly. *)
Theorem load_picks_requested_split (cls : LoaderClass)
    (load_dataset : string → pydict → result fetched) (uuid4 : Z → string)
    (self : Loader) (split : string) (load_kwargs : pydict)
    (splits : list (string * list pyval)) (rows : list pyval) :
  NoDup load_kwargs.*1 →
  dict_lookup "split" load_kwargs = None →
  load_dataset (path self) (final_kwargs self (PStr split) load_kwargs)
    = Ok (DatasetDict splits) →
  dict_lookup split splits = Some rows →
  BaseDataLoader.load cls load_dataset uuid4 self (PStr split) load_kwargs
  = BaseDataLoader.load cls (λ _ _, Ok (Dataset rows)) uuid4 self (PStr split) load_kwargs.
Proof.
  intros Hnd Hsplit Hfetch Hrows.
  unfold BaseDataLoader.load, BaseDataLoader.fetch_rows.
  fold (final_kwargs self (PStr split) load_kwargs). rewrite Hfetch.
  cbn [mbind result_bind]. unfold dict_get_or.
  rewrite (final_kwargs_lookup self (PStr split) load_kwargs "split" Hnd).
  rewrite Hsplit.
  cbn [String.eqb Ascii.eqb Bool.eqb default from_option Datatypes.id hashable].
  by rewrite Hrows.
Qed.

Lemma load_picks_requested_split_witness :
  BaseDataLoader.load AegisV2.cls (λ _ _, Ok (DatasetDict sample_splits))
    (λ _, "u") sample_self (PStr "test") []
  = BaseDataLoader.load AegisV2.cls (λ _ _, Ok (Dataset broken_rows))
      (λ _, "u") sample_self (PStr "test") [].
Proof.
  apply (load_picks_requested_split AegisV2.cls _ _ sample_self "test" []
           sample_splits broken_rows).
  - apply NoDup_nil_2.
  - reflexivity.
  - reflexivity.
  - reflexivity.
Defined.


(** ** The registry and the constructors *)

Lemma register_lookup_class (name : string) (cid : nat)
    (st : DataLoaderRegistry.state) (c : ClassObj) :
  DataLoaderRegistry.classes st !! cid = Some c →
  DataLoaderRegistry.classes (DataLoaderRegistry.register name cid st) !! cid
  = Some (DataLoaderRegistry.registered_as name c).
Proof.
  intros Hc. cbn [DataLoaderRegistry.register DataLoaderRegistry.classes].
  by rewrite list_lookup_alter_eq, Hc.
Qed.

(** X7.  [get_loader] builds an instance of the class registered last
    under the name, whatever was registered under that name before; the
    class then carries the name as REGISTER_NAME and, when the table of
    source identifiers has the name, that identifier as default path. *)
Theorem get_loader_last_registration (name : string) (cid : nat)
    (st : DataLoaderRegistry.state) (c : ClassObj)
    (path_arg : option string) (split : pyval) (kwargs : pydict) :
  DataLoaderRegistry.classes st !! cid = Some c →
  DataLoaderRegistry.get_loader name path_arg split kwargs
    (DataLoaderRegistry.register name cid st)
  = (self ← cls_init c
              (match dict_lookup name CONST_HF_DATASET_IDS with
               | Some p => Some p
               | None => cls_DEFAULT_HF_PATH c
               end) path_arg split kwargs;
     Ok (cid, self)) ∧
  cls_REGISTER_NAME <$>
    DataLoaderRegistry.classes (DataLoaderRegistry.register name cid st) !! cid
  = Some name.
Proof.
  intros Hc. pose proof (register_lookup_class name cid st c Hc) as Hreg.
  split; [|by rewrite Hreg].
  unfold DataLoaderRegistry.get_loader.
  replace (DataLoaderRegistry._registry (DataLoaderRegistry.register name cid st) !! name)
    with (Some cid) by (symmetry; apply lookup_insert_eq).
  by rewrite Hreg.
Qed.

Lemma get_loader_last_registration_witness :
  ∃ self,
    DataLoaderRegistry.get_loader "my-aegis" None (PStr "train") []
      (DataLoaderRegistry.register "my-aegis" 0%nat DataLoaderRegistry.imported)
    = Ok (0%nat, self) ∧
    path self = "nvidia/Aegis-AI-Content-Safety-Dataset-1.0".
Proof.
  edestruct (get_loader_last_registration "my-aegis" 0%nat
               DataLoaderRegistry.imported) as [Hget _]; [reflexivity|].
  rewrite Hget. eexists. split; reflexivity.
Defined.

(** X8.  Registering a name leaves the loaders of the other names as they
    were, provided their class is not the one being registered. *)
Theorem register_keeps_other_names (name other : string) (cid cid' : nat)
    (st : DataLoaderRegistry.state)
    (path_arg : option string) (split : pyval) (kwargs : pydict) :
  other ≠ name →
  DataLoaderRegistry._registry st !! other = Some cid' →
  cid' ≠ cid →
  DataLoaderRegistry.get_loader other path_arg split kwargs
    (DataLoaderRegistry.register name cid st)
  = DataLoaderRegistry.get_loader other path_arg split kwargs st.
Proof.
  intros Hname Hother Hcid. unfold DataLoaderRegistry.get_loader.
  cbn [DataLoaderRegistry.register DataLoaderRegistry._registry
       DataLoaderRegistry.classes].
  rewrite lookup_insert_ne by done. rewrite Hother.
  by rewrite list_lookup_alter_ne.
Qed.

Lemma register_keeps_other_names_witness :
  DataLoaderRegistry.get_loader "aegis-v1" None (PStr "train") []
    (DataLoaderRegistry.register "my-bingoguard" 3%nat DataLoaderRegistry.imported)
  = DataLoaderRegistry.get_loader "aegis-v1" None (PStr "train") []
      DataLoaderRegistry.imported.
Proof.
  apply (register_keeps_other_names "my-bingoguard" "aegis-v1" 3%nat 0%nat).
  - discriminate.
  - reflexivity.
  - discriminate.
Defined.

(** X9.  A class registered under two names is one object: both names
    build instances of it, its REGISTER_NAME is the second name, so that
    ids generated for a loader obtained under the first name carry the
    second, and a second name unknown to the table keeps the default path
    injected for the first. *)
Theorem register_twice_shares_class (name1 name2 : string) (cid : nat)
    (st : DataLoaderRegistry.state) (c : ClassObj) (idx : Z) :
  DataLoaderRegistry.classes st !! cid = Some c →
  name1 ≠ name2 →
  ∃ c',
    DataLoaderRegistry.classes
      (DataLoaderRegistry.register name2 cid
         (DataLoaderRegistry.register name1 cid st)) !! cid = Some c' ∧
    DataLoaderRegistry._registry
      (DataLoaderRegistry.register name2 cid
         (DataLoaderRegistry.register name1 cid st)) !! name1 = Some cid ∧
    DataLoaderRegistry._registry
      (DataLoaderRegistry.register name2 cid
         (DataLoaderRegistry.register name1 cid st)) !! name2 = Some cid ∧
    BaseDataLoader.generate_id (loader_class c') idx
      = name2 +:+ "-" +:+ Str.format_06d idx ∧
    (dict_lookup name2 CONST_HF_DATASET_IDS = None →
     cls_DEFAULT_HF_PATH c'
     = match dict_lookup name1 CONST_HF_DATASET_IDS with
       | Some p => Some p
       | None => cls_DEFAULT_HF_PATH c
       end).
Proof.
  intros Hc Hne.
  pose proof (register_lookup_class name1 cid st c Hc) as H1.
  pose proof (register_lookup_class name2 cid _ _ H1) as H2.
  eexists. split; [exact H2|].
  cbn [DataLoaderRegistry.register DataLoaderRegistry._registry].
  rewrite lookup_insert_ne, !lookup_insert_eq by done.
  split_and!; [done..|]. intros Hnone.
  cbn [cls_DEFAULT_HF_PATH DataLoaderRegistry.registered_as]. by rewrite Hnone.
Qed.

Lemma register_twice_shares_class_witness :
  ∃ c',
    DataLoaderRegistry.classes
      (DataLoaderRegistry.register "aegis-copy" 0%nat
         (DataLoaderRegistry.register "aegis-v1" 0%nat
            DataLoaderRegistry.imported)) !! 0%nat = Some c' ∧
    BaseDataLoader.generate_id (loader_class c') 7 = "aegis-copy-000007" ∧
    cls_DEFAULT_HF_PATH c' = Some "nvidia/Aegis-AI-Content-Safety-Dataset-1.0".
Proof.
  edestruct register_twice_shares_class
    with (name1 := "aegis-v1") (name2 := "aegis-copy") (cid := 0%nat)
         (st := DataLoaderRegistry.imported) (idx := 7)
    as (c' & Hc' & _ & _ & Hid & Hpath); [reflexivity|discriminate|].
  exists c'. split; [exact Hc'|]. split; [exact Hid|].
  rewrite Hpath; reflexivity.
Defined.

(** ** Majority vote (aegis.py) *)

Lemma occurrences_snoc (s x : string) (l : list string) :
  occurrences s (l ++ [x])%list = (occurrences s l + (if String.eqb s x then 1 else 0))%nat.
Proof.
  unfold occurrences. rewrite List.filter_app, length_app. cbn [List.filter].
  by destruct (String.eqb s x).
Qed.

Lemma first_seen_snoc (l : list string) (x : string) :
  first_seen (l ++ [x])%list
  = if decide (x ∈ first_seen l) then first_seen l else (first_seen l ++ [x])%list.
Proof. unfold first_seen. by rewrite fold_left_app. Qed.

Lemma first_seen_elem (l : list string) (s : string) : s ∈ first_seen l ↔ s ∈ l.
Proof.
  induction l as [|x l IH] using rev_ind; [done|].
  rewrite first_seen_snoc. destruct (decide (x ∈ first_seen l)) as [Hx|Hx].
  - rewrite IH, elem_of_app, list_elem_of_singleton. split; [by left|].
    intros [?| ->]; [done|by apply IH].
  - by rewrite !elem_of_app, IH.
Qed.

Lemma first_seen_NoDup (l : list string) : NoDup (first_seen l).
Proof.
  induction l as [|x l IH] using rev_ind; [constructor|].
  rewrite first_seen_snoc. destruct (decide (x ∈ first_seen l)) as [Hx|Hx]; [done|].
  apply NoDup_app. split_and!; [done| |apply NoDup_singleton].
  intros s Hs ->%list_elem_of_singleton. done.
Qed.

Lemma occurrences_absent (s : string) (l : list string) : s ∉ l → occurrences s l = 0%nat.
Proof.
  unfold occurrences. induction l as [|x l IH]; [done|].
  intros [Hne Hl]%not_elem_of_cons. cbn [List.filter].
  destruct (String.eqb_spec s x); [done|by apply IH].
Qed.

(** Counting one more label: the entry of a label already seen is
    incremented in place, a new label is entered last with count 1. *)
Lemma counter_add_tally (x : string) (keys : list string) (f : string → nat) :
  NoDup keys →
  AegisV1.counter_add (PStr x) ((λ s, (PStr s, f s)) <$> keys)
  = if decide (x ∈ keys)
    then (λ s, (PStr s, (f s + (if String.eqb s x then 1 else 0))%nat)) <$> keys
    else (((λ s, (PStr s, f s)) <$> keys) ++ [(PStr x, 1%nat)])%list.
Proof.
  induction keys as [|k keys IH]; intros Hnd.
  - by rewrite decide_False by apply not_elem_of_nil.
  - apply NoDup_cons in Hnd as [Hk Hnd].
    cbn [fmap list_fmap AegisV1.counter_add py_eq].
    destruct (String.eqb_spec k x) as [->|Hne].
    + rewrite decide_True by left. cbn [fmap list_fmap].
      rewrite Nat.add_1_r. f_equal. apply list_fmap_ext. intros i s Hs.
      destruct (String.eqb_spec s x) as [->|]; [|by rewrite Nat.add_0_r].
      by apply list_elem_of_lookup_2 in Hs.
    + rewrite (IH Hnd). destruct (decide (x ∈ keys)) as [Hx|Hx].
      * rewrite decide_True by (by right). cbn [fmap list_fmap].
        destruct (String.eqb_spec k x); [done|]. by rewrite Nat.add_0_r.
      * rewrite decide_False; [done|].
        intros [?|?]%elem_of_cons; congruence.
Qed.

(** The counter after all labels: one entry per distinct label, in order of
    first occurrence, with its number of occurrences. *)
Lemma tally_spec (l : list string) :
  fold_left (λ c k, AegisV1.counter_add k c) (PStr <$> l) []
  = (λ s, (PStr s, occurrences s l)) <$> first_seen l.
Proof.
  induction l as [|x l IH] using rev_ind; [done|].
  rewrite fmap_app, fold_left_app, IH. cbn [fmap list_fmap fold_left].
  rewrite counter_add_tally by apply first_seen_NoDup.
  rewrite first_seen_snoc. destruct (decide (x ∈ first_seen l)) as [Hx|Hx].
  - apply list_fmap_ext. intros _ s _. by rewrite occurrences_snoc.
  - rewrite fmap_app. cbn [fmap list_fmap]. f_equal.
    + apply list_fmap_ext. intros i s Hs%list_elem_of_lookup_2.
      rewrite occurrences_snoc.
      destruct (String.eqb_spec s x) as [->|]; [done|by rewrite Nat.add_0_r].
    + rewrite occurrences_snoc, String.eqb_refl.
      rewrite occurrences_absent; [done|]. by rewrite <- first_seen_elem.
Qed.

(** [max] keeps the first of the entries with the largest count. *)
Lemma first_max_spec (best : pyval * nat) (c : list (pyval * nat)) :
  ∃ pre post,
    (best :: c = pre ++ AegisV1.first_max best c :: post)%list ∧
    Forall (λ kv, (snd kv < snd (AegisV1.first_max best c))%nat) pre ∧
    Forall (λ kv, (snd kv ≤ snd (AegisV1.first_max best c))%nat) post.
Proof.
  revert best. induction c as [|kv c IH]; intros best.
  - exists [], []. by split_and!.
  - cbn [AegisV1.first_max].
    destruct (Nat.ltb_spec (snd best) (snd kv)) as [Hlt|Hge].
    + destruct (IH kv) as (pre & post & Heq & Hpre & Hpost).
      exists (best :: pre), post. split_and!; [by rewrite Heq| |done].
      constructor; [|done]. cbn beta.
      assert (snd kv ≤ snd (AegisV1.first_max kv c))%nat; [|lia].
      destruct pre as [|p pre].
      * by injection Heq as <- _.
      * injection Heq as <- _. apply Forall_cons in Hpre as [Hp _]. lia.
    + destruct (IH best) as (pre & post & Heq & Hpre & Hpost).
      destruct pre as [|p pre].
      * injection Heq as Hbest Hc. exists [], (kv :: post).
        split_and!; [by rewrite <- Hbest, Hc|done|].
        constructor; [|done]. cbn beta. rewrite <- Hbest. lia.
      * injection Heq as <- Hc. exists (best :: kv :: pre), post.
        apply Forall_cons in Hpre as [Hp Hpre].
        split_and!; [cbn [app]; by rewrite <- Hc| |done].
        constructor; [done|]. constructor; [cbn beta; lia|done].
Qed.

(** What precedes a label in the list precedes it among the distinct
    labels. *)
Lemma first_seen_split (l pre post : list string) (m : string) :
  first_seen l = (pre ++ m :: post)%list →
  ∃ l1 l2, l = (l1 ++ m :: l2)%list ∧ (m ∉ l1) ∧ ∀ s, s ∈ l1 → s ∈ pre.
Proof.
  revert post. induction l as [|x l IH] using rev_ind; intros post Hfs.
  - by destruct pre.
  - rewrite first_seen_snoc in Hfs. destruct (decide (x ∈ first_seen l)) as [Hx|Hx].
    + destruct (IH post Hfs) as (l1 & l2 & -> & Hm & Hpre).
      exists l1, (l2 ++ [x])%list. by rewrite <- app_assoc.
    + destruct post as [|y post _] using rev_ind.
      * apply app_inj_tail in Hfs as [Hfs ->].
        exists l, []. split_and!; [done| |].
        -- by rewrite <- first_seen_elem.
        -- intros s Hs. rewrite <- Hfs. by apply first_seen_elem.
      * rewrite app_comm_cons, app_assoc in Hfs.
        apply app_inj_tail in Hfs as [Hfs ->].
        destruct (IH post Hfs) as (l1 & l2 & -> & Hm & Hpre).
        exists l1, (l2 ++ [y])%list. by rewrite <- app_assoc.
Qed.

Lemma majority_of_labels (labels : list string) :
  labels ≠ [] →
  ∃ m before after top,
    (AegisV1.Counter (PStr <$> labels) ≫= AegisV1.most_common_1) = Ok (PStr m, top) ∧
    labels = (before ++ m :: after)%list ∧ (m ∉ before) ∧
    (∀ s, occurrences s labels ≤ occurrences m labels)%nat ∧
    (∀ s, s ∈ before → occurrences s labels < occurrences m labels)%nat.
Proof.
  intros Hne. unfold AegisV1.Counter.
  assert (forallb hashable (PStr <$> labels) = true) as ->.
  { apply forallb_forall. intros v Hv%list_elem_of_In.
    by apply list_elem_of_fmap in Hv as (s & -> & _). }
  cbn [mbind result_bind]. rewrite tally_spec.
  destruct (first_seen labels) as [|k keys] eqn:Hkeys.
  { destruct labels as [|x labels]; [done|].
    assert (x ∈ first_seen (x :: labels)) as Hx by (apply first_seen_elem; left).
    rewrite Hkeys in Hx. by apply elem_of_nil in Hx. }
  cbn [fmap list_fmap AegisV1.most_common_1].
  destruct (first_max_spec (PStr k, occurrences k labels)
              ((λ s, (PStr s, occurrences s labels)) <$> keys))
    as (pre & post & Heq & Hpre & Hpost).
  set (r := AegisV1.first_max _ _) in *.
  change ((PStr k, occurrences k labels)
          :: ((λ s, (PStr s, occurrences s labels)) <$> keys))
    with ((λ s, (PStr s, occurrences s labels)) <$> (k :: keys)) in Heq.
  apply fmap_app_inv in Heq as (pre' & rest & -> & Hrest & Hsplit).
  symmetry in Hrest. apply fmap_cons_inv in Hrest as (m & post' & Hr & -> & ->).
  rewrite <- Hkeys in Hsplit.
  destruct (first_seen_split labels pre' post' m Hsplit) as (before & after & Hl & Hm & Hbefore).
  exists m, before, after, (occurrences m labels). rewrite Hr in *. cbn [snd] in *.
  rewrite Forall_fmap in Hpre, Hpost.
  rewrite Forall_forall in Hpre, Hpost.
  split_and!; [done..| |].
  - intros s. destruct (decide (s ∈ labels)) as [Hs|Hs];
      [|rewrite (occurrences_absent s labels Hs); lia].
    apply first_seen_elem in Hs. rewrite Hsplit in Hs.
    apply elem_of_app in Hs as [Hs|[->|Hs]%elem_of_cons].
    + specialize (Hpre s Hs). cbn in Hpre. lia.
    + done.
    + by apply (Hpost s).
  - intros s Hs. by apply (Hpre s), Hbefore.
Qed.

(** X10.  The category of an aegis-v1 Record is the most frequent valid
    label, and among equally frequent labels the one met first: every
    label occurs at most as often as the category, and every label met
    before its first occurrence occurs strictly less often. *)
Theorem majority_first_most_frequent (uid : string) (row : pydict)
    (labels : list string) :
  AegisV1.valid_labels row = PStr <$> labels →
  labels ≠ [] →
  ∃ m before after item,
    AegisV1.mapping uid (PDict row) = Ok (Some item) ∧
    category item = PStr m ∧
    labels = (before ++ m :: after)%list ∧ (m ∉ before) ∧
    (∀ s, occurrences s labels ≤ occurrences m labels)%nat ∧
    (∀ s, s ∈ before → occurrences s labels < occurrences m labels)%nat.
Proof.
  intros Hvalid Hne.
  destruct (majority_of_labels labels Hne)
    as (m & before & after & top & Hmaj & Hl & Hm & Hmax & Hfirst).
  exists m, before, after. unfold AegisV1.mapping.
  cbn [as_dict mbind result_bind]. unfold AegisV1._get_majority_label.
  rewrite Hvalid. rewrite bool_decide_eq_false_2 by (by destruct labels).
  destruct (AegisV1.Counter (PStr <$> labels)) as [counts|]; [|done].
  cbn [mbind result_bind] in *. rewrite Hmaj. cbn [mbind result_bind fst].
  eexists. by split_and!.
Qed.

Lemma majority_first_most_frequent_witness :
  ∃ m before after item,
    AegisV1.mapping "" (PDict tie_row) = Ok (Some item) ∧
    category item = PStr m ∧
    ["B"; "A"; "A"; "B"] = (before ++ m :: after)%list ∧ (m ∉ before) ∧
    (∀ s, occurrences s ["B"; "A"; "A"; "B"] ≤ occurrences m ["B"; "A"; "A"; "B"])%nat ∧
    (∀ s, s ∈ before →
       occurrences s ["B"; "A"; "A"; "B"] < occurrences m ["B"; "A"; "A"; "B"])%nat.
Proof.
  apply (majority_first_most_frequent "" tie_row ["B"; "A"; "A"; "B"]);
    [reflexivity|discriminate].
Defined.

(** ** Row mappings: edge cases *)

(** X11.  The aegis-v2 mapping never fails on a row that is a mapping, and
    raises AttributeError on anything else.  Its two harm labels are
    booleans, true exactly when the label field holds the text unsafe
    (in that letter case); the category is the field violated_categories
    as it is, the empty text when the field is absent. *)
Theorem aegis_v2_mapping_total (uid : string) (raw : pyval) :
  match raw with
  | PDict row =>
      ∃ item q r, AegisV2.mapping uid raw = Ok (Some item) ∧
        query_harmful_label item = Some q ∧
        (q = true ↔ dict_lookup "prompt_label" row = Some (PStr "unsafe")) ∧
        response_harmful_label item = Some r ∧
        (r = true ↔ dict_lookup "response_label" row = Some (PStr "unsafe")) ∧
        category item = default (PStr "") (dict_lookup "violated_categories" row) ∧
        query item = dict_get row "prompt" ∧
        response item = dict_get row "response"
  | _ => AegisV2.mapping uid raw = Raise AttributeError
  end.
Proof.
  destruct raw as [| | | | |row]; try done.
  eexists _, _, _. split; [reflexivity|].
  cbn [query_harmful_label response_harmful_label category query response].
  split_and!; try done; by rewrite py_eq_str, dict_get_is_str.
Qed.

Lemma join_cons (sep p q : string) (ps : list string) :
  Str.join sep (p :: q :: ps) = p +:+ sep +:+ Str.join sep (q :: ps).
Proof. done. Qed.

(** Splitting undoes joining, for pieces without the separator. *)
Lemma split_join (parts : list string) :
  parts ≠ [] →
  (∀ p, p ∈ parts → Str.contains ";" p = false) →
  Str.split ";" (Str.join ";" parts) = parts.
Proof.
  induction parts as [|p parts IH]; [done|]. intros _ Hparts.
  destruct parts as [|q parts].
  - apply split_no_sep, Hparts. left.
  - rewrite join_cons. change (";" +:+ Str.join ";" (q :: parts))
      with (String ";" (Str.join ";" (q :: parts))).
    rewrite split_app_sep, IH; [|done|].
    + rewrite split_no_sep; [done|]. apply Hparts. left.
    + intros p' Hp'. apply Hparts. by right.
Qed.

(** X12.  The category text of a beavertails Record can be taken apart
    again: when no flag name contains a semicolon, splitting the category
    at the semicolons gives back the names of the true flags, in
    dictionary order. *)
Theorem beavertails_category_splits (uid : string) (row flags : pydict)
    (item : DataItem) (text : string) :
  dict_get_or row "category" (PDict []) = PDict flags →
  (∀ name, name ∈ flags.*1 → Str.contains ";" name = false) →
  BeaverTails.mapping uid (PDict row) = Ok (Some item) →
  category item = PStr text →
  Str.split ";" text = (List.filter (λ kv, truthy (snd kv)) flags).*1.
Proof.
  intros Hcat Hnames. unfold BeaverTails.mapping. cbn [as_dict mbind result_bind].
  rewrite Hcat, extract_categories_dict. cbn [mbind result_bind].
  intros [= <-]. cbn [category]. rewrite string_length_0.
  destruct (String.eqb_spec (Str.join ";" (BeaverTails.violated flags)) "")
    as [|Hne]; [done|].
  intros [= <-]. apply split_join.
  - intros Hnil. unfold BeaverTails.violated in Hne. by rewrite Hnil in Hne.
  - intros p Hp. apply Hnames.
    apply list_elem_of_fmap in Hp as ([k v] & -> & Hkv).
    apply list_elem_of_In, filter_In in Hkv as [Hkv _].
    apply list_elem_of_fmap. exists (k, v). split; [done|].
    by apply list_elem_of_In.
Qed.

Lemma beavertails_category_splits_witness :
  Str.split ";" "violence;hate" = ["violence"; "hate"].
Proof.
  eapply (beavertails_category_splits "" two_flags_row
            [("violence", PBool true); ("privacy", PBool false); ("hate", PBool true)]
            _ "violence;hate").
  - reflexivity.
  - intros name Hname.
    repeat (apply elem_of_cons in Hname as [->|Hname]; [reflexivity|]).
    by apply elem_of_nil in Hname.
  - reflexivity.
  - reflexivity.
Defined.

(** X13.  In a beavertails row, a category that is a dictionary, or that
    counts as false (null, empty, zero), never fails, and gives the
    category null in the second case; any other category raises
    AttributeError.  Both harm labels are the negation of the truth value
    of is_safe, so an is_safe that is present but null, false or zero
    marks the row harmful. *)
Theorem beavertails_field_values (uid : string) (row : pydict) :
  (truthy (dict_get_or row "category" (PDict [])) = false ∨
   (∃ flags, dict_get_or row "category" (PDict []) = PDict flags) →
   ∃ item, BeaverTails.mapping uid (PDict row) = Ok (Some item) ∧
     (truthy (dict_get_or row "category" (PDict [])) = false →
      category item = PNone) ∧
     query_harmful_label item
       = Some (negb (truthy (dict_get_or row "is_safe" (PBool true)))) ∧
     response_harmful_label item = query_harmful_label item ∧
     (∀ v, dict_lookup "is_safe" row = Some v → truthy v = false →
           query_harmful_label item = Some true)) ∧
  (truthy (dict_get_or row "category" (PDict [])) = true →
   (∀ flags, dict_get_or row "category" (PDict []) ≠ PDict flags) →
   BeaverTails.mapping uid (PDict row) = Raise AttributeError).
Proof.
  unfold BeaverTails.mapping. cbn [as_dict mbind result_bind].
  set (c := dict_get_or row "category" (PDict [])). split.
  - intros Hc.
    assert (∃ text, BeaverTails._extract_categories c = Ok text ∧
                    (truthy c = false → text = "")) as (text & -> & Htext).
    { unfold BeaverTails._extract_categories.
      destruct Hc as [Hc|[flags Hc]].
      - rewrite Hc. by eexists.
      - rewrite Hc. destruct (truthy (PDict flags)) eqn:Ht; by eexists. }
    cbn [mbind result_bind]. eexists. split; [reflexivity|].
    cbn [category query_harmful_label response_harmful_label].
    split_and!; try done.
    + intros Hf. by rewrite (Htext Hf).
    + intros v Hv Hf. unfold dict_get_or. rewrite Hv. cbn. by rewrite Hf.
  - intros Ht Hnd. unfold BeaverTails._extract_categories. rewrite Ht.
    cbn [negb]. destruct c; try done. by destruct (Hnd d).
Qed.

Lemma beavertails_field_values_witness :
  ∃ item,
    BeaverTails.mapping "" (PDict [("prompt", PStr "q"); ("is_safe", PNone)])
      = Ok (Some item) ∧
    query_harmful_label item = Some true.
Proof.
  destruct (beavertails_field_values "" [("prompt", PStr "q"); ("is_safe", PNone)])
    as [Hok _].
  destruct Hok as (item & Hmap & _ & _ & _ & Hnull); [by left|].
  exists item. split; [done|]. by apply (Hnull PNone).
Defined.

(** X14.  A bingoguard prompt label that counts as false (absent, null,
    empty, zero) gives the category safe and the query label false; so
    does a text without colon that does not contain unsafe.  The Record
    is built unless the label's level number is too long for [int], when
    the mapping raises ValueError. *)
Theorem bingoguard_safe_default (uid : string) (row : pydict) :
  is_str_or_None (dict_get_or row "label" (PStr "")) = true →
  truthy (dict_get_or row "prompt_label" (PStr "")) = false ∨
  (∃ p, dict_get_or row "prompt_label" (PStr "") = PStr p ∧
        Str.contains ":" p = false ∧ Str.contains "unsafe" p = false) →
  (∃ item, BingoGuard.mapping uid (PDict row) = Ok (Some item) ∧
     category item = PStr "safe" ∧
     query_harmful_label item = Some false) ∨
  (BingoGuard.mapping uid (PDict row) = Raise ValueError ∧
   severity_overflow (dict_get_or row "label" (PStr ""))).
Proof.
  intros Hl Hp.
  assert (BingoGuard._parse_safety (dict_get_or row "prompt_label" (PStr ""))
          = Ok (false, "safe")) as Hsafety.
  { destruct Hp as [Hp|(p & -> & Hc & Hu)].
    - unfold BingoGuard._parse_safety. by rewrite Hp.
    - by rewrite parse_safety_str, Hc, Hu. }
  destruct (extract_severity_cases _ Hl) as [[Hover Hsev]|(_ & sev & Hsev & _)].
  - right. split; [|done]. unfold BingoGuard.mapping.
    cbn [as_dict mbind result_bind]. rewrite Hsafety. cbn [mbind result_bind].
    by rewrite Hsev.
  - left. destruct (bingoguard_mapping_fields uid row false "safe" sev Hsafety Hsev)
      as (item & Hmap & Hcat & _ & Hq & _).
    by exists item.
Qed.

Lemma bingoguard_safe_default_witness :
  ∃ item,
    BingoGuard.mapping "" (PDict [("prompt", PStr "q"); ("prompt_label", PStr "benign")])
      = Ok (Some item) ∧
    category item = PStr "safe" ∧
    query_harmful_label item = Some false.
Proof.
  destruct (bingoguard_safe_default ""
              [("prompt", PStr "q"); ("prompt_label", PStr "benign")])
    as [H|[H _]]; [reflexivity|right; by exists "benign"|exact H|discriminate H].
Defined.

(** X15.  A bingoguard label field holding a number that counts as true
    (a non-zero integer, or the boolean true) is not searched but
    raises: TypeError from the prompt label whatever the rest of the row,
    and from the label field when the prompt label is a text or missing. *)
Theorem bingoguard_numeric_label_raises (uid : string) (row : pydict) :
  (is_truthy_number (dict_get_or row "prompt_label" (PStr "")) = true →
   BingoGuard.mapping uid (PDict row) = Raise TypeError) ∧
  (is_str_or_None (dict_get_or row "prompt_label" (PStr "")) = true →
   is_truthy_number (dict_get_or row "label" (PStr "")) = true →
   BingoGuard.mapping uid (PDict row) = Raise TypeError).
Proof.
  unfold BingoGuard.mapping. cbn [as_dict mbind result_bind]. split.
  - intros Hp. destruct (dict_get_or row "prompt_label" (PStr "")) as [|b|z| | |];
      try done; cbn in Hp; unfold BingoGuard._parse_safety; cbn [truthy];
      by rewrite Hp.
  - intros Hp Hl. destruct (parse_safety_typed _ Hp) as [cat ->].
    cbn [mbind result_bind].
    destruct (dict_get_or row "label" (PStr "")) as [|b|z| | |];
      try done; cbn in Hl; unfold BingoGuard._extract_severity; cbn [truthy];
      by rewrite Hl.
Qed.

Lemma bingoguard_numeric_label_raises_witness :
  BingoGuard.mapping "" (PDict [("prompt", PStr "q"); ("prompt_label", PInt 1)])
  = Raise TypeError.
Proof.
  apply (proj1 (bingoguard_numeric_label_raises ""
                  [("prompt", PStr "q"); ("prompt_label", PInt 1)])).
  reflexivity.
Defined.

(** X16.  For text (or missing) label fields: the mapping raises
    ValueError exactly when the leftmost level number of the label has
    more than 4300 digits; otherwise the severity stored in the extra bag
    is null or a natural number below 10 ^ 4300, and it is null when the
    label field is absent, null or empty. *)
Theorem bingoguard_severity_range (uid : string) (row : pydict) :
  is_str_or_None (dict_get_or row "prompt_label" (PStr "")) = true →
  is_str_or_None (dict_get_or row "label" (PStr "")) = true →
  (severity_overflow (dict_get_or row "label" (PStr "")) →
   BingoGuard.mapping uid (PDict row) = Raise ValueError) ∧
  (¬ severity_overflow (dict_get_or row "label" (PStr "")) →
   ∃ item sev, BingoGuard.mapping uid (PDict row) = Ok (Some item) ∧
     dict_lookup "severity" (extra item) = Some sev ∧
     (sev = PNone ∨ ∃ n : N, sev = PInt (Z.of_N n) ∧ (n < 10 ^ 4300)%N) ∧
     (truthy (dict_get_or row "label" (PStr "")) = false → sev = PNone)) ∧
  (severity_overflow (dict_get_or row "label" (PStr "")) ∨
   ¬ severity_overflow (dict_get_or row "label" (PStr ""))).
Proof.
  intros Hp Hl. destruct (parse_safety_typed _ Hp) as [cat Hcat].
  destruct (extract_severity_cases _ Hl)
    as [[Hover Hsev]|(Hnot & sev & Hsev & Hrange & Hfalsy)].
  - split_and!; [|done|by left]. intros _. unfold BingoGuard.mapping.
    cbn [as_dict mbind result_bind]. rewrite Hcat. cbn [mbind result_bind].
    by rewrite Hsev.
  - split_and!; [done| |by right]. intros _.
    destruct (bingoguard_mapping_fields uid row _ _ sev Hcat Hsev)
      as (item & Hmap & _ & Hs & _).
    by exists item, sev.
Qed.

Lemma bingoguard_severity_range_witness :
  (∃ item, BingoGuard.mapping "" (PDict blank_response_row) = Ok (Some item) ∧
     dict_lookup "severity" (extra item) = Some (PInt 3)) ∧
  BingoGuard.mapping "" (PDict long_level_row) = Raise ValueError.
Proof.
  split.
  - destruct (bingoguard_severity_range "" blank_response_row)
      as (Hraise & Hok & [Hover|Hnot]); [reflexivity..| |].
    + pose proof (Hraise Hover) as H. vm_compute in H. discriminate H.
    + destruct (Hok Hnot) as (item & sev & Hmap & _). exists item.
      split; [exact Hmap|]. vm_compute in Hmap. by injection Hmap as <-.
  - destruct (bingoguard_severity_range "" long_level_row)
      as (Hraise & Hok & [Hover|Hnot]); [reflexivity..|by apply Hraise|].
    destruct (Hok Hnot) as (item & sev & Hmap & _).
    vm_compute in Hmap. discriminate Hmap.
Defined.

(** ** The two files of harmbench *)

Lemma Forall_enumerate {A : Type} (P : A → Prop) (start : Z) (l : list A) :
  Forall P l → Forall (λ ix, P (snd ix)) (enumerate start l).
Proof.
  revert start. induction l as [|x l IH]; intros start Hl; [constructor|].
  apply Forall_cons in Hl as [Hx Hl]. constructor; [done|by apply IH].
Qed.

(** X17.  Reading the tabular file: without a FunctionalCategory column
    the parse raises KeyError; with it, one Record is built per row whose
    functional category is standard or copyright, the other rows being
    dropped, and every Record is marked harmful on the query side, with no
    response and no response labels. *)
Theorem parse_query_csv_allow_list (read_csv : pyval → result DataFrame)
    (uuid4 : Z → string) (file : pyval) (start_idx : Z) (df : DataFrame) :
  read_csv file = Ok df →
  ("FunctionalCategory" ∉ columns df →
   HarmBench._parse_query_csv read_csv uuid4 file start_idx = Raise KeyError) ∧
  ("FunctionalCategory" ∈ columns df →
   ∃ items,
     HarmBench._parse_query_csv read_csv uuid4 file start_idx = Ok items ∧
     length items = length (List.filter HarmBench.allow_listed (records df)) ∧
     Forall (λ item,
               query_harmful_label item = Some true ∧
               response item = PNone ∧
               response_harmful_label item = None ∧
               response_refusal_label item = None ∧
               (dict_lookup "functional_category" (extra item) = Some (PStr "standard") ∨
                dict_lookup "functional_category" (extra item) = Some (PStr "copyright")))
            items).
Proof.
  intros Hdf. unfold HarmBench._parse_query_csv. rewrite Hdf.
  cbn [mbind result_bind]. split; intros Hcol.
  - by rewrite bool_decide_eq_false_2.
  - rewrite bool_decide_eq_true_2 by done. eexists. split; [reflexivity|].
    split; [by rewrite length_fmap, enumerate_length|].
    apply Forall_fmap.
    eapply Forall_impl;
      [apply (Forall_enumerate (λ row, HarmBench.allow_listed row = true))|].
    + apply Forall_forall. intros row Hrow%list_elem_of_In.
      by apply filter_In in Hrow as [_ Hrow].
    + intros [i row] Hrow. cbn [snd] in Hrow.
      cbn. split_and!; try done.
      unfold HarmBench.allow_listed in Hrow.
      apply orb_true_iff in Hrow as [Hrow|Hrow]; apply py_eq_str in Hrow;
        rewrite Hrow; [by left|by right].
Qed.

Lemma parse_query_csv_allow_list_witness :
  ∃ items,
    HarmBench._parse_query_csv (λ _, Ok three_row_csv) (λ _, "")
      (PStr "behaviors.csv") 1 = Ok items ∧
    length items = 3%nat.
Proof.
  destruct (parse_query_csv_allow_list (λ _, Ok three_row_csv) (λ _, "")
              (PStr "behaviors.csv") 1 three_row_csv eq_refl) as [_ Hok].
  destruct Hok as (items & Hparse & Hlen & _).
  - cbn. repeat first [by apply list_elem_of_here | apply list_elem_of_further].
  - by exists items.
Defined.

(** X18.  A nested case with binary votes (a missing vote counting as 0)
    is marked harmful on the response side exactly when at least two of
    the three annotators voted 1.  Its query label is true, its category
    the text harmful, and its prompt type is vanilla only when the field
    experiment holds the text default. *)
Theorem json_item_two_of_three (uuid4 : Z → string) (i : Z) (case : pydict)
    (vote0 vote1 vote2 : bool) :
  dict_get_or case "human_0" (PInt 0) = PInt (int_of_bool vote0) →
  dict_get_or case "human_1" (PInt 0) = PInt (int_of_bool vote1) →
  dict_get_or case "human_2" (PInt 0) = PInt (int_of_bool vote2) →
  ∃ item, HarmBench.json_item uuid4 (i, case) = Ok item ∧
    response_harmful_label item
      = Some (vote0 && vote1 || vote0 && vote2 || vote1 && vote2) ∧
    query_harmful_label item = Some true ∧
    category item = PStr "harmful" ∧
    (dict_lookup "prompt_type" (extra item) = Some (PStr "vanilla")
     ↔ dict_lookup "experiment" case = Some (PStr "default")).
Proof.
  intros H0 H1 H2. unfold HarmBench.json_item. rewrite H0, H1, H2.
  cbn [py_sum mbind result_bind]. eexists. split; [reflexivity|].
  cbn [response_harmful_label query_harmful_label category extra].
  split_and!; try done.
  - by destruct vote0, vote1, vote2.
  - cbn [dict_lookup String.eqb Ascii.eqb Bool.eqb]. unfold py_ne.
    rewrite <- (dict_get_is_str case "experiment" "default").
    rewrite <- (py_eq_str (dict_get case "experiment") "default").
    destruct (py_eq (dict_get case "experiment") (PStr "default")); cbn;
      split; intros H; try done; discriminate H.
Qed.

Lemma json_item_two_of_three_witness :
  ∃ item,
    HarmBench.json_item (λ _, "")
      (4, [("test_case", PStr "t1"); ("human_0", PInt 1); ("human_1", PInt 1)])
      = Ok item ∧
    response_harmful_label item = Some true.
Proof.
  destruct (json_item_two_of_three (λ _, "") 4
              [("test_case", PStr "t1"); ("human_0", PInt 1); ("human_1", PInt 1)]
              true true false) as (item & Hitem & Hr & _); [reflexivity..|].
  by exists item.
Defined.

Lemma py_sum_not_numeric (values : list pyval) :
  forallb is_number values = false → py_sum values = Raise TypeError.
Proof.
  induction values as [|v values IH]; [done|]. cbn [forallb].
  intros Hv. destruct v; try done; cbn [is_number andb] in Hv;
    cbn [py_sum]; by rewrite (IH Hv).
Qed.

Lemma json_items_not_numeric (uuid4 : Z → string) (start : Z) (cases : list pydict) :
  forallb votes_numeric cases = false →
  HarmBench.json_items uuid4 (enumerate start cases) = Raise TypeError.
Proof.
  revert start. induction cases as [|case cases IH]; intros start; [done|].
  cbn [forallb enumerate HarmBench.json_items]. intros Hc.
  destruct (votes_numeric case) eqn:Hv.
  - destruct (json_item_spec uuid4 start case Hv) as (item & -> & _).
    cbn [mbind result_bind]. by rewrite (IH _ Hc).
  - unfold HarmBench.json_item. by rewrite (py_sum_not_numeric _ Hv).
Qed.

Lemma flatten_votes_eq (raw_data : list (string * list pydict)) :
  forallb votes_numeric (HarmBench.flatten raw_data)
  = forallb votes_numeric (mjoin raw_data.*2).
Proof.
  induction raw_data as [|[key group] raw IH]; [done|].
  rewrite flatten_cons, cases_cons, !forallb_app, IH. f_equal.
  induction group as [|case group IHg]; [done|].
  cbn [forallb fmap list_fmap]. by rewrite tagged_votes, IHg.
Qed.

(** X19.  Reading the nested file: when every vote of every case is a
    number (or missing), one Record is built per case; as soon as one vote
    is anything else (null, a text), the parse raises TypeError and
    returns no Record. *)
Theorem parse_response_json_votes
    (json_load : pyval → result (list (string * list pydict)))
    (uuid4 : Z → string) (file : pyval) (start_idx : Z)
    (raw_data : list (string * list pydict)) :
  json_load file = Ok raw_data →
  (forallb votes_numeric (mjoin raw_data.*2) = true →
   ∃ items,
     HarmBench._parse_response_json json_load uuid4 file start_idx = Ok items ∧
     length items = length (mjoin raw_data.*2)) ∧
  (forallb votes_numeric (mjoin raw_data.*2) = false →
   HarmBench._parse_response_json json_load uuid4 file start_idx = Raise TypeError).
Proof.
  intros Hraw. unfold HarmBench._parse_response_json. rewrite Hraw.
  cbn [mbind result_bind]. split; intros Hv.
  - destruct (json_items_spec uuid4 start_idx (HarmBench.flatten raw_data))
      as (items & -> & Hids & _); [by rewrite flatten_votes_eq|].
    exists items. split; [done|].
    apply (f_equal length) in Hids.
    rewrite !length_fmap, length_seqZ, flatten_length in Hids. lia.
  - apply json_items_not_numeric. by rewrite flatten_votes_eq.
Qed.

Lemma parse_response_json_votes_witness :
  HarmBench._parse_response_json (λ _, Ok null_vote_json) (λ _, "")
    (PStr "val_set.json") 1 = Raise TypeError.
Proof.
  apply (parse_response_json_votes (λ _, Ok null_vote_json) (λ _, "")
           (PStr "val_set.json") 1 null_vote_json eq_refl).
  reflexivity.
Defined.

Lemma json_items_behavior_id (uuid4 : Z → string) (start : Z)
    (cases : list pydict) (items : list DataItem) :
  HarmBench.json_items uuid4 (enumerate start cases) = Ok items →
  (λ item, dict_lookup "behavior_id" (extra item)) <$> items
  = (λ case, Some (dict_get case "_behavior_id_key")) <$> cases.
Proof.
  revert start items. induction cases as [|case cases IH]; intros start items.
  - by intros [= <-].
  - cbn [enumerate HarmBench.json_items]. unfold HarmBench.json_item at 1.
    destruct (py_sum _) as [total|]; [|done]. cbn [mbind result_bind].
    destruct (HarmBench.json_items uuid4 (enumerate (start + 1) cases))
      as [rest|] eqn:Hrest; [|done].
    cbn [mbind result_bind]. intros [= <-]. cbn [fmap list_fmap].
    f_equal. by apply (IH (start + 1)).
Qed.

(** X20.  Each Record of the nested file keeps the key of the group its
    case came from as behavior_id, in encounter order, also when the case
    already had an entry of the reserved name. *)
Theorem nested_records_keep_group_key
    (json_load : pyval → result (list (string * list pydict)))
    (uuid4 : Z → string) (file : pyval) (start_idx : Z)
    (raw_data : list (string * list pydict)) (items : list DataItem) :
  json_load file = Ok raw_data →
  HarmBench._parse_response_json json_load uuid4 file start_idx = Ok items →
  (λ item, dict_lookup "behavior_id" (extra item)) <$> items
  = mjoin ((λ group, replicate (length (snd group)) (Some (PStr (fst group))))
           <$> raw_data).
Proof.
  intros Hraw. unfold HarmBench._parse_response_json. rewrite Hraw.
  cbn [mbind result_bind]. intros Hitems.
  rewrite (json_items_behavior_id _ _ _ _ Hitems). clear Hitems Hraw.
  induction raw_data as [|[key group] raw IH]; [done|].
  rewrite flatten_cons, fmap_app, IH. cbn [fmap list_fmap mjoin list_join fst snd].
  f_equal. induction group as [|case group IHg]; [done|].
  cbn [fmap list_fmap length replicate]. rewrite IHg. f_equal.
  unfold dict_get, dict_get_or. by rewrite dict_lookup_set_eq.
Qed.

Lemma nested_records_keep_group_key_witness :
  ∃ items,
    HarmBench._parse_response_json (λ _, Ok two_group_json) (λ _, "")
      (PStr "val_set.json") 4 = Ok items ∧
    (λ item, dict_lookup "behavior_id" (extra item)) <$> items
    = [Some (PStr "k1"); Some (PStr "k1");
       Some (PStr "k2"); Some (PStr "k2"); Some (PStr "k2")].
Proof.
  eexists. split; [reflexivity|].
  by apply (nested_records_keep_group_key (λ _, Ok two_group_json) (λ _, "")
              (PStr "val_set.json") 4 two_group_json).
Defined.

(** X21.  The file paths given to the harmbench constructor are the ones
    its [load] uses when called without paths: a call that omits them is
    the call that passes them again.  The constructor also keeps both
    under their names among the stored options (None when not given), so
    that a fetch by the generic driver receives them as keyword
    arguments. *)
Theorem harmbench_constructor_paths (DEFAULT_HF_PATH path_arg : option string)
    (split : pyval) (kwargs : pydict) (self : Loader)
    (read_csv : pyval → result DataFrame)
    (json_load : pyval → result (list (string * list pydict)))
    (load_dataset : string → pydict → result fetched) (uuid4 : Z → string)
    (load_kwargs : pydict) (load_split : pyval) :
  HarmBench_init DEFAULT_HF_PATH path_arg split kwargs = Ok self →
  HarmBench.load read_csv json_load load_dataset uuid4 self PNone PNone load_kwargs
  = HarmBench.load read_csv json_load load_dataset uuid4 self
      (dict_get kwargs "query_task_path") (dict_get kwargs "response_task_path")
      load_kwargs ∧
  (NoDup load_kwargs.*1 →
   dict_lookup "query_task_path" load_kwargs = None →
   dict_lookup "response_task_path" load_kwargs = None →
   dict_lookup "query_task_path" (final_kwargs self load_split load_kwargs)
     = Some (dict_get kwargs "query_task_path") ∧
   dict_lookup "response_task_path" (final_kwargs self load_split load_kwargs)
     = Some (dict_get kwargs "response_task_path")).
Proof.
  unfold HarmBench_init.
  destruct (BaseDataLoader_init _ _ _ _) as [base|]; [|done].
  cbn [mbind result_bind]. intros [= <-].
  assert (dict_lookup "query_task_path"
            (dict_set "response_task_path" (dict_get kwargs "response_task_path")
               (dict_set "query_task_path" (dict_get kwargs "query_task_path")
                  (init_kwargs base)))
          = Some (dict_get kwargs "query_task_path")) as Hq.
  { rewrite dict_lookup_set_ne by done. apply dict_lookup_set_eq. }
  assert (dict_lookup "response_task_path"
            (dict_set "response_task_path" (dict_get kwargs "response_task_path")
               (dict_set "query_task_path" (dict_get kwargs "query_task_path")
                  (init_kwargs base)))
          = Some (dict_get kwargs "response_task_path")) as Hr
    by apply dict_lookup_set_eq.
  split.
  - set (stored := dict_set "response_task_path" _ _) in *.
    assert (dict_get stored "query_task_path" = dict_get kwargs "query_task_path")
      as Hq' by (unfold dict_get at 1, dict_get_or; by rewrite Hq).
    assert (dict_get stored "response_task_path" = dict_get kwargs "response_task_path")
      as Hr' by (unfold dict_get at 1, dict_get_or; by rewrite Hr).
    unfold HarmBench.load. cbn [init_kwargs]. rewrite Hq', Hr'.
    unfold py_or. cbn [truthy].
    assert (∀ v : pyval, (if truthy v then v else v) = v) as Hsame
      by (intros v; by destruct (truthy v)).
    by rewrite !Hsame.
  - intros Hnd Hqa Hra.
    rewrite !final_kwargs_lookup by done. rewrite Hqa, Hra.
    cbn [String.eqb Ascii.eqb Bool.eqb init_kwargs]. by rewrite Hq, Hr.
Qed.

Lemma harmbench_constructor_paths_witness :
  HarmBench.load (λ _, Ok three_row_csv) (λ _, Ok two_group_json)
    (λ _ _, Ok hub_one_row) (λ _, "")
    {| path := "walledai/HarmBench";
       init_kwargs := [("split", PStr "train");
                       ("query_task_path", PStr "behaviors.csv");
                       ("response_task_path", PNone)] |}
    PNone PNone []
  = HarmBench.load (λ _, Ok three_row_csv) (λ _, Ok two_group_json)
      (λ _ _, Ok hub_one_row) (λ _, "")
      {| path := "walledai/HarmBench";
         init_kwargs := [("split", PStr "train");
                         ("query_task_path", PStr "behaviors.csv");
                         ("response_task_path", PNone)] |}
      (PStr "behaviors.csv") PNone [].
Proof.
  apply (proj1 (harmbench_constructor_paths (Some "walledai/HarmBench") None
           (PStr "train") [("query_task_path", PStr "behaviors.csv")]
           _ (λ _, Ok three_row_csv) (λ _, Ok two_group_json)
           (λ _ _, Ok hub_one_row) (λ _, "") [] (PStr "train") eq_refl)).
Defined.

(** ** The registry of the package *)

Lemma imported_registry_lookup (name : string) :
  DataLoaderRegistry._registry DataLoaderRegistry.imported !! name
  = if String.eqb name "bingoguard" then Some 3%nat
    else if String.eqb name "beavertails" then Some 2%nat
    else if String.eqb name "aegis-v2" then Some 1%nat
    else if String.eqb name "aegis-v1" then Some 0%nat
    else None.
Proof.
  assert (DataLoaderRegistry._registry DataLoaderRegistry.imported
          = <["bingoguard" := 3%nat]>
              (<["beavertails" := 2%nat]> (<["aegis-v2" := 1%nat]>
                 (<["aegis-v1" := 0%nat]> ∅)))) as -> by reflexivity.
  destruct (String.eqb_spec name "bingoguard") as [->|?];
    [by rewrite lookup_insert_eq|rewrite lookup_insert_ne by done].
  destruct (String.eqb_spec name "beavertails") as [->|?];
    [by rewrite lookup_insert_eq|rewrite lookup_insert_ne by done].
  destruct (String.eqb_spec name "aegis-v2") as [->|?];
    [by rewrite lookup_insert_eq|rewrite lookup_insert_ne by done].
  destruct (String.eqb_spec name "aegis-v1") as [->|?];
    [by rewrite lookup_insert_eq|rewrite lookup_insert_ne by done].
  apply lookup_empty.
Qed.

Lemma imported_classes :
  DataLoaderRegistry.classes DataLoaderRegistry.imported
  = [ {| cls_REGISTER_NAME := "aegis-v1";
         cls_DEFAULT_HF_PATH := dict_lookup "aegis-v1" CONST_HF_DATASET_IDS;
         cls_init := BaseDataLoader_init; cls_mapping := AegisV1.mapping |};
      {| cls_REGISTER_NAME := "aegis-v2";
         cls_DEFAULT_HF_PATH := dict_lookup "aegis-v2" CONST_HF_DATASET_IDS;
         cls_init := BaseDataLoader_init; cls_mapping := AegisV2.mapping |};
      {| cls_REGISTER_NAME := "beavertails";
         cls_DEFAULT_HF_PATH := dict_lookup "beavertails" CONST_HF_DATASET_IDS;
         cls_init := BaseDataLoader_init; cls_mapping := BeaverTails.mapping |};
      {| cls_REGISTER_NAME := "bingoguard";
         cls_DEFAULT_HF_PATH := dict_lookup "bingoguard" CONST_HF_DATASET_IDS;
         cls_init := BaseDataLoader_init; cls_mapping := BingoGuard.mapping |} ].
Proof. reflexivity. Qed.

Lemma imported_base_registry_lookup (name : string) :
  DataLoaderRegistry._registry DataLoaderRegistry.imported_base !! name
  = if String.eqb name "harmbench" then Some 0%nat else None.
Proof.
  assert (DataLoaderRegistry._registry DataLoaderRegistry.imported_base
          = <["harmbench" := 0%nat]> ∅) as -> by reflexivity.
  destruct (String.eqb_spec name "harmbench") as [->|?];
    [by rewrite lookup_insert_eq|rewrite lookup_insert_ne by done].
  apply lookup_empty.
Qed.

Lemma imported_base_classes :
  DataLoaderRegistry.classes DataLoaderRegistry.imported_base
  = [ {| cls_REGISTER_NAME := "harmbench";
         cls_DEFAULT_HF_PATH := dict_lookup "harmbench" CONST_HF_DATASET_IDS;
         cls_init := HarmBench_init; cls_mapping := HarmBench.mapping |} ].
Proof. reflexivity. Qed.

Ltac known_source :=
  match goal with
  | |- context [dict_lookup ?n CONST_HF_DATASET_IDS] =>
      let d := fresh "d" in
      set (d := dict_lookup n CONST_HF_DATASET_IDS); vm_compute in d; subst d
  end.

(** X22.  Once the package is imported, [get_loader] of its registry
    builds a loader for each of the four names aegis-v1, aegis-v2,
    beavertails and bingoguard, and never fails for them: the loader's
    path is the path argument when that is a non-empty text, and otherwise
    the source identifier that the table holds for the name, and the class
    carries the name as REGISTER_NAME.  Any other name raises
    ValueError. *)
Theorem imported_get_loader (name : string) (path_arg : option string)
    (split : pyval) (kwargs : pydict) :
  (name ∈ registered_names →
   ∃ cid c self source,
     DataLoaderRegistry.get_loader name path_arg split kwargs
       DataLoaderRegistry.imported = Ok (cid, self) ∧
     DataLoaderRegistry.classes DataLoaderRegistry.imported !! cid = Some c ∧
     cls_REGISTER_NAME c = name ∧
     dict_lookup name CONST_HF_DATASET_IDS = Some source ∧
     path self = match path_arg with
                 | Some p => if String.eqb p "" then source else p
                 | None => source
                 end) ∧
  (name ∉ registered_names →
   DataLoaderRegistry.get_loader name path_arg split kwargs
     DataLoaderRegistry.imported = Raise ValueError).
Proof.
  unfold DataLoaderRegistry.get_loader.
  rewrite imported_registry_lookup, imported_classes. split.
  - intros Hname. unfold registered_names in Hname.
    repeat (apply elem_of_cons in Hname as [->|Hname]);
      [..|by apply elem_of_nil in Hname];
      cbn [String.eqb Ascii.eqb Bool.eqb lookup list_lookup];
      (destruct path_arg as [p|]; [destruct (String.eqb p "") eqn:Hp|]).
    all: known_source.
    all: cbn [cls_init cls_DEFAULT_HF_PATH cls_REGISTER_NAME];
      unfold BaseDataLoader_init, str_or;
      rewrite ?Hp; cbn [String.eqb Ascii.eqb Bool.eqb]; rewrite ?Hp.
    all: eexists _, _, _, _; repeat (split; [reflexivity|]); reflexivity.
  - intros Hname. unfold registered_names in Hname.
    repeat (apply not_elem_of_cons in Hname as [? Hname]).
    repeat match goal with
           | H : name ≠ ?s |- _ =>
               destruct (String.eqb_spec name s) as [?|_]; [contradiction|clear H]
           end.
    reflexivity.
Qed.

Lemma imported_get_loader_witness :
  ∃ cid self,
    DataLoaderRegistry.get_loader "aegis-v1" None (PStr "train") []
      DataLoaderRegistry.imported = Ok (cid, self) ∧
    path self = "nvidia/Aegis-AI-Content-Safety-Dataset-1.0".
Proof.
  destruct (imported_get_loader "aegis-v1" None (PStr "train") []) as [Hok _].
  destruct Hok as (cid & c & self & source & Hget & _ & _ & Hsrc & Hpath).
  - unfold registered_names. apply list_elem_of_here.
  - exists cid, self. split; [done|]. rewrite Hpath. by injection Hsrc as <-.
Defined.

(** X25.  The name harmbench is not in the registry of the package:
    [harmbench.py] registers its class with the [DataLoaderRegistry] of the
    top-level module [base], so [get_loader] of the package raises
    ValueError for it, whatever the arguments.  The registry of [base]
    knows that name and no other, and builds the loader with the source
    identifier of the table as default path. *)
Theorem harmbench_registered_elsewhere (name : string)
    (path_arg : option string) (split : pyval) (kwargs : pydict) :
  DataLoaderRegistry.get_loader "harmbench" path_arg split kwargs
    DataLoaderRegistry.imported = Raise ValueError ∧
  (∃ self,
     DataLoaderRegistry.get_loader "harmbench" path_arg split kwargs
       DataLoaderRegistry.imported_base = Ok (0%nat, self) ∧
     path self = match path_arg with
                 | Some p => if String.eqb p "" then "walledai/HarmBench" else p
                 | None => "walledai/HarmBench"
                 end) ∧
  (name ≠ "harmbench" →
   DataLoaderRegistry.get_loader name path_arg split kwargs
     DataLoaderRegistry.imported_base = Raise ValueError).
Proof.
  unfold DataLoaderRegistry.get_loader.
  rewrite imported_registry_lookup, !imported_base_registry_lookup,
    imported_base_classes.
  split; [reflexivity|]. split.
  - cbn [String.eqb Ascii.eqb Bool.eqb lookup list_lookup].
    known_source.
    destruct path_arg as [p|]; [destruct (String.eqb p "") eqn:Hp|].
    all: cbn [cls_init cls_DEFAULT_HF_PATH];
      unfold HarmBench_init, BaseDataLoader_init, str_or;
      rewrite ?Hp; cbn [String.eqb Ascii.eqb Bool.eqb]; rewrite ?Hp.
    all: eexists; split; reflexivity.
  - intros Hname. by destruct (String.eqb_spec name "harmbench").
Qed.

(** ** Splits that are not there, and the fallback of harmbench *)

Lemma text_row_no_record (cls : LoaderClass) (uid k : string) :
  cls ∈ [AegisV1.cls; AegisV2.cls; BeaverTails.cls; BingoGuard.cls; HarmBench.cls] →
  mapping cls uid (PStr k) = Raise AttributeError ∨ mapping cls uid (PStr k) = Ok None.
Proof.
  intros Hcls.
  repeat (apply elem_of_cons in Hcls as [->|Hcls]);
    [by left|by left|by left|by left|by right|by apply elem_of_nil in Hcls].
Qed.

Lemma map_rows_no_record (cls : LoaderClass) (uuid4 : Z → string) (i : Z)
    (row : pyval) (rest : list (Z * pyval)) :
  mapping cls (uuid4 i) row = Raise AttributeError ∨ mapping cls (uuid4 i) row = Ok None →
  BaseDataLoader.map_rows cls uuid4 ((i, row) :: rest) = Raise AttributeError.
Proof. intros [H|H]; cbn [BaseDataLoader.map_rows]; by rewrite H. Qed.

(** X23.  When the fetch collaborator returns a dictionary of splits that
    does not hold the requested split, [load] loops over the names of the
    splits instead of rows: for each of the five loader classes it
    raises AttributeError at the first name, and it returns the empty list
    only when the dictionary is empty. *)
Theorem load_missing_split (cls : LoaderClass)
    (load_dataset : string → pydict → result fetched) (uuid4 : Z → string)
    (self : Loader) (split : string) (load_kwargs : pydict)
    (splits : list (string * list pyval)) :
  cls ∈ [AegisV1.cls; AegisV2.cls; BeaverTails.cls; BingoGuard.cls; HarmBench.cls] →
  NoDup load_kwargs.*1 →
  dict_lookup "split" load_kwargs = None →
  load_dataset (path self) (final_kwargs self (PStr split) load_kwargs)
    = Ok (DatasetDict splits) →
  dict_lookup split splits = None →
  BaseDataLoader.load cls load_dataset uuid4 self (PStr split) load_kwargs
  = if bool_decide (splits = []) then Ok [] else Raise AttributeError.
Proof.
  intros Hcls Hnd Hsplit Hfetch Hrows.
  unfold BaseDataLoader.load, BaseDataLoader.fetch_rows.
  fold (final_kwargs self (PStr split) load_kwargs). rewrite Hfetch.
  cbn [mbind result_bind]. unfold dict_get_or.
  rewrite (final_kwargs_lookup self (PStr split) load_kwargs "split" Hnd).
  rewrite Hsplit.
  cbn [String.eqb Ascii.eqb Bool.eqb default from_option Datatypes.id hashable].
  rewrite Hrows. destruct splits as [|[k rows] rest]; [done|].
  rewrite bool_decide_eq_false_2 by done.
  cbn [fmap list_fmap fst enumerate].
  by apply map_rows_no_record, text_row_no_record.
Qed.

Lemma load_missing_split_witness :
  BaseDataLoader.load AegisV2.cls (λ _ _, Ok (DatasetDict sample_splits))
    (λ _, "u") sample_self (PStr "validation") []
  = Raise AttributeError.
Proof.
  apply (load_missing_split AegisV2.cls _ _ sample_self "validation" []
           sample_splits).
  - apply list_elem_of_further, list_elem_of_here.
  - apply NoDup_nil_2.
  - reflexivity.
  - reflexivity.
  - reflexivity.
Defined.

(** X24.  harmbench's [load] falls back on the hub when neither file path
    is given at the call or stored in the loader.  Its [mapping] builds
    nothing, so the fallback never returns a Record: it raises
    AttributeError as soon as the fetched split has a row, and returns the
    empty list when it has none. *)
Theorem harmbench_hub_fallback (read_csv : pyval → result DataFrame)
    (json_load : pyval → result (list (string * list pydict)))
    (load_dataset : string → pydict → result fetched) (uuid4 : Z → string)
    (self : Loader) (query_task_path response_task_path : pyval)
    (load_kwargs : pydict) :
  truthy (py_or query_task_path (dict_get (init_kwargs self) "query_task_path"))
    = false →
  truthy (py_or response_task_path (dict_get (init_kwargs self) "response_task_path"))
    = false →
  HarmBench.load read_csv json_load load_dataset uuid4 self
    query_task_path response_task_path load_kwargs
  = match BaseDataLoader.fetch_rows load_dataset self
            (dict_get_or load_kwargs "split" (PStr "train"))
            (dict_remove "split" load_kwargs) with
    | Ok [] => Ok []
    | Ok (_ :: _) => Raise AttributeError
    | Raise e => Raise e
    end.
Proof.
  intros Hq Hr. unfold HarmBench.load. rewrite Hq, Hr.
  cbn [mbind result_bind app]. rewrite bool_decide_eq_true_2 by done.
  unfold BaseDataLoader.load.
  destruct (BaseDataLoader.fetch_rows _ _ _ _) as [[|row rows]|e]; [done| |done].
  cbn [mbind result_bind enumerate].
  apply map_rows_no_record. by right.
Qed.

Lemma harmbench_hub_fallback_witness :
  HarmBench.load (λ _, Ok contextual_only_csv) (λ _, Ok [])
    (λ _ _, Ok hub_one_row) (λ _, "") harmbench_self PNone PNone []
  = Raise AttributeError.
Proof.
  apply (harmbench_hub_fallback _ _ (λ _ _, Ok hub_one_row) _ harmbench_self
           PNone PNone []); reflexivity.
Defined.
